(** * ESGreporter: the PDF indexing pipeline of [add_documents_to_index.py]

    A shallow embedding of the ingestion script and the properties of its
    chunker, metadata classifier, document assembler and batch uploader.

    Conventions of the embedding.
    - Python [int] is [Z]; [str] is [string].  File names and keywords are
      taken to be ASCII: [lower], [title], [isspace] and [\d] act on the
      ASCII range and leave other bytes alone.
    - Everything outside the script (environment, filesystem, PyPDF2,
      tiktoken, Azure clients, clock, hashlib) is an operation of a
      [Platform]; operations that touch the outside world transform an
      abstract [world] and are recorded, with their results, in a trace.
    - [print] appends a structured message to the same trace.
    - A Python exception is the [Raise] outcome; the trace and the world
      survive it, as side effects do. *)

From Stdlib Require Import ZArith List String Ascii Bool Lia Sorted.
From Stdlib Require Import DecimalString.
Import ListNotations.
Open Scope string_scope.
Open Scope Z_scope.

(** ** Python string primitives *)

Module PyStr.

Definition is_upper (c : ascii) : bool :=
  let n := nat_of_ascii c in (65 <=? n)%nat && (n <=? 90)%nat.

Definition is_lower (c : ascii) : bool :=
  let n := nat_of_ascii c in (97 <=? n)%nat && (n <=? 122)%nat.

Definition is_digit (c : ascii) : bool :=
  let n := nat_of_ascii c in (48 <=? n)%nat && (n <=? 57)%nat.

(** [str.isspace] on the ASCII range: tab, LF, VT, FF, CR, FS, GS, RS, US
    and the space. *)
Definition is_space (c : ascii) : bool :=
  let n := nat_of_ascii c in
  ((9 <=? n)%nat && (n <=? 13)%nat) || ((28 <=? n)%nat && (n <=? 32)%nat).

Definition to_lower (c : ascii) : ascii :=
  if is_upper c then ascii_of_nat (nat_of_ascii c + 32) else c.

Definition to_upper (c : ascii) : ascii :=
  if is_lower c then ascii_of_nat (nat_of_ascii c - 32) else c.

(** [s.lower()] *)
Fixpoint lower (s : string) : string :=
  match s with
  | EmptyString => EmptyString
  | String c s' => String (to_lower c) (lower s')
  end.

(** [s.title()]: a letter that follows a letter is lowered, any other letter
    is raised. *)
Fixpoint title_from (prev_cased : bool) (s : string) : string :=
  match s with
  | EmptyString => EmptyString
  | String c s' =>
      let cased := is_upper c || is_lower c in
      String (if prev_cased then to_lower c else to_upper c)
             (title_from cased s')
  end.

Definition title (s : string) : string := title_from false s.

(** [needle in s] *)
Fixpoint contains (needle s : string) : bool :=
  prefix needle s ||
  match s with
  | EmptyString => false
  | String _ s' => contains needle s'
  end.

(** [any(k in s for k in keys)] *)
Definition any_in (keys : list string) (s : string) : bool :=
  existsb (fun k => contains k s) keys.

(** [len(s)] *)
Definition len (s : string) : Z := Z.of_nat (String.length s).

Definition digit_val (c : ascii) : Z := Z.of_nat (nat_of_ascii c) - 48.

(** [re.search(r'20\d{2}', s)] followed by [int(m.group())]: the leftmost
    position where the pattern matches. *)
Fixpoint search_year (s : string) : option Z :=
  match s with
  | EmptyString => None
  | String c s' =>
      match s with
      | String "2" (String "0" (String d1 (String d2 _))) =>
          if is_digit d1 && is_digit d2
          then Some (2000 + 10 * digit_val d1 + digit_val d2)
          else search_year s'
      | _ => search_year s'
      end
  end.

Fixpoint lstrip (s : string) : string :=
  match s with
  | EmptyString => EmptyString
  | String c s' => if is_space c then lstrip s' else s
  end.

Fixpoint rstrip (s : string) : string :=
  match s with
  | EmptyString => EmptyString
  | String c s' =>
      match rstrip s' with
      | EmptyString => if is_space c then EmptyString else String c EmptyString
      | r => String c r
      end
  end.

(** [s.strip()] *)
Definition strip (s : string) : string := rstrip (lstrip s).

(** [len(s.split())]: the number of maximal runs of non-space characters. *)
Fixpoint count_words_from (in_word : bool) (s : string) : Z :=
  match s with
  | EmptyString => 0
  | String c s' =>
      if is_space c then count_words_from false s'
      else (if in_word then 0 else 1) + count_words_from true s'
  end.

Definition count_words (s : string) : Z := count_words_from false s.

(** [str(n)] *)
Definition of_int (n : Z) : string := NilZero.string_of_int (Z.to_int n).

(** [', '.join(l)] and friends *)
Definition join (sep : string) (l : list string) : string := String.concat sep l.

(** [bool(s)] *)
Definition truthy (s : string) : bool :=
  match s with EmptyString => false | _ => true end.

(** [PurePath.name]: what follows the last slash. *)
Fixpoint path_name_from (acc s : string) : string :=
  match s with
  | EmptyString => acc
  | String c s' =>
      if Ascii.eqb c "/" then path_name_from s' s' else path_name_from acc s'
  end.

Definition path_name (p : string) : string := path_name_from p p.

End PyStr.

(** ** Python list primitives *)

Module PyList.

Section Slices.
Context {A : Type}.

(** [len(l)] *)
Definition len (l : list A) : Z := Zlength l.

(** A slice bound as Python normalises it: a negative bound counts from the
    end, and the result is clamped to [0, len]. *)
Definition clamp (n i : Z) : Z :=
  if i <? 0 then Z.max (i + n) 0 else Z.min i n.

(** [l[lo:hi]] *)
Definition slice (l : list A) (lo hi : Z) : list A :=
  let n := len l in
  let lo' := clamp n lo in
  let hi' := clamp n hi in
  firstn (Z.to_nat (hi' - lo')) (skipn (Z.to_nat lo') l).

End Slices.

(** [list(range(start, stop, step))] for a positive step. *)
Definition range (start stop step : Z) : list Z :=
  map (fun k => start + step * Z.of_nat k)
      (seq 0 (Z.to_nat ((stop - start + step - 1) / step))).

(** [enumerate(l)] *)
Fixpoint enumerate_from {A : Type} (i : Z) (l : list A) : list (Z * A) :=
  match l with
  | [] => []
  | x :: l' => (i, x) :: enumerate_from (i + 1) l'
  end.

Definition enumerate {A : Type} (l : list A) : list (Z * A) := enumerate_from 0 l.

End PyList.

(** ** Metadata classifier: [get_esg_metadata] *)

Record Metadata := mkMetadata {
  institution : string;
  document_type : string;
  year : Z;
  tags : string
}.

Definition default_metadata : Metadata :=
  {| institution := "Unknown";
     document_type := "ESG Document";
     year := 2024;
     tags := "esg,sustainability" |}.

Definition companies : list string :=
  ["microsoft"; "apple"; "google"; "amazon"; "tesla"; "nvidia"; "meta"].

Definition environmental_terms : list string :=
  ["climate"; "carbon"; "environment"; "green"].
Definition social_terms : list string :=
  ["diversity"; "social"; "inclusion"; "community"].
Definition governance_terms : list string :=
  ["governance"; "board"; "ethics"; "compliance"].

Definition set_institution (m : Metadata) (v : string) : Metadata :=
  {| institution := v; document_type := document_type m;
     year := year m; tags := tags m |}.
Definition set_document_type (m : Metadata) (v : string) : Metadata :=
  {| institution := institution m; document_type := v;
     year := year m; tags := tags m |}.
Definition set_tags (m : Metadata) (v : string) : Metadata :=
  {| institution := institution m; document_type := document_type m;
     year := year m; tags := v |}.
Definition set_year (m : Metadata) (v : Z) : Metadata :=
  {| institution := institution m; document_type := document_type m;
     year := v; tags := tags m |}.

(** The inner [for company in ...: if company in filename: ...; break]. *)
Fixpoint first_company (cs : list string) (filename : string) (m : Metadata)
  : Metadata :=
  match cs with
  | [] => m
  | company :: cs' =>
      if PyStr.contains company filename
      then set_institution m (PyStr.title company)
      else first_company cs' filename m
  end.

(** The [if]/[elif] chain of the classifier, before the year is looked at.
    [filename] is already lowered. *)
Definition classify_rules (filename : string) : Metadata :=
  let metadata := default_metadata in
  if PyStr.contains "gri" filename then
    set_tags (set_document_type (set_institution metadata
      "Global Reporting Initiative") "GRI Standards")
      "gri,standards,sustainability,reporting"
  else if PyStr.contains "sasb" filename then
    set_tags (set_document_type (set_institution metadata
      "Sustainability Accounting Standards Board") "SASB Standards")
      "sasb,standards,sustainability,accounting"
  else if PyStr.contains "tcfd" filename then
    set_tags (set_document_type (set_institution metadata
      "Task Force on Climate-related Financial Disclosures") "TCFD Framework")
      "tcfd,climate,risk,disclosure"
  else if PyStr.any_in companies filename then
    let metadata := first_company companies filename metadata in
    if PyStr.contains "sustainability" filename || PyStr.contains "esg" filename
    then set_tags (set_document_type metadata "Corporate ESG Report")
           "corporate,esg,sustainability,report"
    else if PyStr.contains "climate" filename
    then set_tags (set_document_type metadata "Climate Report")
           "climate,corporate,environmental"
    else metadata
  else if PyStr.any_in environmental_terms filename then
    set_tags (set_document_type metadata "Environmental Report")
      "environmental,climate,carbon,green"
  else if PyStr.any_in social_terms filename then
    set_tags (set_document_type metadata "Social Impact Report")
      "social,diversity,inclusion,community"
  else if PyStr.any_in governance_terms filename then
    set_tags (set_document_type metadata "Governance Report")
      "governance,ethics,compliance,board"
  else metadata.

(** [get_esg_metadata(file_path)]; [file_path] is the full path. *)
Definition get_esg_metadata (file_path : string) : Metadata :=
  let filename := PyStr.lower (PyStr.path_name file_path) in
  let metadata := classify_rules filename in
  match PyStr.search_year filename with
  | Some y => set_year metadata y
  | None => metadata
  end.

(** ** The outside world *)

(** The message carried by a Python exception. *)
Definition exn := string.

(** What a library call gives back. *)
Inductive outcome (A : Type) : Type :=
| Returns (a : A)
| Throws (e : exn).
Arguments Returns {A} a.
Arguments Throws {A} e.

(** A [tiktoken] encoding. *)
Record Tokenizer := mkTokenizer {
  encode : string -> outcome (list Z);
  decode : list Z -> outcome string
}.

(** One entry of the answer of [SearchClient.upload_documents]. *)
Record IndexingResult := mkIndexingResult {
  succeeded : bool;
  error_message : option string
}.

(** [SearchClient(endpoint=..., index_name=..., credential=AzureKeyCredential(...))] *)
Record SearchClient := mkSearchClient {
  sc_endpoint : option string;
  sc_index_name : string;
  sc_credential : option string
}.

(** [AzureOpenAI(azure_endpoint=..., api_key=..., api_version=...)] *)
Record AzureOpenAI := mkAzureOpenAI {
  azure_endpoint : option string;
  api_key : option string;
  api_version : string
}.

(** The dictionary built for each chunk (lines 285-302). *)
Record Document (F : Type) := mkDocument {
  doc_id : string;
  doc_title : string;
  doc_content : string;
  doc_summary : string;
  doc_document_type : string;
  doc_institution : string;
  doc_year : Z;
  doc_file_format : string;
  doc_tags : string;
  chunk_index : Z;
  total_chunks : Z;
  doc_file_path : string;
  doc_file_size : Z;
  doc_created_date : string;
  doc_relevance_score : F;
  content_vector : list F
}.
Arguments mkDocument {F}.
Arguments doc_id {F}.
Arguments doc_title {F}.
Arguments doc_content {F}.
Arguments doc_summary {F}.
Arguments doc_document_type {F}.
Arguments doc_institution {F}.
Arguments doc_year {F}.
Arguments doc_file_format {F}.
Arguments doc_tags {F}.
Arguments chunk_index {F}.
Arguments total_chunks {F}.
Arguments doc_file_path {F}.
Arguments doc_file_size {F}.
Arguments doc_created_date {F}.
Arguments doc_relevance_score {F}.
Arguments content_vector {F}.

(** The libraries and services the script runs against.  [float] is the
    type of Python floats, [world] the state of everything outside the
    process.  A PDF is opened to the list of its pages, each of which either
    yields its text or fails to extract. *)
Class Platform := mkPlatform {
  float : Type;
  world : Type;
  (** [hashlib.md5(s.encode()).hexdigest()] *)
  md5_hexdigest : string -> string;
  (** [n / d] with a float divisor *)
  true_div : Z -> Z -> float;
  (** [os.getenv(var)], after [load_dotenv()]: the environment of the
      process, which nothing outside it changes during the run *)
  getenv : string -> option string;
  (** What the constructor [SearchClient(...)], with the
      [AzureKeyCredential(...)] it is given, makes of its arguments: it
      accepts them or throws *)
  SearchClient_init : SearchClient -> outcome unit;
  (** The same for [AzureOpenAI(...)] *)
  AzureOpenAI_init : AzureOpenAI -> outcome unit;
  (** [Path.exists()] *)
  path_exists : string -> world -> outcome bool * world;
  (** [list(dir.glob("*.pdf"))] *)
  glob_pdf : string -> world -> outcome (list string) * world;
  (** [open(path, 'rb')] and [PyPDF2.PdfReader(file)] *)
  open_pdf : string -> world -> outcome (list (outcome string)) * world;
  (** [path.stat().st_size] *)
  stat_size : string -> world -> outcome Z * world;
  (** [datetime.now().strftime('%Y-%m-%dT%H:%M:%S.%fZ')] *)
  now_strftime : world -> string * world;
  (** [tiktoken.encoding_for_model(name)] *)
  encoding_for_model : string -> world -> outcome Tokenizer * world;
  (** [client.embeddings.create(input=text, model=model).data[0].embedding] *)
  embeddings_create :
    AzureOpenAI -> string -> string -> world -> outcome (list float) * world;
  (** [search_client.upload_documents(documents=batch)] *)
  upload_documents :
    SearchClient -> list (Document float) -> world ->
    outcome (list IndexingResult) * world
}.

(** ** Console output and the trace *)

(** One constructor per message of the script, with the values it shows; the
    rules of [=] printed around a heading belong to the heading. *)
Inductive msg : Type :=
| MExtracting (name : string)
| MNoPages
| MProcessingPages (pages : Z)
| MProcessedPages (done pages : Z)
| MPageWarning (page : Z) (e : exn)
| MExtracted (chars pages : Z)
| MExtractError (e : exn)
| MChunking (max_tokens overlap : Z)
| MTotalTokens (n : Z)
| MSingleChunk (n : Z)
| MChunkProgress (chunk_num start total : Z)
| MChunkLimit (max_chunks : Z)
| MChunksCreated (n : Z)
| MChunkError (e : exn)
| MEmbedding (chars : Z)
| MEmbedded
| MEmbedError (e : exn)
| MBanner
| MMissingVars (listing : string)
| MEnvHint
| MInitClients
| MDirNotFound (dir : string)
| MDirHint (dir : string)
| MNoPdfFiles (dir : string)
| MFound (n : Z)
| MFileEntry (i : Z) (name : string)
| MStarting
| MFileHeader (file_index total : Z) (name : string)
| MSkipFile (name : string)
| MTextLength (chars : Z)
| MClassified (doc_type inst : string)
| MChunksForProcessing (n : Z)
| MProcessingChunk (i total : Z)
| MSkipChunk (i : Z)
| MDocCreated (i : Z)
| MFileCompleted (name : string) (n : Z)
| MProgress (processed total : Z)
| MFileError (name : string) (e : exn)
| MUploadHeader (n : Z)
| MUploadingBatch (batch_num total_batches size : Z)
| MBatchPartial (batch_num success_count error_count : Z)
| MRecordError (message : option string)
| MBatchOk (batch_num success_count : Z)
| MBatchError (batch_num : Z) (e : exn)
| MUploadCompleted
| MSummaryFiles (processed total : Z)
| MSummaryChunks (uploaded total : Z)
| MSummaryIndex (name : string)
| MSummaryReady
| MSummaryFailed (failed_count : Z)
| MNoDocuments
| MDone
| MDoneHint.

(** How a computation ends.  [OutOfFuel] belongs to the embedding only: it
    marks a [while] loop cut short by its unrolling bound. *)
Inductive result (A : Type) : Type :=
| Ok (a : A)
| Raise (e : exn)
| OutOfFuel.
Arguments Ok {A} a.
Arguments Raise {A} e.
Arguments OutOfFuel {A}.

Section Effects.
Context {P : Platform}.

(** A call that left the process, with what came back. *)
Inductive call : Type :=
| CallExists (path : string) (r : outcome bool)
| CallGlob (dir : string) (r : outcome (list string))
| CallOpenPdf (path : string) (r : outcome (list (outcome string)))
| CallStat (path : string) (r : outcome Z)
| CallNow (r : string)
| CallEncoding (model : string) (r : outcome Tokenizer)
| CallEmbed (client : AzureOpenAI) (text model : string)
    (r : outcome (list float))
| CallUpload (client : SearchClient) (batch : list (Document float))
    (r : outcome (list IndexingResult)).

Inductive event : Type :=
| Print (m : msg)
| Call (c : call).

(** A computation reads and changes the world and emits events. *)
Definition M (A : Type) : Type := world -> result A * world * list event.

Definition ret {A} (a : A) : M A := fun w => (Ok a, w, []).

Definition bind {A B} (m : M A) (f : A -> M B) : M B :=
  fun w =>
    match m w with
    | (Ok a, w1, l1) =>
        match f a w1 with
        | (r, w2, l2) => (r, w2, (l1 ++ l2)%list)
        end
    | (Raise e, w1, l1) => (Raise e, w1, l1)
    | (OutOfFuel, w1, l1) => (OutOfFuel, w1, l1)
    end.

(** [try: m  except Exception as e: h e] *)
Definition try_except {A} (m : M A) (h : exn -> M A) : M A :=
  fun w =>
    match m w with
    | (Raise e, w1, l1) =>
        match h e w1 with
        | (r, w2, l2) => (r, w2, (l1 ++ l2)%list)
        end
    | other => other
    end.

Definition print (m : msg) : M unit := fun w => (Ok tt, w, [Print m]).

Definition of_outcome {A} (o : outcome A) : result A :=
  match o with
  | Returns a => Ok a
  | Throws e => Raise e
  end.

(** A pure library call that may throw. *)
Definition lift {A} (o : outcome A) : M A := fun w => (of_outcome o, w, []).

(** A library call on the world that cannot throw. *)
Definition perform {A} (op : world -> A * world) (ev : A -> call) : M A :=
  fun w => match op w with (a, w1) => (Ok a, w1, [Call (ev a)]) end.

(** A library call on the world that may throw. *)
Definition attempt {A} (op : world -> outcome A * world)
    (ev : outcome A -> call) : M A :=
  fun w => match op w with (o, w1) => (of_outcome o, w1, [Call (ev o)]) end.

(** [if c: m] *)
Definition when (c : bool) (m : M unit) : M unit := if c then m else ret tt.

End Effects.

Declare Scope monad_scope.
Delimit Scope monad_scope with monad.
Notation "x <- m ;; k" := (bind m (fun x => k))
  (at level 61, m at next level, right associativity) : monad_scope.
Notation "m ;; k" := (bind m (fun _ => k))
  (at level 61, right associativity) : monad_scope.
Notation "' pat <- m ;; k" := (bind m (fun x => match x with pat => k end))
  (at level 61, pat pattern, m at next level, right associativity) : monad_scope.
Open Scope monad_scope.

(** [for x in xs: s = body(s, x)], for loops without [break]. *)
Fixpoint for_fold {P : Platform} {A S : Type}
    (body : S -> A -> M S) (xs : list A) (s : S) : M S :=
  match xs with
  | [] => ret s
  | x :: xs' => s' <- body s x;; for_fold body xs' s'
  end.

(** ** The script *)

Section Script.
Context {P : Platform}.

(** *** [extract_pdf_content] *)

(** The body of [for page_num in range(pages_to_process)] with its own
    [try]/[except]; the accumulator is [text]. *)
Definition extract_page (pages_to_process : Z) (text : string)
    (entry : Z * outcome string) : M string :=
  let '(page_num, page) := entry in
  try_except
    (page_text <- lift page;;
     let text := if PyStr.truthy page_text
                 then text ++ page_text ++ String "010" EmptyString
                 else text in
     when ((page_num + 1) mod 10 =? 0)
          (print (MProcessedPages (page_num + 1) pages_to_process));;
     ret text)
    (fun e => print (MPageWarning (page_num + 1) e);; ret text).

Definition extract_pdf_content (pdf_path : string) : M string :=
  print (MExtracting (PyStr.path_name pdf_path));;
  try_except
    (pages <- attempt (open_pdf pdf_path) (CallOpenPdf pdf_path);;
     if PyList.len pages =? 0 then
       print MNoPages;; ret ""
     else
       let pages_to_process := PyList.len pages in
       print (MProcessingPages pages_to_process);;
       text <- for_fold (extract_page pages_to_process)
                        (PyList.enumerate pages) "";;
       print (MExtracted (PyStr.len text) pages_to_process);;
       ret (PyStr.strip text))
    (fun e => print (MExtractError e);; ret "").

(** *** [chunk_text] *)

(** The local variables of the [while] loop. *)
Record ChunkLoop := mkChunkLoop {
  cl_start : Z;
  cl_chunk_num : Z;
  cl_chunks : list string
}.

(** [while start < len(tokens) and chunk_num < max_chunks: ...] (lines
    80-94).  [fuel] bounds the unrolling. *)
Fixpoint chunk_while (fuel : nat) (tokenizer : Tokenizer) (tokens : list Z)
    (max_tokens overlap max_chunks : Z) (st : ChunkLoop) : M ChunkLoop :=
  if (cl_start st <? PyList.len tokens) && (cl_chunk_num st <? max_chunks) then
    match fuel with
    | O => fun w => (OutOfFuel, w, [])
    | S fuel' =>
        let start := cl_start st in
        let end_ := Z.min (start + max_tokens) (PyList.len tokens) in
        let chunk_tokens := PyList.slice tokens start end_ in
        chunk <- lift (decode tokenizer chunk_tokens);;
        let chunks := (cl_chunks st ++ [chunk])%list in
        let chunk_num := cl_chunk_num st + 1 in
        when (chunk_num mod 25 =? 0)
             (print (MChunkProgress chunk_num start (PyList.len tokens)));;
        let start := end_ - overlap in
        if start >=? PyList.len tokens
        then ret (mkChunkLoop start chunk_num chunks)
        else chunk_while fuel' tokenizer tokens max_tokens overlap max_chunks
               (mkChunkLoop start chunk_num chunks)
    end
  else ret st.

(** The [try] block of [chunk_text] (lines 66-100). *)
Definition chunk_text_body (text : string) (max_tokens overlap : Z)
  : M (list string) :=
  tokenizer <- attempt (encoding_for_model "gpt-4") (CallEncoding "gpt-4");;
  tokens <- lift (encode tokenizer text);;
  print (MTotalTokens (PyList.len tokens));;
  if PyList.len tokens <=? max_tokens then
    print (MSingleChunk (PyList.len tokens));;
    ret [text]
  else
    let max_chunks := 1000 in
    st <- chunk_while (Z.to_nat max_chunks) tokenizer tokens
            max_tokens overlap max_chunks (mkChunkLoop 0 0 []);;
    when (cl_chunk_num st >=? max_chunks) (print (MChunkLimit max_chunks));;
    print (MChunksCreated (PyList.len (cl_chunks st)));;
    ret (cl_chunks st).

Definition chunk_text (text : string) (max_tokens overlap : Z)
  : M (list string) :=
  print (MChunking max_tokens overlap);;
  try_except
    (chunk_text_body text max_tokens overlap)
    (fun e => print (MChunkError e);; ret [text]).

(** *** [get_embeddings] *)

Definition get_embeddings (text : string) (openai_client : AzureOpenAI)
    (model : string) : M (list float) :=
  try_except
    (print (MEmbedding (PyStr.len text));;
     embedding <- attempt (embeddings_create openai_client text model)
                          (CallEmbed openai_client text model);;
     print MEmbedded;;
     ret embedding)
    (fun e => print (MEmbedError e);; ret []).

(** *** [main]: one chunk, one file *)

(** [not embeddings] *)
Definition is_empty {A} (l : list A) : bool :=
  match l with [] => true | _ => false end.

(** The chunk-position suffix and the identifier (lines 268-269). *)
Definition chunk_suffix (i n_chunks : Z) : string :=
  if n_chunks >? 1 then "_chunk" ++ PyStr.of_int i else "_single".

Definition make_doc_id (name : string) (i n_chunks : Z) : string :=
  md5_hexdigest (name ++ chunk_suffix i n_chunks).

(** The body of [for i, chunk in enumerate(chunks)] (lines 265-309); the
    accumulator is [file_documents]. *)
Definition process_chunk (file_path : string) (metadata : Metadata)
    (openai_client : AzureOpenAI) (embedding_model : string)
    (chunks : list string)
    (file_documents : list (Document float)) (entry : Z * string)
  : M (list (Document float)) :=
  let '(i, chunk) := entry in
  let name := PyStr.path_name file_path in
  print (MProcessingChunk (i + 1) (PyList.len chunks));;
  let doc_id := make_doc_id name i (PyList.len chunks) in
  embeddings <- get_embeddings chunk openai_client embedding_model;;
  if is_empty embeddings then
    print (MSkipChunk (i + 1));;
    ret file_documents
  else
    let title_suffix :=
      if PyList.len chunks >? 1
      then " (Part " ++ PyStr.of_int (i + 1) ++ "/"
           ++ PyStr.of_int (PyList.len chunks) ++ ")"
      else "" in
    let summary :=
      if PyList.len chunks >? 1
      then "Part " ++ PyStr.of_int (i + 1) ++ " of "
           ++ PyStr.of_int (PyList.len chunks) ++ " from " ++ name
      else "Complete content from " ++ name in
    file_size <- attempt (stat_size file_path) (CallStat file_path);;
    created_date <- perform now_strftime CallNow;;
    let document :=
      {| doc_id := doc_id;
         doc_title := name ++ title_suffix;
         doc_content := chunk;
         doc_summary := summary;
         doc_document_type := document_type metadata;
         doc_institution := institution metadata;
         doc_year := year metadata;
         doc_file_format := "PDF";
         doc_tags := tags metadata;
         chunk_index := i;
         total_chunks := PyList.len chunks;
         doc_file_path := file_path;
         doc_file_size := file_size;
         doc_created_date := created_date;
         doc_relevance_score := true_div (PyStr.count_words chunk) 1000;
         content_vector := embeddings |} in
    print (MDocCreated (i + 1));;
    ret (file_documents ++ [document])%list.

(** Lines 263-309: the records of one file. *)
Definition process_chunks (file_path : string) (metadata : Metadata)
    (openai_client : AzureOpenAI) (embedding_model : string)
    (chunks : list string) : M (list (Document float)) :=
  for_fold (process_chunk file_path metadata openai_client embedding_model
              chunks)
           (PyList.enumerate chunks) [].

(** The locals of [main] that the file loop updates. *)
Record Progress := mkProgress {
  all_documents : list (Document float);
  processed_files : Z
}.

(** The body of [for file_index, file_path in enumerate(pdf_files, 1)]
    (lines 241-322). *)
Definition process_file (openai_client : AzureOpenAI)
    (embedding_model : string) (n_files : Z)
    (acc : Progress) (entry : Z * string) : M Progress :=
  let '(file_index, file_path) := entry in
  let name := PyStr.path_name file_path in
  print (MFileHeader file_index n_files name);;
  try_except
    (text <- extract_pdf_content file_path;;
     if negb (PyStr.truthy text) then
       print (MSkipFile name);;
       ret acc
     else
       print (MTextLength (PyStr.len text));;
       let metadata := get_esg_metadata file_path in
       print (MClassified (document_type metadata) (institution metadata));;
       chunks <- chunk_text text 800 150;;
       print (MChunksForProcessing (PyList.len chunks));;
       file_documents <- process_chunks file_path metadata openai_client
                           embedding_model chunks;;
       let acc := mkProgress (all_documents acc ++ file_documents)%list
                             (processed_files acc + 1) in
       print (MFileCompleted name (PyList.len file_documents));;
       print (MProgress (processed_files acc) n_files);;
       ret acc)
    (fun e => print (MFileError name e);; ret acc).

(** *** [main]: the batch uploader *)

(** [sum(1 for r in result if r.succeeded)] *)
Definition success_count_of (result : list IndexingResult) : Z :=
  PyList.len (filter succeeded result).

(** The body of [for i in range(0, len(all_documents), batch_size)] (lines
    334-358); the accumulator is [total_uploaded]. *)
Definition upload_batch (search_client : SearchClient)
    (all_documents : list (Document float)) (batch_size : Z)
    (total_uploaded : Z) (i : Z) : M Z :=
  let batch := PyList.slice all_documents i (i + batch_size) in
  let batch_num := i / batch_size + 1 in
  let total_batches :=
    (PyList.len all_documents + batch_size - 1) / batch_size in
  print (MUploadingBatch batch_num total_batches (PyList.len batch));;
  try_except
    (result <- attempt (upload_documents search_client batch)
                       (CallUpload search_client batch);;
     let success_count := success_count_of result in
     let error_count := PyList.len batch - success_count in
     let total_uploaded := total_uploaded + success_count in
     (if error_count >? 0 then
        print (MBatchPartial batch_num success_count error_count);;
        for_fold (fun (_ : unit) r =>
                    when (negb (succeeded r))
                         (print (MRecordError (error_message r))))
                 result tt
      else
        print (MBatchOk batch_num success_count));;
     ret total_uploaded)
    (fun e => print (MBatchError batch_num e);; ret total_uploaded).

(** Lines 330-358. *)
Definition upload_all (search_client : SearchClient)
    (all_documents : list (Document float)) : M Z :=
  let batch_size := 5 in
  let total_uploaded := 0 in
  for_fold (upload_batch search_client all_documents batch_size)
           (PyList.range 0 (PyList.len all_documents) batch_size)
           total_uploaded.

(** *** [main] *)

Definition ESG_DATA_DIR : string := "/Users/darshkodwani/Downloads/ESG_docs".
Definition INDEX_NAME : string := "esg-documents-index".

Definition required_vars : list string :=
  ["AZURE_SEARCH_ENDPOINT";
   "AZURE_SEARCH_KEY";
   "AZURE_OPENAI_EMBEDDINGS_ENDPOINT";
   "AZURE_OPENAI_EMBEDDINGS_API_KEY"].

(** [not os.getenv(var)]: unset, or set to the empty string. *)
Definition env_absent (var : string) : bool :=
  match getenv var with
  | Some v => negb (PyStr.truthy v)
  | None => true
  end.

(** [os.getenv(var, default)] *)
Definition getenv_default (var default : string) : string :=
  match getenv var with
  | Some v => v
  | None => default
  end.

(** Lines 325-371, after the files are processed. *)
Definition upload_and_report (search_client : SearchClient)
    (n_files : Z) (acc : Progress) : M unit :=
  let all_documents := all_documents acc in
  if negb (is_empty all_documents) then
    print (MUploadHeader (PyList.len all_documents));;
    total_uploaded <- upload_all search_client all_documents;;
    print MUploadCompleted;;
    print (MSummaryFiles (processed_files acc) n_files);;
    print (MSummaryChunks total_uploaded (PyList.len all_documents));;
    print (MSummaryIndex INDEX_NAME);;
    print MSummaryReady;;
    when (total_uploaded <? PyList.len all_documents)
         (print (MSummaryFailed (PyList.len all_documents - total_uploaded)))
  else
    print MNoDocuments.

(** Lines 179-376.  The two client constructors, [exists] and [glob] stand
    outside every [try]: what they throw ends the run. *)
Definition main : M unit :=
  print MBanner;;
  let missing_vars := filter env_absent required_vars in
  if negb (is_empty missing_vars) then
    print (MMissingVars (PyStr.join ", " missing_vars));;
    print MEnvHint
  else
    print MInitClients;;
    let search_client :=
      mkSearchClient (getenv "AZURE_SEARCH_ENDPOINT") INDEX_NAME
                     (getenv "AZURE_SEARCH_KEY") in
    lift (SearchClient_init search_client);;
    let openai_client :=
      mkAzureOpenAI (getenv "AZURE_OPENAI_EMBEDDINGS_ENDPOINT")
                    (getenv "AZURE_OPENAI_EMBEDDINGS_API_KEY")
                    (getenv_default "AZURE_OPENAI_API_VERSION" "2024-02-01") in
    lift (AzureOpenAI_init openai_client);;
    let embedding_model :=
      getenv_default "AZURE_OPENAI_EMBEDDINGS_DEPLOYMENT_NAME"
                     "text-embedding-3-large" in
    dir_exists <- attempt (path_exists ESG_DATA_DIR) (CallExists ESG_DATA_DIR);;
    if negb dir_exists then
      print (MDirNotFound ESG_DATA_DIR);;
      print (MDirHint ESG_DATA_DIR)
    else
      pdf_files <- attempt (glob_pdf ESG_DATA_DIR) (CallGlob ESG_DATA_DIR);;
      if is_empty pdf_files then
        print (MNoPdfFiles ESG_DATA_DIR)
      else
        print (MFound (PyList.len pdf_files));;
        for_fold (fun (_ : unit) '(i, file_path) =>
                    print (MFileEntry i (PyStr.path_name file_path)))
                 (PyList.enumerate_from 1 pdf_files) tt;;
        print MStarting;;
        acc <- for_fold (process_file openai_client embedding_model
                           (PyList.len pdf_files))
                        (PyList.enumerate_from 1 pdf_files)
                        (mkProgress [] 0);;
        upload_and_report search_client (PyList.len pdf_files) acc;;
        print MDone;;
        print MDoneHint.

End Script.

(** ** Vocabulary of the statements *)

(** One of the framework keywords occurs in the lowered file name. *)
Definition framework_present (filename : string) : bool :=
  PyStr.contains "gri" filename || PyStr.contains "sasb" filename
  || PyStr.contains "tcfd" filename.

(** Where the window that follows the one at [start] begins, for a text of
    [total] tokens (line 92). *)
Definition next_start (max_tokens overlap total start : Z) : Z :=
  Z.min (start + max_tokens) total - overlap.

(** The starts of [n] successive windows. *)
Fixpoint window_starts (max_tokens overlap total : Z) (n : nat) (start : Z)
  : list Z :=
  match n with
  | O => []
  | S n' =>
      start :: window_starts max_tokens overlap total n'
                 (next_start max_tokens overlap total start)
  end.

(** The tokens of the window at [start] (lines 81-82). *)
Definition window_tokens (tokens : list Z) (max_tokens start : Z) : list Z :=
  PyList.slice tokens start (Z.min (start + max_tokens) (PyList.len tokens)).

(** The settings the spec lists as required. *)
Definition spec_required_vars : list string :=
  (required_vars ++
   ["AZURE_OPENAI_EMBEDDINGS_DEPLOYMENT_NAME"; "AZURE_OPENAI_API_VERSION"])%list.

(** What one answer of the index adds to [total_uploaded]. *)
Definition credited (o : outcome (list IndexingResult)) : Z :=
  match o with
  | Returns result => success_count_of result
  | Throws _ => 0
  end.

(** [sum(l)] *)
Definition sum_Z (l : list Z) : Z := fold_right Z.add 0 l.

(** The number of turns of [for i in range(0, n, 5)]. *)
Definition batch_count (n : Z) : nat := Z.to_nat ((n - 0 + 5 - 1) / 5).

Section Traces.
Context {P : Platform}.

(** The event is the progress line of the chunk loop (line 88). *)
Definition is_progress (e : event) : Prop :=
  match e with
  | Print (MChunkProgress _ _ _) => True
  | _ => False
  end.

(** [m] ends normally from every world. *)
Definition returns {A} (m : M A) : Prop :=
  forall w, exists a w' l, m w = (Ok a, w', l).

(** [m] ends normally or raises: its loops are not cut short. *)
Definition terminates {A} (m : M A) : Prop :=
  forall w, fst (fst (m w)) <> OutOfFuel.

(** The calls of a trace, in order. *)
Definition calls (l : list event) : list call :=
  flat_map (fun e => match e with Call c => [c] | Print _ => [] end) l.

(** The messages of a trace, in order. *)
Definition prints (l : list event) : list msg :=
  flat_map (fun e => match e with Print m => [m] | Call _ => [] end) l.

(** Calls that read the filesystem. *)
Definition is_file_io (c : call) : bool :=
  match c with
  | CallExists _ _ | CallGlob _ _ | CallOpenPdf _ _ | CallStat _ _ => true
  | _ => false
  end.

(** The message lists missing environment variables (line 197). *)
Definition is_missing_report (m : msg) : bool :=
  match m with
  | MMissingVars _ => true
  | _ => false
  end.

(** What the embedding service answered, call by call. *)
Definition embed_outcomes (l : list event) : list (outcome (list float)) :=
  flat_map (fun c => match c with CallEmbed _ _ _ o => [o] | _ => [] end)
           (calls l).

(** The batches sent to the index, each with the answer. *)
Definition upload_calls (l : list event)
  : list (list (Document float) * outcome (list IndexingResult)) :=
  flat_map (fun c => match c with CallUpload _ b o => [(b, o)] | _ => [] end)
           (calls l).

(** The pairs (uploaded, total) of the final summary. *)
Definition uploaded_summaries (l : list event) : list (Z * Z) :=
  flat_map (fun m => match m with MSummaryChunks u t => [(u, t)] | _ => [] end)
           (prints l).

(** The vector [get_embeddings] hands back for an answer of the service. *)
Definition embedding_of (o : outcome (list float)) : list float :=
  match o with
  | Returns v => v
  | Throws _ => []
  end.

(** The answer leaves [get_embeddings] with an empty list. *)
Definition no_vector (o : outcome (list float)) : bool :=
  is_empty (embedding_of o).

(** The identifier as lines 268-269 compute it, read off a record. *)
Definition id_formula (file_path : string) (d : Document float) : string :=
  md5_hexdigest
    (PyStr.path_name file_path ++
     (if total_chunks d >? 1
      then "_chunk" ++ PyStr.of_int (chunk_index d)
      else "_single")).

End Traces.

(** ** A concrete platform for running the script *)

Module Fixture.

(** One token per character. *)
Definition char_tokens (s : string) : list Z :=
  map (fun c => Z.of_nat (nat_of_ascii c)) (list_ascii_of_string s).

(** The characters back from their tokens. *)
Definition tokens_text (l : list Z) : string :=
  string_of_list_ascii (map (fun t => ascii_of_nat (Z.to_nat t)) l).

(** The tokenizer of characters; it never throws. *)
Definition char_tokenizer : Tokenizer :=
  {| encode := fun s => Returns (char_tokens s);
     decode := fun l => Returns (tokens_text l) |}.

(** A tokenizer that rejects every text. *)
Definition broken_tokenizer : Tokenizer :=
  {| encode := fun _ => Throws "disallowed special token";
     decode := fun l => Returns (tokens_text l) |}.

(** A text of [n] letters. *)
Definition letters (n : Z) : string :=
  string_of_list_ascii (repeat "a"%char (Z.to_nat n)).

(** What a scenario fixes: the environment, the PDF files and their pages,
    the tokenizer, and the answers of the two services as functions of the
    number of calls made so far. *)
Record Scenario := mkScenario {
  s_env : string -> option string;
  s_dir_exists : bool;
  s_files : list (string * outcome (list (outcome string)));
  s_tokenizer : outcome Tokenizer;
  s_embed : nat -> string -> outcome (list Z);
  s_upload : nat -> list (Document Z) -> outcome (list IndexingResult)
}.

(** The entry of [path] in an association list. *)
Fixpoint lookup_file {A} (l : list (string * A)) (path : string) : option A :=
  match l with
  | [] => None
  | (p, a) :: l' => if String.eqb p path then Some a else lookup_file l' path
  end.

(** The world counts the service calls made so far.  The digest is its
    input behind a tag and the division keeps the numerator: stand-ins that
    let a run be computed. *)
Definition platform (s : Scenario) : Platform :=
  {| float := Z;
     world := nat;
     md5_hexdigest := fun x => "md5:" ++ x;
     true_div := fun n d => n;
     getenv := s_env s;
     SearchClient_init := fun _ => Returns tt;
     AzureOpenAI_init := fun _ => Returns tt;
     path_exists := fun _ w => (Returns (s_dir_exists s), w);
     glob_pdf := fun _ w => (Returns (map fst (s_files s)), w);
     open_pdf := fun p w =>
       (match lookup_file (s_files s) p with
        | Some o => o
        | None => Throws "No such file"
        end, w);
     stat_size := fun p w => (Returns (PyStr.len p), w);
     now_strftime := fun w => ("2025-01-01T00:00:00.000000Z", w);
     encoding_for_model := fun _ w => (s_tokenizer s, w);
     embeddings_create := fun _ text _ w => (s_embed s w text, S w);
     upload_documents := fun _ batch w => (s_upload s w batch, S w) |}.

(** The four required variables set, nothing else. *)
Definition full_env (var : string) : option string :=
  if existsb (String.eqb var) required_vars then Some "value" else None.

(** The index accepts every record. *)
Definition all_succeed (batch : list (Document Z)) : list IndexingResult :=
  map (fun _ => mkIndexingResult true None) batch.

(** Two files, of 1200 and of 50 tokens, every service answering. *)
Definition happy : Scenario :=
  {| s_env := full_env;
     s_dir_exists := true;
     s_files :=
       [("/d/GRI_2023.pdf", Returns [Returns (letters 1200)]);
        ("/d/note.pdf", Returns [Returns (letters 50)])];
     s_tokenizer := Returns char_tokenizer;
     s_embed := fun _ _ => Returns [1; 2; 3];
     s_upload := fun _ batch => Returns (all_succeed batch) |}.

(** One short file. *)
Definition small : Scenario :=
  {| s_env := full_env;
     s_dir_exists := true;
     s_files := [("/d/note.pdf", Returns [Returns (letters 50)])];
     s_tokenizer := Returns char_tokenizer;
     s_embed := fun _ _ => Returns [1; 2; 3];
     s_upload := fun _ batch => Returns (all_succeed batch) |}.

(** The index key is not set. *)
Definition no_search_key : Scenario :=
  {| s_env := fun var =>
       if String.eqb var "AZURE_SEARCH_KEY" then None else full_env var;
     s_dir_exists := true;
     s_files := [("/d/note.pdf", Returns [Returns (letters 50)])];
     s_tokenizer := Returns char_tokenizer;
     s_embed := fun _ _ => Returns [1; 2; 3];
     s_upload := fun _ batch => Returns (all_succeed batch) |}.

(** The tokenizer rejects the text. *)
Definition bad_text : Scenario :=
  {| s_env := full_env;
     s_dir_exists := true;
     s_files := [("/d/note.pdf", Returns [Returns (letters 50)])];
     s_tokenizer := Returns broken_tokenizer;
     s_embed := fun _ _ => Returns [1; 2; 3];
     s_upload := fun _ batch => Returns (all_succeed batch) |}.

(** The second embedding request fails; the index accepts the first three
    records of a batch and rejects the rest. *)
Definition flaky : Scenario :=
  {| s_env := full_env;
     s_dir_exists := true;
     s_files := [("/d/note.pdf", Returns [Returns (letters 50)])];
     s_tokenizer := Returns char_tokenizer;
     s_embed := fun calls _ =>
       if Nat.eqb calls 1 then Throws "quota exceeded" else Returns [1; 2; 3];
     s_upload := fun _ batch =>
       Returns (map (fun k => mkIndexingResult (Nat.ltb k 3)
                                (if Nat.ltb k 3 then None else Some "rejected"))
                    (seq 0 (List.length batch))) |}.

(** Clients as [main] would build them. *)
Definition client : AzureOpenAI :=
  mkAzureOpenAI (Some "https://e") (Some "k") "2024-02-01".

Definition index : SearchClient :=
  mkSearchClient (Some "https://s") INDEX_NAME (Some "k").

(** A record as the assembler would build it for chunk [i] of five. *)
Definition record (i : Z) : Document Z :=
  {| doc_id := "md5:note.pdf_chunk" ++ PyStr.of_int i;
     doc_title := "note.pdf";
     doc_content := "text";
     doc_summary := "";
     doc_document_type := "ESG Document";
     doc_institution := "Unknown";
     doc_year := 2024;
     doc_file_format := "PDF";
     doc_tags := "esg,sustainability";
     chunk_index := i;
     total_chunks := 5;
     doc_file_path := "/d/note.pdf";
     doc_file_size := 11;
     doc_created_date := "2025-01-01T00:00:00.000000Z";
     doc_relevance_score := 1;
     content_vector := [1; 2; 3] |}.

Definition five_records : list (Document Z) :=
  map record [0; 1; 2; 3; 4].

End Fixture.

(** ** Vocabulary of the further properties *)

(** *** Extraction *)

(** Page texts and the lines of [requirements.txt] are taken to be ASCII,
    as file names are: [strip] and [split] see the white space of the ASCII
    range. *)

(** Every character of [s] is white space. *)
Fixpoint all_space (s : string) : bool :=
  match s with
  | EmptyString => true
  | String c s' => PyStr.is_space c && all_space s'
  end.

(** [s] is empty or begins with a character that is not white space. *)
Definition starts_clean (s : string) : Prop :=
  match s with
  | EmptyString => True
  | String c _ => PyStr.is_space c = false
  end.

(** What a page adds to the text (lines 41-44). *)
Definition page_contribution (page : outcome string) : string :=
  match page with
  | Returns page_text =>
      if PyStr.truthy page_text
      then (page_text ++ String "010" EmptyString)%string
      else ""
  | Throws _ => ""
  end.

(** The text gathered from the pages, before it is stripped. *)
Definition pages_text (pages : list (outcome string)) : string :=
  fold_right (fun page rest => (page_contribution page ++ rest)%string) ""
             pages.

(** The text [extract_pdf_content] returns for what opening a file gave. *)
Definition text_of (o : outcome (list (outcome string))) : string :=
  match o with
  | Returns pages => PyStr.strip (pages_text pages)
  | Throws _ => ""
  end.

(** The page gives no text, or white space only. *)
Definition blank_page (page : outcome string) : bool :=
  match page with
  | Returns page_text => all_space page_text
  | Throws _ => true
  end.

(** The pages that failed, numbered from [i], with the exception. *)
Fixpoint failed_pages (i : Z) (pages : list (outcome string))
  : list (Z * exn) :=
  match pages with
  | [] => []
  | Returns _ :: rest => failed_pages (i + 1) rest
  | Throws e :: rest => (i, e) :: failed_pages (i + 1) rest
  end.

(** *** Chunk windows *)

(** Where chunk [j] starts and ends in a text of [total] tokens, when
    [0 < overlap <= max_tokens < total]. *)
Definition window_start (max_tokens overlap total : Z) (j : nat) : Z :=
  Z.min ((max_tokens - overlap) * Z.of_nat j) (total - overlap).

Definition window_end (max_tokens overlap total : Z) (j : nat) : Z :=
  Z.min (window_start max_tokens overlap total j + max_tokens) total.

(** *** Classification *)

(** The pairs of document type and tags the classifier can give. *)
Definition classifications : list (string * string) :=
  [("ESG Document", "esg,sustainability");
   ("GRI Standards", "gri,standards,sustainability,reporting");
   ("SASB Standards", "sasb,standards,sustainability,accounting");
   ("TCFD Framework", "tcfd,climate,risk,disclosure");
   ("Corporate ESG Report", "corporate,esg,sustainability,report");
   ("Climate Report", "climate,corporate,environmental");
   ("Environmental Report", "environmental,climate,carbon,green");
   ("Social Impact Report", "social,diversity,inclusion,community");
   ("Governance Report", "governance,ethics,compliance,board")].

(** The institutions the classifier can give. *)
Definition institutions : list string :=
  ["Unknown"; "Global Reporting Initiative";
   "Sustainability Accounting Standards Board";
   "Task Force on Climate-related Financial Disclosures";
   "Microsoft"; "Apple"; "Google"; "Amazon"; "Tesla"; "Nvidia"; "Meta"].

(** *** Records and runs *)

Section Runs.
Context {P : Platform}.

(** The page warnings of a trace. *)
Definition page_warnings (l : list event) : list (Z * exn) :=
  flat_map (fun m => match m with MPageWarning k e => [(k, e)] | _ => [] end)
           (prints l).

(** [d] is a record of chunk [chunk_index d] of the file at [file_path],
    cut into [chunks]: it carries that chunk, a vector, the metadata of the
    file name and the size [stat] gave. *)
Definition record_of (file_path : string) (chunks : list string)
    (d : Document float) : Prop :=
  0 <= chunk_index d < PyList.len chunks
  /\ total_chunks d = PyList.len chunks
  /\ nth_error chunks (Z.to_nat (chunk_index d)) = Some (doc_content d)
  /\ content_vector d <> []
  /\ doc_file_path d = file_path
  /\ doc_file_format d = "PDF"
  /\ doc_document_type d = document_type (get_esg_metadata file_path)
  /\ doc_institution d = institution (get_esg_metadata file_path)
  /\ doc_year d = year (get_esg_metadata file_path)
  /\ doc_tags d = tags (get_esg_metadata file_path)
  /\ (exists w w', stat_size file_path w = (Returns (doc_file_size d), w'))
  /\ (exists client model w,
         content_vector d
         = embedding_of (fst (embeddings_create client (doc_content d) model
                                w))).

(** The title, the summary and the relevance score of a record as lines
    277-300 compute them, read off the record. *)
Definition title_formula (file_path : string) (d : Document float) : string :=
  (PyStr.path_name file_path ++
   (if total_chunks d >? 1
    then " (Part " ++ PyStr.of_int (chunk_index d + 1) ++ "/"
         ++ PyStr.of_int (total_chunks d) ++ ")"
    else ""))%string.

Definition summary_formula (file_path : string) (d : Document float)
  : string :=
  (if total_chunks d >? 1
   then "Part " ++ PyStr.of_int (chunk_index d + 1) ++ " of "
        ++ PyStr.of_int (total_chunks d) ++ " from "
        ++ PyStr.path_name file_path
   else "Complete content from " ++ PyStr.path_name file_path)%string.

(** The call sends a batch to the index. *)
Definition is_upload (c : call) : bool :=
  match c with
  | CallUpload _ _ _ => true
  | _ => false
  end.

(** Every call [m] makes, from every world, satisfies [R]. *)
Definition calls_only {A} (R : call -> Prop) (m : M A) : Prop :=
  forall w, Forall R (calls (snd (m w))).

(** The lines that list the files found (lines 232-233). *)
Definition file_entries (pdf_files : list string) : list event :=
  map (fun entry => Print (MFileEntry (fst entry) (PyStr.path_name (snd entry))))
      (PyList.enumerate_from 1 pdf_files).

(** What listing the data directory gives [main], from the world it starts
    in, and the PDF files found: none when the listing throws. *)
Definition listing (w : world) : outcome (list string) :=
  fst (glob_pdf ESG_DATA_DIR (snd (path_exists ESG_DATA_DIR w))).

Definition found_files (w : world) : list string :=
  match listing w with
  | Returns pdf_files => pdf_files
  | Throws _ => []
  end.

(** The clients and the deployment name as lines 204-216 take them from the
    environment, the two defaults written out. *)
Definition env_search_client : SearchClient :=
  mkSearchClient (getenv "AZURE_SEARCH_ENDPOINT") "esg-documents-index"
                 (getenv "AZURE_SEARCH_KEY").

Definition env_api_version : string :=
  match getenv "AZURE_OPENAI_API_VERSION" with
  | Some v => v
  | None => "2024-02-01"
  end.

Definition env_openai_client : AzureOpenAI :=
  mkAzureOpenAI (getenv "AZURE_OPENAI_EMBEDDINGS_ENDPOINT")
                (getenv "AZURE_OPENAI_EMBEDDINGS_API_KEY")
                env_api_version.

Definition env_embedding_model : string :=
  match getenv "AZURE_OPENAI_EMBEDDINGS_DEPLOYMENT_NAME" with
  | Some v => v
  | None => "text-embedding-3-large"
  end.

(** The call, if it asks for an embedding, asks [client] for [model]. *)
Definition embeds_with (client : AzureOpenAI) (model : string) (c : call)
  : Prop :=
  match c with
  | CallEmbed client' _ model' _ => client' = client /\ model' = model
  | _ => True
  end.

(** [chunks] is what the file loop cuts the text extracted from [o], the
    result of opening a file, into (line 259). *)
Definition chunked_from (o : outcome (list (outcome string)))
    (chunks : list string) : Prop :=
  exists w w' l, chunk_text (text_of o) 800 150 w = (Ok chunks, w', l).

(** [d] is a record of a chunk of a file that the run with trace [l]
    opened: of one of the chunks of the text extracted from what opening
    the file gave in that run. *)
Definition record_in_run (l : list event) (d : Document float) : Prop :=
  exists o chunks,
    In (CallOpenPdf (doc_file_path d) o) (calls l)
    /\ chunked_from o chunks
    /\ record_of (doc_file_path d) chunks d.

(** The exception is one that a step of [main] outside every [try] threw
    in the run from [w]: a client constructor, [exists] or [glob]. *)
Definition thrown_outside_try (w : world) (e : exn) : Prop :=
  SearchClient_init env_search_client = Throws e
  \/ AzureOpenAI_init env_openai_client = Throws e
  \/ fst (path_exists ESG_DATA_DIR w) = Throws e
  \/ listing w = Throws e.

End Runs.

(** ** [setup.py] *)

Module Setup.

(** Lines 6-7: the requirements read from the lines of [requirements.txt],
    each as the file iterator yields it. *)
Definition requirements (lines : list string) : list string :=
  map PyStr.strip
      (filter (fun line => PyStr.truthy (PyStr.strip line)
                           && negb (prefix "#" line))
              lines).

End Setup.

(** ** Further scenarios *)

Module Cases.

(** A scanned file: no page has text. *)
Definition scanned : Fixture.Scenario :=
  {| Fixture.s_env := Fixture.full_env;
     Fixture.s_dir_exists := true;
     Fixture.s_files :=
       [("/d/scan.pdf",
         Returns [Returns "  "; Throws "no text layer"; Returns ""])];
     Fixture.s_tokenizer := Returns Fixture.char_tokenizer;
     Fixture.s_embed := fun _ _ => Returns [1; 2; 3];
     Fixture.s_upload := fun _ batch => Returns (Fixture.all_succeed batch) |}.

(** The embedding service rejects every request. *)
Definition embed_down : Fixture.Scenario :=
  {| Fixture.s_env := Fixture.full_env;
     Fixture.s_dir_exists := true;
     Fixture.s_files := [("/d/note.pdf", Returns [Returns (Fixture.letters 50)])];
     Fixture.s_tokenizer := Returns Fixture.char_tokenizer;
     Fixture.s_embed := fun _ _ => Throws "503 Service Unavailable";
     Fixture.s_upload := fun _ batch => Returns (Fixture.all_succeed batch) |}.

(** The data directory does not exist. *)
Definition no_dir : Fixture.Scenario :=
  {| Fixture.s_env := Fixture.full_env;
     Fixture.s_dir_exists := false;
     Fixture.s_files := [];
     Fixture.s_tokenizer := Returns Fixture.char_tokenizer;
     Fixture.s_embed := fun _ _ => Returns [1; 2; 3];
     Fixture.s_upload := fun _ batch => Returns (Fixture.all_succeed batch) |}.

(** The data directory holds no PDF file. *)
Definition no_pdfs : Fixture.Scenario :=
  {| Fixture.s_env := Fixture.full_env;
     Fixture.s_dir_exists := true;
     Fixture.s_files := [];
     Fixture.s_tokenizer := Returns Fixture.char_tokenizer;
     Fixture.s_embed := fun _ _ => Returns [1; 2; 3];
     Fixture.s_upload := fun _ batch => Returns (Fixture.all_succeed batch) |}.

(** The platform of a scenario, except that [stat] fails on every path. *)
Definition failing_stat (s : Fixture.Scenario) : Platform :=
  {| float := Z;
     world := nat;
     md5_hexdigest := @md5_hexdigest (Fixture.platform s);
     true_div := @true_div (Fixture.platform s);
     getenv := @getenv (Fixture.platform s);
     SearchClient_init := @SearchClient_init (Fixture.platform s);
     AzureOpenAI_init := @AzureOpenAI_init (Fixture.platform s);
     path_exists := @path_exists (Fixture.platform s);
     glob_pdf := @glob_pdf (Fixture.platform s);
     open_pdf := @open_pdf (Fixture.platform s);
     stat_size := fun _ w => (Throws "Permission denied", w);
     now_strftime := @now_strftime (Fixture.platform s);
     encoding_for_model := @encoding_for_model (Fixture.platform s);
     embeddings_create := @embeddings_create (Fixture.platform s);
     upload_documents := @upload_documents (Fixture.platform s) |}.

End Cases.

(** * Properties *)

Open Scope list_scope.

(** Unfolds the plumbing of [M] and reduces what it exposes. *)
Tactic Notation "run" :=
  cbv beta iota zeta delta
    [bind try_except attempt perform print lift of_outcome ret when].
Tactic Notation "run" "in" hyp(H) :=
  cbv beta iota zeta delta
    [bind try_except attempt perform print lift of_outcome ret when] in H.

Arguments chunk_while : simpl never.

(** ** Metadata classifier *)

Lemma first_company_found (cs : list string) (filename : string) (m : Metadata) :
  PyStr.any_in cs filename = true ->
  exists c, In c cs /\ PyStr.contains c filename = true /\
            first_company cs filename m = set_institution m (PyStr.title c).
Proof.
  unfold PyStr.any_in.
  induction cs as [|c cs IH]; simpl; [discriminate|].
  destruct (PyStr.contains c filename) eqn:Hc; simpl; intros H.
  - exists c. auto.
  - destruct (IH H) as (c' & Hin & Hc' & Heq). exists c'. auto.
Qed.

Lemma year_independent (file_path : string) :
  year (get_esg_metadata file_path) =
  match PyStr.search_year (PyStr.lower (PyStr.path_name file_path)) with
  | Some y => y
  | None => 2024
  end.
Proof.
  unfold get_esg_metadata.
  destruct (PyStr.search_year _); [reflexivity|].
  unfold classify_rules.
  repeat match goal with
         | |- context [if ?b then _ else _] => destruct b
         end; try reflexivity.
  all: unfold companies; simpl;
    repeat match goal with
           | |- context [if ?b then _ else _] => destruct b
           end; reflexivity.
Qed.

Lemma rules_survive_year (file_path : string) :
  let filename := PyStr.lower (PyStr.path_name file_path) in
  institution (get_esg_metadata file_path) = institution (classify_rules filename)
  /\ document_type (get_esg_metadata file_path)
     = document_type (classify_rules filename)
  /\ tags (get_esg_metadata file_path) = tags (classify_rules filename).
Proof.
  unfold get_esg_metadata. cbv zeta.
  destruct (PyStr.search_year _); simpl; auto.
Qed.

(** C5.  The rules of the classifier are tried in a fixed order and the first
    that matches decides: a framework keyword ([gri], then [sasb], then
    [tcfd]) fixes institution, type and tags whatever else the name
    contains; a company name is looked at only without a framework keyword,
    and a topical keyword only without both.  The year is the first
    [20dd] of the lowered name, or 2024, whatever rule applied.
    ["GRI_2023_climate_report.pdf"] is a GRI document of 2023. *)
Theorem metadata_precedence (file_path : string) :
  let filename := PyStr.lower (PyStr.path_name file_path) in
  let m := get_esg_metadata file_path in
  (PyStr.contains "gri" filename = true ->
     institution m = "Global Reporting Initiative"
     /\ document_type m = "GRI Standards"
     /\ tags m = "gri,standards,sustainability,reporting")
  /\ (PyStr.contains "gri" filename = false ->
      PyStr.contains "sasb" filename = true ->
      institution m = "Sustainability Accounting Standards Board"
      /\ document_type m = "SASB Standards"
      /\ tags m = "sasb,standards,sustainability,accounting")
  /\ (PyStr.contains "gri" filename = false ->
      PyStr.contains "sasb" filename = false ->
      PyStr.contains "tcfd" filename = true ->
      institution m = "Task Force on Climate-related Financial Disclosures"
      /\ document_type m = "TCFD Framework"
      /\ tags m = "tcfd,climate,risk,disclosure")
  /\ (framework_present filename = false ->
      PyStr.any_in companies filename = true ->
      (exists c, In c companies /\ PyStr.contains c filename = true
                 /\ institution m = PyStr.title c)
      /\ (document_type m = "Corporate ESG Report"
          \/ document_type m = "Climate Report"
          \/ document_type m = "ESG Document"))
  /\ (framework_present filename = false ->
      PyStr.any_in companies filename = false ->
      institution m = "Unknown"
      /\ document_type m =
         if PyStr.any_in environmental_terms filename then "Environmental Report"
         else if PyStr.any_in social_terms filename then "Social Impact Report"
         else if PyStr.any_in governance_terms filename then "Governance Report"
         else "ESG Document")
  /\ year m = match PyStr.search_year filename with
              | Some y => y
              | None => 2024
              end
  /\ (let g := get_esg_metadata "GRI_2023_climate_report.pdf" in
      institution g = "Global Reporting Initiative" /\ year g = 2023).
Proof.
  intros filename m.
  destruct (rules_survive_year file_path) as (Hi & Hd & Ht).
  fold filename in Hi, Hd, Ht. fold m in Hi, Hd, Ht.
  unfold framework_present.
  repeat split.
  - rewrite Hi. unfold classify_rules. rewrite H. reflexivity.
  - rewrite Hd. unfold classify_rules. rewrite H. reflexivity.
  - rewrite Ht. unfold classify_rules. rewrite H. reflexivity.
  - rewrite Hi. unfold classify_rules. rewrite H, H0. reflexivity.
  - rewrite Hd. unfold classify_rules. rewrite H, H0. reflexivity.
  - rewrite Ht. unfold classify_rules. rewrite H, H0. reflexivity.
  - rewrite Hi. unfold classify_rules. rewrite H, H0, H1. reflexivity.
  - rewrite Hd. unfold classify_rules. rewrite H, H0, H1. reflexivity.
  - rewrite Ht. unfold classify_rules. rewrite H, H0, H1. reflexivity.
  - apply orb_false_elim in H as [H Ht']. apply orb_false_elim in H as [Hg Hs].
    destruct (first_company_found companies filename default_metadata H0)
      as (c & Hin & Hc & Heq).
    exists c. repeat split; auto.
    rewrite Hi. unfold classify_rules. rewrite Hg, Hs, Ht', H0, Heq.
    repeat match goal with
           | |- context [if ?b then _ else _] => destruct b
           end; reflexivity.
  - apply orb_false_elim in H as [H Ht']. apply orb_false_elim in H as [Hg Hs].
    destruct (first_company_found companies filename default_metadata H0)
      as (c & Hin & Hc & Heq).
    rewrite Hd. unfold classify_rules. rewrite Hg, Hs, Ht', H0, Heq.
    repeat match goal with
           | |- context [if ?b then _ else _] => destruct b
           end; simpl; auto.
  - apply orb_false_elim in H as [H Ht']. apply orb_false_elim in H as [Hg Hs].
    rewrite Hi. unfold classify_rules. rewrite Hg, Hs, Ht', H0.
    repeat match goal with
           | |- context [if ?b then _ else _] => destruct b
           end; reflexivity.
  - apply orb_false_elim in H as [H Ht']. apply orb_false_elim in H as [Hg Hs].
    rewrite Hd. unfold classify_rules. rewrite Hg, Hs, Ht', H0.
    repeat match goal with
           | |- context [if ?b then _ else _] => destruct b
           end; reflexivity.
  - apply year_independent.
Qed.

(** The hypotheses of every case of C5 are met by some file name. *)
Lemma metadata_precedence_witness :
  let m := get_esg_metadata "/docs/TCFD_Climate_Green_2021.pdf" in
  institution m = "Task Force on Climate-related Financial Disclosures"
  /\ document_type m = "TCFD Framework"
  /\ tags m = "tcfd,climate,risk,disclosure".
Proof.
  apply (metadata_precedence "/docs/TCFD_Climate_Green_2021.pdf");
    reflexivity.
Defined.

(** ** Lists, traces and the monad *)

Lemma len_correct {A} (l : list A) : PyList.len l = Z.of_nat (List.length l).
Proof. apply Zlength_correct. Qed.

Section MonadFacts.
Context {P : Platform}.

Lemma calls_app (l1 l2 : list event) : calls (l1 ++ l2) = calls l1 ++ calls l2.
Proof. apply flat_map_app. Qed.

Lemma embed_outcomes_app (l1 l2 : list event) :
  embed_outcomes (l1 ++ l2) = embed_outcomes l1 ++ embed_outcomes l2.
Proof. unfold embed_outcomes. rewrite calls_app. apply flat_map_app. Qed.

Lemma upload_calls_app (l1 l2 : list event) :
  upload_calls (l1 ++ l2) = upload_calls l1 ++ upload_calls l2.
Proof. unfold upload_calls. rewrite calls_app. apply flat_map_app. Qed.

Lemma bind_ok {A B} (m : M A) (f : A -> M B) (w w' : world) (b : B)
    (l : list event) :
  bind m f w = (Ok b, w', l) ->
  exists a w1 l1 l2,
    m w = (Ok a, w1, l1) /\ f a w1 = (Ok b, w', l2) /\ l = l1 ++ l2.
Proof.
  unfold bind. destruct (m w) as [[[a|e|] w1] l1]; try discriminate.
  destruct (f a w1) as [[r w2] l2] eqn:Hf. intros H. inversion H; subst.
  eexists _, _, _, _. eauto.
Qed.

Lemma for_fold_cons_ok {A S} (body : S -> A -> M S) (x : A) (xs : list A)
    (s s' : S) (w w' : world) (l : list event) :
  for_fold body (x :: xs) s w = (Ok s', w', l) ->
  exists s1 w1 l1 l2,
    body s x w = (Ok s1, w1, l1) /\ for_fold body xs s1 w1 = (Ok s', w', l2)
    /\ l = l1 ++ l2.
Proof. apply bind_ok. Qed.

(** A loop whose body always ends normally ends normally. *)
Lemma for_fold_returns {A S} (body : S -> A -> M S) :
  (forall s x w, exists s' w' l, body s x w = (Ok s', w', l)) ->
  forall xs s w, exists s' w' l, for_fold body xs s w = (Ok s', w', l).
Proof.
  intros Hbody. induction xs as [|x xs IH]; intros s w; cbn [for_fold].
  - eexists _, _, _. reflexivity.
  - destruct (Hbody s x w) as (s1 & w1 & l1 & H1).
    destruct (IH s1 w1) as (s2 & w2 & l2 & H2).
    unfold bind. rewrite H1, H2. eexists _, _, _. reflexivity.
Qed.

End MonadFacts.

(** ** Normal endings *)

Section Totality.
Context {P : Platform}.

Lemma returns_terminates {A} (m : M A) : returns m -> terminates m.
Proof.
  intros H w. destruct (H w) as (a & w' & l & ->). discriminate.
Qed.

Lemma returns_ret {A} (a : A) : returns (ret a).
Proof. intros w. eexists _, _, _. reflexivity. Qed.

Lemma returns_print (m : msg) : returns (print m).
Proof. intros w. eexists _, _, _. reflexivity. Qed.

Lemma returns_when (c : bool) (m : M unit) : returns m -> returns (when c m).
Proof. destruct c; [auto|intros _; apply returns_ret]. Qed.

Lemma returns_perform {A} (op : world -> A * world) (ev : A -> call) :
  returns (perform op ev).
Proof.
  intros w. unfold perform. destruct (op w). eexists _, _, _. reflexivity.
Qed.

Lemma returns_bind {A B} (m : M A) (f : A -> M B) :
  returns m -> (forall a, returns (f a)) -> returns (bind m f).
Proof.
  intros Hm Hf w. unfold bind.
  destruct (Hm w) as (a & w1 & l1 & ->).
  destruct (Hf a w1) as (b & w2 & l2 & ->).
  eexists _, _, _. reflexivity.
Qed.

Lemma terminates_lift {A} (o : outcome A) : terminates (lift o).
Proof. intros w. destruct o; discriminate. Qed.

Lemma terminates_attempt {A} (op : world -> outcome A * world)
    (ev : outcome A -> call) : terminates (attempt op ev).
Proof.
  intros w. unfold attempt. destruct (op w) as [[a|e] w1]; discriminate.
Qed.

Lemma terminates_bind {A B} (m : M A) (f : A -> M B) :
  terminates m -> (forall a, terminates (f a)) -> terminates (bind m f).
Proof.
  intros Hm Hf w. unfold bind. specialize (Hm w).
  destruct (m w) as [[[a|e|] w1] l1]; cbn in *; try congruence.
  specialize (Hf a w1). destruct (f a w1) as [[r w2] l2]. exact Hf.
Qed.

(** A [try] whose body terminates and whose handler ends normally ends
    normally. *)
Lemma returns_try {A} (m : M A) (h : exn -> M A) :
  terminates m -> (forall e, returns (h e)) -> returns (try_except m h).
Proof.
  intros Hm Hh w. unfold try_except. specialize (Hm w).
  destruct (m w) as [[[a|e|] w1] l1]; cbn in *; try congruence.
  - eexists _, _, _. reflexivity.
  - destruct (Hh e w1) as (a & w2 & l2 & ->). eexists _, _, _. reflexivity.
Qed.

Lemma returns_for_fold {A S} (body : S -> A -> M S) (xs : list A) (s : S) :
  (forall s x, returns (body s x)) -> returns (for_fold body xs s).
Proof.
  intros Hbody. revert s. induction xs as [|x xs IH]; intros s; cbn [for_fold].
  - apply returns_ret.
  - apply returns_bind; auto.
Qed.

Lemma terminates_for_fold {A S} (body : S -> A -> M S) (xs : list A) (s : S) :
  (forall s x, terminates (body s x)) -> terminates (for_fold body xs s).
Proof.
  intros Hbody. revert s. induction xs as [|x xs IH]; intros s; cbn [for_fold].
  - apply returns_terminates, returns_ret.
  - apply terminates_bind; auto.
Qed.

End Totality.

(** ** Chunker *)

Section ChunkLoopFacts.
Context {P : Platform}.
Variables (tokenizer : Tokenizer) (tokens : list Z).
Variables (max_tokens overlap max_chunks : Z).

(** One turn of the loop, with the names of the statements. *)
Lemma chunk_while_eq (fuel : nat) (st : ChunkLoop) :
  chunk_while fuel tokenizer tokens max_tokens overlap max_chunks st =
  if (cl_start st <? PyList.len tokens) && (cl_chunk_num st <? max_chunks) then
    match fuel with
    | O => fun w => (OutOfFuel, w, [])
    | S fuel' =>
        chunk <- lift (decode tokenizer
                         (window_tokens tokens max_tokens (cl_start st)));;
        when ((cl_chunk_num st + 1) mod 25 =? 0)
             (print (MChunkProgress (cl_chunk_num st + 1) (cl_start st)
                                    (PyList.len tokens)));;
        let start :=
          next_start max_tokens overlap (PyList.len tokens) (cl_start st) in
        if start >=? PyList.len tokens
        then ret (mkChunkLoop start (cl_chunk_num st + 1)
                              (cl_chunks st ++ [chunk]))
        else chunk_while fuel' tokenizer tokens max_tokens overlap max_chunks
               (mkChunkLoop start (cl_chunk_num st + 1)
                            (cl_chunks st ++ [chunk]))
    end
  else ret st.
Proof. destruct fuel; reflexivity. Qed.

Lemma when_progress (c : bool) (m : msg) (w : world) :
  exists l, when c (print m) w = (Ok tt, w, l) /\
            (forall a b d, m = MChunkProgress a b d -> Forall is_progress l).
Proof.
  destruct c; simpl; eexists; split; try reflexivity; intros; subst;
    repeat constructor.
Qed.

(** The unrolling bound is never what stops the loop: [chunk_num] reaches
    [max_chunks] first. *)
Lemma chunk_while_fuel (fuel : nat) :
  forall (st : ChunkLoop) (w : world),
    (Z.to_nat (max_chunks - cl_chunk_num st) <= fuel)%nat ->
    exists r l,
      chunk_while fuel tokenizer tokens max_tokens overlap max_chunks st w
      = (r, w, l)
      /\ r <> OutOfFuel /\ Forall is_progress l.
Proof.
  induction fuel as [|fuel IH]; intros st w Hfuel; rewrite chunk_while_eq.
  - destruct (cl_start st <? PyList.len tokens); simpl.
    2:{ eexists _, _. split; [reflexivity|]. split; [discriminate|constructor]. }
    destruct (cl_chunk_num st <? max_chunks) eqn:Hn; simpl.
    + apply Z.ltb_lt in Hn. lia.
    + eexists _, _. split; [reflexivity|]. split; [discriminate|constructor].
  - destruct ((cl_start st <? PyList.len tokens)
              && (cl_chunk_num st <? max_chunks)) eqn:Hg.
    2:{ eexists _, _. split; [reflexivity|]. split; [discriminate|constructor]. }
    apply andb_true_iff in Hg as [_ Hn]. apply Z.ltb_lt in Hn.
    unfold bind at 1, lift.
    destruct (decode tokenizer _) as [chunk|e]; simpl.
    2:{ eexists _, _. split; [reflexivity|]. split; [discriminate|constructor]. }
    unfold bind at 1.
    destruct (when_progress ((cl_chunk_num st + 1) mod 25 =? 0)
                (MChunkProgress (cl_chunk_num st + 1) (cl_start st)
                                (PyList.len tokens)) w)
      as (lp & -> & Hlp).
    destruct (next_start max_tokens overlap (PyList.len tokens) (cl_start st)
              >=? PyList.len tokens).
    + eexists _, _. split; [reflexivity|]. split; [discriminate|].
      simpl. rewrite app_nil_r. eapply Hlp; reflexivity.
    + edestruct (IH (mkChunkLoop
                       (next_start max_tokens overlap (PyList.len tokens)
                                   (cl_start st))
                       (cl_chunk_num st + 1)
                       (cl_chunks st ++ [chunk])) w)
        as (r & l & -> & Hr & Hl).
      { simpl. lia. }
      eexists _, _. split; [reflexivity|]. split; [exact Hr|].
      simpl. apply Forall_app. split; [eapply Hlp; reflexivity|exact Hl].
Qed.

(** With a positive overlap the next window always starts before the end of
    the text, so the loop runs until [chunk_num] reaches [max_chunks]. *)
Lemma chunk_while_fills (dec : list Z -> string) :
  (forall l, decode tokenizer l = Returns (dec l)) ->
  0 < overlap ->
  forall (fuel : nat) (st : ChunkLoop) (w : world),
    cl_start st < PyList.len tokens ->
    cl_chunk_num st <= max_chunks ->
    (Z.to_nat (max_chunks - cl_chunk_num st) <= fuel)%nat ->
    exists start' l,
      chunk_while fuel tokenizer tokens max_tokens overlap max_chunks st w
      = (Ok (mkChunkLoop start' max_chunks
               (cl_chunks st ++
                map (fun s => dec (window_tokens tokens max_tokens s))
                    (window_starts max_tokens overlap (PyList.len tokens)
                       (Z.to_nat (max_chunks - cl_chunk_num st))
                       (cl_start st)))), w, l)
      /\ Forall is_progress l.
Proof.
  intros Hdec Hov.
  induction fuel as [|fuel IH]; intros [start n chunks] w Hs Hn Hfuel;
    rewrite chunk_while_eq; cbn [cl_start cl_chunk_num cl_chunks] in *.
  - assert (n = max_chunks) as -> by lia.
    rewrite Z.ltb_irrefl, andb_false_r, Z.sub_diag. simpl.
    rewrite app_nil_r. eexists _, _. split; [reflexivity|constructor].
  - destruct (Z.eq_dec n max_chunks) as [->|Hne].
    { rewrite Z.ltb_irrefl, andb_false_r, Z.sub_diag. simpl.
      rewrite app_nil_r. eexists _, _. split; [reflexivity|constructor]. }
    assert (Hlt : n < max_chunks) by lia.
    replace (start <? PyList.len tokens) with true
      by (symmetry; apply Z.ltb_lt; lia).
    replace (n <? max_chunks) with true by (symmetry; apply Z.ltb_lt; lia).
    cbn [andb].
    unfold bind at 1, lift. rewrite Hdec. cbn [of_outcome].
    unfold bind at 1.
    destruct (when_progress ((n + 1) mod 25 =? 0)
                (MChunkProgress (n + 1) start (PyList.len tokens)) w)
      as (lp & -> & Hlp).
    assert (Hnext : next_start max_tokens overlap (PyList.len tokens) start
                    < PyList.len tokens)
      by (unfold next_start; lia).
    cbv zeta.
    replace (next_start max_tokens overlap (PyList.len tokens) start
             >=? PyList.len tokens) with false
      by (symmetry; rewrite Z.geb_leb; apply Z.leb_gt; lia).
    edestruct (IH (mkChunkLoop
                     (next_start max_tokens overlap (PyList.len tokens) start)
                     (n + 1)
                     (chunks ++ [dec (window_tokens tokens max_tokens start)]))
                  w)
      as (start' & l & -> & Hl); cbn [cl_start cl_chunk_num cl_chunks];
      try lia.
    replace (Z.to_nat (max_chunks - n))
      with (S (Z.to_nat (max_chunks - (n + 1)))) by lia.
    cbn [window_starts map]. rewrite <- app_assoc. cbn [app].
    eexists _, _. split; [reflexivity|].
    cbn [app]. apply Forall_app. split; [eapply Hlp; reflexivity|exact Hl].
Qed.

End ChunkLoopFacts.

(** While every window fits in the text the starts advance by
    [max_tokens - overlap]. *)
Lemma window_starts_stride (max_tokens overlap total : Z) (n : nat) :
  forall start,
    start + (max_tokens - overlap) * (Z.of_nat n - 1) + max_tokens <= total ->
    0 <= max_tokens - overlap ->
    window_starts max_tokens overlap total n start =
    map (fun k => start + (max_tokens - overlap) * Z.of_nat k) (seq 0 n).
Proof.
  induction n as [|n IH]; intros start Hfit Hstep; [reflexivity|].
  cbn [window_starts seq map]. f_equal; [lia|].
  rewrite <- seq_shift, map_map.
  rewrite IH by (unfold next_start; nia).
  apply map_ext. intros k. unfold next_start. nia.
Qed.

Section ChunkTextFacts.
Context {P : Platform}.

(** C2.  A text of at most [max_tokens] tokens comes back as the one-element
    list of the text itself: the tokens are counted and then dropped, nothing
    is decoded. *)
Theorem single_chunk_unchanged
    (text : string) (max_tokens overlap : Z) (w w1 : world)
    (tokenizer : Tokenizer) (tokens : list Z) :
  encoding_for_model "gpt-4" w = (Returns tokenizer, w1) ->
  encode tokenizer text = Returns tokens ->
  PyList.len tokens <= max_tokens ->
  chunk_text text max_tokens overlap w =
  (Ok [text], w1,
   [Print (MChunking max_tokens overlap);
    Call (CallEncoding "gpt-4" (Returns tokenizer));
    Print (MTotalTokens (PyList.len tokens));
    Print (MSingleChunk (PyList.len tokens))]).
Proof.
  intros Hload Henc Hlen.
  unfold chunk_text, chunk_text_body. run.
  rewrite Hload. run. rewrite Henc. run.
  replace (PyList.len tokens <=? max_tokens) with true
    by (symmetry; apply Z.leb_le; exact Hlen).
  reflexivity.
Qed.

(** A text longer than [max_tokens], cut with a positive overlap, always
    yields 1000 chunks and the chunk-limit warning. *)
Lemma chunk_text_fills
    (text : string) (max_tokens overlap : Z) (w w1 : world)
    (tokenizer : Tokenizer) (tokens : list Z) (dec : list Z -> string) :
  encoding_for_model "gpt-4" w = (Returns tokenizer, w1) ->
  encode tokenizer text = Returns tokens ->
  (forall l, decode tokenizer l = Returns (dec l)) ->
  0 < overlap ->
  0 < PyList.len tokens ->
  max_tokens < PyList.len tokens ->
  exists l,
    chunk_text text max_tokens overlap w =
    (Ok (map (fun s => dec (window_tokens tokens max_tokens s))
             (window_starts max_tokens overlap (PyList.len tokens)
                (Z.to_nat 1000) 0)),
     w1, l)
    /\ In (Print (MChunkLimit 1000)) l.
Proof.
  intros Hload Henc Hdec Hov Hpos Hlen.
  unfold chunk_text, chunk_text_body. run.
  rewrite Hload. run. rewrite Henc. run.
  replace (PyList.len tokens <=? max_tokens) with false
    by (symmetry; apply Z.leb_gt; exact Hlen).
  destruct (chunk_while_fills tokenizer tokens max_tokens overlap 1000 dec
              Hdec Hov (Z.to_nat 1000) (mkChunkLoop 0 0 []) w1)
    as (start' & l & Hrun & _); cbn [cl_start cl_chunk_num cl_chunks];
    try lia.
  rewrite Hrun. cbn [cl_chunk_num cl_chunks app].
  replace (1000 - 0) with 1000 by lia.
  replace (1000 >=? 1000) with true by reflexivity.
  eexists. split; [reflexivity|].
  cbn [app]. right. right. right. apply in_or_app. right.
  cbn [app]. left. reflexivity.
Qed.

(** C1.  At the default settings a text of 1200 tokens is cut into 1000
    chunks, not 2: after the windows at 0 and 650 the start stays at 1050,
    below the length, and the last 150 tokens are emitted again until the
    chunk limit stops the loop; the truncation warning is printed although
    nothing was dropped. *)
Theorem text_of_1200_tokens_hits_cap
    (text : string) (w w1 : world)
    (tokenizer : Tokenizer) (tokens : list Z) (dec : list Z -> string) :
  encoding_for_model "gpt-4" w = (Returns tokenizer, w1) ->
  encode tokenizer text = Returns tokens ->
  (forall l, decode tokenizer l = Returns (dec l)) ->
  PyList.len tokens = 1200 ->
  exists chunks l,
    chunk_text text 800 150 w = (Ok chunks, w1, l)
    /\ chunks = dec (PyList.slice tokens 0 800)
                :: dec (PyList.slice tokens 650 1200)
                :: repeat (dec (PyList.slice tokens 1050 1200)) 998
    /\ PyList.len chunks = 1000
    /\ In (Print (MChunkLimit 1000)) l.
Proof.
  intros Hload Henc Hdec Hlen.
  destruct (chunk_text_fills text 800 150 w w1 tokenizer tokens dec
              Hload Henc Hdec) as (l & Hrun & Hlimit); try lia.
  rewrite Hlen in Hrun.
  replace (window_starts 800 150 1200 (Z.to_nat 1000) 0)
    with (0 :: 650 :: repeat 1050 998) in Hrun by (vm_compute; reflexivity).
  cbn [map] in Hrun. rewrite map_repeat in Hrun.
  unfold window_tokens in Hrun. rewrite Hlen in Hrun.
  change (Z.min (0 + 800) 1200) with 800 in Hrun.
  change (Z.min (650 + 800) 1200) with 1200 in Hrun.
  change (Z.min (1050 + 800) 1200) with 1200 in Hrun.
  eexists _, l. split; [exact Hrun|]. split; [reflexivity|].
  split; [|exact Hlimit].
  rewrite len_correct. cbn [List.length]. rewrite repeat_length. reflexivity.
Qed.

(** C3.  At the default settings a text that needs more than 1000 windows
    (more than 800 + 999 * 650 = 650150 tokens) yields exactly 1000 chunks,
    the windows of 800 tokens at 0, 650, 1300, ...; they are cut from the
    first 650150 tokens alone, so what follows is dropped; and the
    chunk-limit warning is printed. *)
Theorem cap_enforced
    (text : string) (w w1 : world)
    (tokenizer : Tokenizer) (tokens : list Z) (dec : list Z -> string) :
  encoding_for_model "gpt-4" w = (Returns tokenizer, w1) ->
  encode tokenizer text = Returns tokens ->
  (forall l, decode tokenizer l = Returns (dec l)) ->
  650150 < PyList.len tokens ->
  exists chunks l,
    chunk_text text 800 150 w = (Ok chunks, w1, l)
    /\ PyList.len chunks = 1000
    /\ chunks = map (fun k => dec (PyList.slice tokens (650 * Z.of_nat k)
                                     (650 * Z.of_nat k + 800)))
                    (seq 0 1000)
    /\ chunks = map (fun k => dec (PyList.slice
                                     (firstn (Z.to_nat 650150) tokens)
                                     (650 * Z.of_nat k)
                                     (650 * Z.of_nat k + 800)))
                    (seq 0 1000)
    /\ In (Print (MChunkLimit 1000)) l.
Proof.
  intros Hload Henc Hdec Hlen.
  destruct (chunk_text_fills text 800 150 w w1 tokenizer tokens dec
              Hload Henc Hdec) as (l & Hrun & Hlimit); try lia.
  rewrite window_starts_stride in Hrun by lia.
  rewrite map_map in Hrun.
  replace (Z.to_nat 1000) with 1000%nat in Hrun by reflexivity.
  assert (Hwin : forall k, In k (seq 0 1000) ->
            dec (window_tokens tokens 800 (0 + (800 - 150) * Z.of_nat k))
            = dec (PyList.slice tokens (650 * Z.of_nat k)
                                (650 * Z.of_nat k + 800))).
  { intros k Hk. apply in_seq in Hk. unfold window_tokens.
    replace (0 + (800 - 150) * Z.of_nat k) with (650 * Z.of_nat k) by lia.
    rewrite Z.min_l by lia. reflexivity. }
  rewrite (map_ext_in _ _ _ Hwin) in Hrun.
  eexists _, l. split; [exact Hrun|].
  split; [|split; [reflexivity|split; [|exact Hlimit]]].
  - rewrite len_correct, length_map, length_seq. reflexivity.
  - apply map_ext_in. intros k Hk. apply in_seq in Hk. f_equal.
    unfold PyList.slice.
    assert (Hn : (Z.to_nat 650150 <= List.length tokens)%nat)
      by (rewrite len_correct in Hlen; lia).
    rewrite !len_correct, length_firstn, Nat.min_l by exact Hn.
    rewrite len_correct in Hlen.
    unfold PyList.clamp.
    replace (650 * Z.of_nat k <? 0) with false
      by (symmetry; apply Z.ltb_ge; lia).
    replace (650 * Z.of_nat k + 800 <? 0) with false
      by (symmetry; apply Z.ltb_ge; lia).
    rewrite !Z.min_l by lia.
    rewrite !firstn_skipn_comm.
    rewrite firstn_firstn. f_equal. f_equal. lia.
Qed.

(** C9.  [chunk_text] always ends normally, whatever the tokenizer does;
    when its [try] block raises, the result is the one-element list of the
    original text.  The block raises when the encoding cannot be loaded,
    when the text cannot be encoded, and when a window cannot be decoded. *)
Theorem chunk_text_never_raises
    (text : string) (max_tokens overlap : Z) (w : world) :
  (exists chunks w' l,
      chunk_text text max_tokens overlap w = (Ok chunks, w', l))
  /\ (forall e w' l,
        chunk_text_body text max_tokens overlap w = (Raise e, w', l) ->
        chunk_text text max_tokens overlap w =
        (Ok [text], w',
         Print (MChunking max_tokens overlap) :: l ++ [Print (MChunkError e)]))
  /\ (forall e w',
        encoding_for_model "gpt-4" w = (Throws e, w') ->
        exists l, chunk_text text max_tokens overlap w = (Ok [text], w', l))
  /\ (forall tokenizer e w',
        encoding_for_model "gpt-4" w = (Returns tokenizer, w') ->
        encode tokenizer text = Throws e ->
        exists l, chunk_text text max_tokens overlap w = (Ok [text], w', l))
  /\ (forall tokenizer tokens e w',
        encoding_for_model "gpt-4" w = (Returns tokenizer, w') ->
        encode tokenizer text = Returns tokens ->
        max_tokens < PyList.len tokens ->
        0 < PyList.len tokens ->
        decode tokenizer
          (PyList.slice tokens 0 (Z.min (0 + max_tokens) (PyList.len tokens)))
        = Throws e ->
        exists l, chunk_text text max_tokens overlap w = (Ok [text], w', l)).
Proof.
  split; [|split; [|split; [|split]]].
  - unfold chunk_text, chunk_text_body. run.
    destruct (encoding_for_model "gpt-4" w) as [[tokenizer|e] w1]; run;
      [|eexists _, _, _; reflexivity].
    destruct (encode tokenizer text) as [tokens|e]; run;
      [|eexists _, _, _; reflexivity].
    destruct (PyList.len tokens <=? max_tokens);
      [eexists _, _, _; reflexivity|].
    destruct (chunk_while_fuel tokenizer tokens max_tokens overlap 1000
                (Z.to_nat 1000) (mkChunkLoop 0 0 []) w1)
      as (r & l & Hrun & Hr & _); [cbn [cl_chunk_num]; lia|].
    rewrite Hrun. destruct r as [st|e|]; [| |congruence].
    + destruct (cl_chunk_num st >=? 1000); eexists _, _, _; reflexivity.
    + eexists _, _, _; reflexivity.
  - intros e w' l Hbody. unfold chunk_text. run. rewrite Hbody. reflexivity.
  - intros e w' Hload. unfold chunk_text, chunk_text_body. run.
    rewrite Hload. run. eexists; reflexivity.
  - intros tokenizer e w' Hload Henc. unfold chunk_text, chunk_text_body. run.
    rewrite Hload. run. rewrite Henc. run. eexists; reflexivity.
  - intros tokenizer tokens e w' Hload Henc Hlen Hpos Hdec.
    unfold chunk_text, chunk_text_body. run.
    rewrite Hload. run. rewrite Henc. run.
    replace (PyList.len tokens <=? max_tokens) with false
      by (symmetry; apply Z.leb_gt; exact Hlen).
    rewrite chunk_while_eq. cbn [cl_start cl_chunk_num cl_chunks].
    replace (0 <? PyList.len tokens) with true
      by (symmetry; apply Z.ltb_lt; lia).
    change (Z.to_nat 1000) with (S (Z.to_nat 999)).
    cbn [andb Z.ltb Z.compare]. run.
    unfold window_tokens. rewrite Hdec. eexists; reflexivity.
Qed.

End ChunkTextFacts.

(** A text of 50 letters, one token each, is one chunk. *)
Lemma single_chunk_unchanged_witness :
  exists l,
    @chunk_text (Fixture.platform Fixture.small) (Fixture.letters 50) 800 150
                0%nat
    = (Ok [Fixture.letters 50], 0%nat, l).
Proof.
  eexists.
  apply (@single_chunk_unchanged (Fixture.platform Fixture.small)
           (Fixture.letters 50) 800 150 0%nat 0%nat Fixture.char_tokenizer
           (Fixture.char_tokens (Fixture.letters 50))).
  - reflexivity.
  - reflexivity.
  - apply Z.leb_le. vm_compute. reflexivity.
Defined.

(** A text of 1200 letters, one token each, is cut into 1000 chunks. *)
Lemma text_of_1200_tokens_hits_cap_witness :
  exists chunks l,
    @chunk_text (Fixture.platform Fixture.small) (Fixture.letters 1200)
                800 150 0%nat
    = (Ok chunks, 0%nat, l)
    /\ PyList.len chunks = 1000.
Proof.
  destruct (@text_of_1200_tokens_hits_cap (Fixture.platform Fixture.small)
              (Fixture.letters 1200) 0%nat 0%nat Fixture.char_tokenizer
              (Fixture.char_tokens (Fixture.letters 1200))
              Fixture.tokens_text)
    as (chunks & l & Hrun & _ & Hlen & _).
  - reflexivity.
  - reflexivity.
  - intros l. reflexivity.
  - vm_compute. reflexivity.
  - exists chunks, l. split; [exact Hrun|exact Hlen].
Defined.

(** A text of 650151 letters loses its last letter to the chunk limit. *)
Lemma cap_enforced_witness :
  exists chunks l,
    @chunk_text (Fixture.platform Fixture.small) (Fixture.letters 650151)
                800 150 0%nat
    = (Ok chunks, 0%nat, l)
    /\ PyList.len chunks = 1000
    /\ In (Print (MChunkLimit 1000)) l.
Proof.
  destruct (@cap_enforced (Fixture.platform Fixture.small)
              (Fixture.letters 650151) 0%nat 0%nat Fixture.char_tokenizer
              (Fixture.char_tokens (Fixture.letters 650151))
              Fixture.tokens_text)
    as (chunks & l & Hrun & Hlen & _ & _ & Hlimit).
  - reflexivity.
  - reflexivity.
  - intros l. reflexivity.
  - vm_compute. reflexivity.
  - exists chunks, l. auto.
Defined.

(** A text the tokenizer rejects comes back whole. *)
Lemma chunk_text_never_raises_witness :
  exists l,
    @chunk_text (Fixture.platform Fixture.bad_text) "<|endoftext|>" 800 150
                0%nat
    = (Ok ["<|endoftext|>"], 0%nat, l).
Proof.
  destruct (@chunk_text_never_raises (Fixture.platform Fixture.bad_text)
              "<|endoftext|>" 800 150 0%nat) as (_ & _ & _ & Hencode & _).
  apply (Hencode Fixture.broken_tokenizer "disallowed special token" 0%nat);
    reflexivity.
Defined.

(** ** Embedding client and document assembler *)

Section Assembly.
Context {P : Platform}.
Variables (file_path : string) (metadata : Metadata).
Variables (openai_client : AzureOpenAI) (embedding_model : string).
Variable chunks : list string.

(** [get_embeddings] always ends normally, with the vector of the service
    or with the empty list. *)
Lemma get_embeddings_run (text : string) (w : world) :
  get_embeddings text openai_client embedding_model w =
  let '(o, w1) := embeddings_create openai_client text embedding_model w in
  (Ok (embedding_of o), w1,
   [Print (MEmbedding (PyStr.len text));
    Call (CallEmbed openai_client text embedding_model o);
    Print (match o with
           | Returns _ => MEmbedded
           | Throws e => MEmbedError e
           end)]).
Proof.
  unfold get_embeddings. run.
  destruct (embeddings_create openai_client text embedding_model w)
    as [[v|e] w1]; reflexivity.
Qed.

(** One turn of the chunk loop that ends normally either skips the chunk,
    when no vector came back, or appends one record for it. *)
Lemma process_chunk_ok (docs docs' : list (Document float)) (i : Z)
    (chunk : string) (w w' : world) (l : list event) :
  process_chunk file_path metadata openai_client embedding_model chunks
                docs (i, chunk) w = (Ok docs', w', l) ->
  exists o,
    embed_outcomes l = [o] /\
    ((no_vector o = true /\ docs' = docs) \/
     (no_vector o = false /\
      exists d, docs' = docs ++ [d]
                /\ chunk_index d = i
                /\ total_chunks d = PyList.len chunks
                /\ doc_id d = id_formula file_path d
                /\ doc_content d = chunk
                /\ content_vector d = embedding_of o)).
Proof.
  intros H. unfold process_chunk in H.
  unfold bind at 1 in H. unfold print at 1 in H. cbv beta iota zeta in H.
  unfold bind at 1 in H. rewrite get_embeddings_run in H.
  destruct (embeddings_create openai_client chunk embedding_model w)
    as [o w1].
  exists o. unfold no_vector.
  destruct (is_empty (embedding_of o)) eqn:Hempty.
  - run in H. inversion H; subst. split; [|left; auto].
    unfold embed_outcomes. simpl. reflexivity.
  - run in H.
    destruct (stat_size file_path w1) as [[size|e] w2]; [|discriminate].
    destruct (now_strftime w2) as [created w3].
    inversion H; subst. split; [unfold embed_outcomes; simpl; reflexivity|].
    right. split; [reflexivity|]. eexists. split; [reflexivity|].
    cbn [chunk_index total_chunks doc_id doc_content content_vector].
    repeat split.
Qed.

(** A turn of the chunk loop can only fail on the size of the file. *)
Lemma process_chunk_returns :
  (forall p w, exists n w', stat_size p w = (Returns n, w')) ->
  forall docs entry w,
  exists docs' w' l,
    process_chunk file_path metadata openai_client embedding_model chunks
                  docs entry w = (Ok docs', w', l).
Proof.
  intros Hstat docs [i chunk] w. unfold process_chunk.
  unfold bind at 1. unfold print at 1. cbv beta iota zeta.
  unfold bind at 1. rewrite get_embeddings_run.
  destruct (embeddings_create openai_client chunk embedding_model w)
    as [o w1].
  destruct (is_empty (embedding_of o)).
  - run. eexists _, _, _. reflexivity.
  - run. destruct (Hstat file_path w1) as (n & w2 & ->).
    destruct (now_strftime w2) as [created w3].
    eexists _, _, _. reflexivity.
Qed.

(** The records added while the loop runs over the chunks numbered from
    [i]. *)
Lemma process_chunks_from (rest : list string) :
  forall (i : Z) (docs docs' : list (Document float)) (w w' : world)
         (l : list event),
    for_fold (process_chunk file_path metadata openai_client embedding_model
                chunks)
             (PyList.enumerate_from i rest) docs w = (Ok docs', w', l) ->
    exists new,
      docs' = docs ++ new
      /\ Forall (fun d => i <= chunk_index d < i + PyList.len rest
                          /\ total_chunks d = PyList.len chunks
                          /\ doc_id d = id_formula file_path d
                          /\ content_vector d <> []) new
      /\ StronglySorted Z.lt (map chunk_index new)
      /\ List.length (embed_outcomes l) = List.length rest
      /\ PyList.len new =
         PyList.len rest - PyList.len (filter no_vector (embed_outcomes l)).
Proof.
  induction rest as [|chunk rest IH]; intros i docs docs' w w' l Hrun.
  - inversion Hrun; subst. exists []. rewrite app_nil_r.
    repeat split; constructor.
  - cbn [PyList.enumerate_from] in Hrun.
    apply for_fold_cons_ok in Hrun
      as (docs1 & w1 & l1 & l2 & Hstep & Hrest & ->).
    apply process_chunk_ok in Hstep as (o & Ho & Hcase).
    apply IH in Hrest as (new & -> & Hall & Hsorted & Hcalls & Hcount).
    rewrite embed_outcomes_app, Ho. cbn [app List.length filter].
    unfold PyList.len in *. rewrite Zlength_cons.
    assert (Hshift : Forall (fun d => i <= chunk_index d
                                      < i + Z.succ (Zlength rest)
                                      /\ total_chunks d = Zlength chunks
                                      /\ doc_id d = id_formula file_path d
                                      /\ content_vector d <> []) new).
    { eapply Forall_impl; [|exact Hall]. cbv beta.
      intros d (Hi & Ht & Hid & Hv). repeat split; auto; lia. }
    destruct Hcase as [(Hno & ->)|(Hno & d & -> & Hi & Ht & Hid & _ & Hv)];
      rewrite Hno; cbv iota.
    + exists new. split; [reflexivity|]. split; [exact Hshift|].
      split; [exact Hsorted|]. split; [congruence|].
      rewrite Zlength_cons. lia.
    + exists (d :: new). rewrite <- app_assoc.
      split; [reflexivity|]. split; [|split; [|split; [congruence|]]].
      * constructor; [|exact Hshift].
        unfold no_vector in Hno. rewrite <- Hv in Hno.
        pose proof (Zlength_correct rest).
        repeat split; auto; try lia.
        intros E. rewrite E in Hno. discriminate.
      * cbn [map]. constructor; [exact Hsorted|].
        apply Forall_map. eapply Forall_impl; [|exact Hall]. cbv beta.
        intros d' (Hd' & _). lia.
      * rewrite Zlength_cons. lia.
Qed.

End Assembly.

Section AssemblyTheorems.
Context {P : Platform}.

(** C4.  The identifier of a record is the MD5 digest of the file name
    followed by [_chunk<i>], when the file has more than one chunk, or by
    [_single]; nothing else enters it.  Two runs over a file of the same
    name and the same number of chunks, whatever the metadata, the services
    and the clock, give the records of equal position equal identifiers. *)
Theorem identifiers_deterministic
    (file_path : string) (metadata metadata' : Metadata)
    (client client' : AzureOpenAI) (model model' : string)
    (chunks chunks' : list string) (w1 w1' w2 w2' : world)
    (docs1 docs2 : list (Document float)) (l1 l2 : list event) :
  process_chunks file_path metadata client model chunks w1
    = (Ok docs1, w1', l1) ->
  process_chunks file_path metadata' client' model' chunks' w2
    = (Ok docs2, w2', l2) ->
  Forall (fun d =>
            doc_id d =
            md5_hexdigest
              (PyStr.path_name file_path ++
               (if total_chunks d >? 1
                then "_chunk" ++ PyStr.of_int (chunk_index d)
                else "_single"))%string) docs1
  /\ (PyList.len chunks = PyList.len chunks' ->
      forall d1 d2, In d1 docs1 -> In d2 docs2 ->
                    chunk_index d1 = chunk_index d2 ->
                    doc_id d1 = doc_id d2).
Proof.
  intros H1 H2.
  apply process_chunks_from in H1 as (new1 & E1 & Hall1 & _).
  apply process_chunks_from in H2 as (new2 & E2 & Hall2 & _).
  cbn [app] in E1, E2. subst new1 new2.
  split.
  - eapply Forall_impl; [|exact Hall1]. cbv beta.
    intros d (_ & _ & Hid & _). exact Hid.
  - intros Hlen d1 d2 Hd1 Hd2 Hidx.
    rewrite Forall_forall in Hall1, Hall2.
    destruct (Hall1 d1 Hd1) as (_ & Ht1 & Hid1 & _).
    destruct (Hall2 d2 Hd2) as (_ & Ht2 & Hid2 & _).
    rewrite Hid1, Hid2. unfold id_formula.
    rewrite Hidx, Ht1, Ht2, Hlen. reflexivity.
Qed.

(** C10.  In the records of one file every [chunk_index] lies in
    [0, total_chunks), [total_chunks] is the number of chunks of the file
    in all of them, and the indices increase strictly in the order the
    records are made. *)
Theorem chunk_positions
    (file_path : string) (metadata : Metadata)
    (client : AzureOpenAI) (model : string)
    (chunks : list string) (w w' : world)
    (docs : list (Document float)) (l : list event) :
  process_chunks file_path metadata client model chunks w = (Ok docs, w', l) ->
  Forall (fun d => 0 <= chunk_index d < total_chunks d
                   /\ total_chunks d = PyList.len chunks) docs
  /\ StronglySorted Z.lt (map chunk_index docs).
Proof.
  intros H.
  apply process_chunks_from in H as (new & E & Hall & Hsorted & _).
  cbn [app] in E. subst new. split; [|exact Hsorted].
  eapply Forall_impl; [|exact Hall]. cbv beta.
  intros d (Hi & Ht & _). split; [lia|exact Ht].
Qed.

(** C8.  [get_embeddings] never raises and answers a failure of the service
    with the empty list; a chunk with an empty vector adds no record and the
    loop goes on; a file whose chunks are all visited has as many records as
    chunks less the chunks without a vector; and all chunks are visited
    unless the size of the file cannot be read. *)
Theorem empty_embedding_skips_chunk :
  (forall text client model w,
      exists v w' l,
        get_embeddings text client model w = (Ok v, w', l)
        /\ (forall e w1, embeddings_create client text model w = (Throws e, w1)
                         -> v = [] /\ w' = w1))
  /\ (forall file_path metadata client model chunks docs i chunk w o w1,
         embeddings_create client chunk model w = (o, w1) ->
         no_vector o = true ->
         exists l,
           process_chunk file_path metadata client model chunks docs
                         (i, chunk) w = (Ok docs, w1, l))
  /\ (forall file_path metadata client model chunks w docs w' l,
         process_chunks file_path metadata client model chunks w
           = (Ok docs, w', l) ->
         List.length (embed_outcomes l) = List.length chunks
         /\ PyList.len docs =
            PyList.len chunks
            - PyList.len (filter no_vector (embed_outcomes l)))
  /\ ((forall p w, exists n w', stat_size p w = (Returns n, w')) ->
      forall file_path metadata client model chunks w,
      exists docs w' l,
        process_chunks file_path metadata client model chunks w
          = (Ok docs, w', l)).
Proof.
  split; [|split; [|split]].
  - intros text client model w. rewrite get_embeddings_run.
    destruct (embeddings_create client text model w) as [o w1].
    eexists _, _, _. split; [reflexivity|].
    intros e w2 H. inversion H; subst. auto.
  - intros file_path metadata client model chunks docs i chunk w o w1 Hcall Hno.
    unfold process_chunk.
    unfold bind at 1. unfold print at 1. cbv beta iota zeta.
    unfold bind at 1. rewrite get_embeddings_run, Hcall.
    unfold no_vector in Hno. rewrite Hno. run. eexists. reflexivity.
  - intros file_path metadata client model chunks w docs w' l H.
    apply process_chunks_from in H as (new & E & _ & _ & Hcalls & Hcount).
    cbn [app] in E. subst new. auto.
  - intros Hstat file_path metadata client model chunks w.
    apply for_fold_returns. intros s x w0.
    apply process_chunk_returns. exact Hstat.
Qed.

End AssemblyTheorems.

(** Three chunks of which the second gets no vector: two records, at 0 and
    at 2. *)
Lemma chunk_positions_witness :
  exists docs w' l,
    @process_chunks (Fixture.platform Fixture.flaky) "/d/note.pdf"
      default_metadata Fixture.client "model" ["a"; "b"; "c"] 0%nat
    = (Ok docs, w', l)
    /\ map chunk_index docs = [0; 2]
    /\ Forall (fun d => 0 <= chunk_index d < total_chunks d
                        /\ total_chunks d = 3) docs
    /\ StronglySorted Z.lt (map chunk_index docs).
Proof.
  eexists _, _, _. split; [reflexivity|].
  split; [reflexivity|].
  eapply (@chunk_positions (Fixture.platform Fixture.flaky) "/d/note.pdf"
            default_metadata Fixture.client "model" ["a"; "b"; "c"] 0%nat).
  reflexivity.
Defined.

(** The same file read twice, with other texts, another model and a later
    world: equal positions, equal identifiers. *)
Lemma identifiers_deterministic_witness :
  exists docs1 docs2 w1 w2 l1 l2,
    @process_chunks (Fixture.platform Fixture.flaky) "/d/note.pdf"
      default_metadata Fixture.client "model" ["a"; "b"; "c"] 0%nat
    = (Ok docs1, w1, l1)
    /\ @process_chunks (Fixture.platform Fixture.flaky) "/d/note.pdf"
         (get_esg_metadata "/d/note.pdf") Fixture.client "other"
         ["x"; "y"; "z"] 7%nat
       = (Ok docs2, w2, l2)
    /\ map doc_id docs1 = ["md5:note.pdf_chunk0"; "md5:note.pdf_chunk2"]
    /\ forall d1 d2, In d1 docs1 -> In d2 docs2 ->
                     chunk_index d1 = chunk_index d2 -> doc_id d1 = doc_id d2.
Proof.
  eexists _, _, _, _, _, _.
  split; [reflexivity|]. split; [reflexivity|].
  split; [reflexivity|].
  eapply (@identifiers_deterministic (Fixture.platform Fixture.flaky)
            "/d/note.pdf" default_metadata (get_esg_metadata "/d/note.pdf")
            Fixture.client Fixture.client "model" "other"
            ["a"; "b"; "c"] ["x"; "y"; "z"] 0%nat _ 7%nat).
  - reflexivity.
  - reflexivity.
  - reflexivity.
Defined.

(** Three chunks, one failed embedding request, two records. *)
Lemma empty_embedding_skips_chunk_witness :
  exists docs w' l,
    @process_chunks (Fixture.platform Fixture.flaky) "/d/note.pdf"
      default_metadata Fixture.client "model" ["a"; "b"; "c"] 0%nat
    = (Ok docs, w', l)
    /\ PyList.len (filter no_vector (embed_outcomes l)) = 1
    /\ List.length (embed_outcomes l) = List.length ["a"; "b"; "c"]
    /\ PyList.len docs =
       PyList.len ["a"; "b"; "c"]
       - PyList.len (filter no_vector (embed_outcomes l)).
Proof.
  eexists _, _, _. split; [reflexivity|].
  split; [reflexivity|].
  destruct (@empty_embedding_skips_chunk (Fixture.platform Fixture.flaky))
    as (_ & _ & Hcount & _).
  eapply (Hcount "/d/note.pdf" default_metadata Fixture.client "model"
            ["a"; "b"; "c"] 0%nat).
  reflexivity.
Defined.

(** ** Batch uploader *)

Lemma firstn_plus {A} (a b : nat) (l : list A) :
  firstn (a + b) l = firstn a l ++ firstn b (skipn a l).
Proof.
  revert l. induction a as [|a IH]; intros l; [reflexivity|].
  destruct l as [|x l]; cbn [Nat.add firstn skipn app].
  - rewrite firstn_nil. reflexivity.
  - rewrite IH. reflexivity.
Qed.

(** A slice of width [size] that starts inside the list. *)
Lemma slice_batch {A} (l : list A) (size : nat) (i : nat) :
  (i < List.length l)%nat ->
  PyList.slice l (Z.of_nat i) (Z.of_nat i + Z.of_nat size)
  = firstn size (skipn i l).
Proof.
  intros Hi. unfold PyList.slice, PyList.clamp.
  rewrite len_correct.
  replace (Z.of_nat i <? 0) with false by (symmetry; apply Z.ltb_ge; lia).
  replace (Z.of_nat i + Z.of_nat size <? 0) with false
    by (symmetry; apply Z.ltb_ge; lia).
  rewrite (Z.min_l (Z.of_nat i)) by lia. rewrite Nat2Z.id.
  destruct (Z.le_gt_cases (Z.of_nat i + Z.of_nat size)
                          (Z.of_nat (List.length l))) as [Hfit|Hover].
  - rewrite Z.min_l by lia. f_equal. lia.
  - rewrite Z.min_r by lia.
    rewrite !firstn_all2; try reflexivity; rewrite length_skipn; lia.
Qed.

Lemma concat_batches {A} (l : list A) (size : nat) (m : nat) :
  List.concat (map (fun k => firstn size (skipn (size * k) l)) (seq 0 m))
  = firstn (size * m) l.
Proof.
  induction m as [|m IH].
  - rewrite Nat.mul_0_r. reflexivity.
  - rewrite seq_S, map_app, concat_app, IH. cbn [Nat.add map].
    cbn [List.concat]. rewrite app_nil_r, Nat.mul_succ_r. symmetry.
    apply firstn_plus.
Qed.

Lemma batch_count_covers (n : nat) :
  (n <= 5 * batch_count (Z.of_nat n))%nat
  /\ forall k, (k < batch_count (Z.of_nat n))%nat -> (5 * k < n)%nat.
Proof.
  unfold batch_count.
  pose proof (Z.div_mod (Z.of_nat n - 0 + 5 - 1) 5 ltac:(lia)) as Hdm.
  pose proof (Z.mod_pos_bound (Z.of_nat n - 0 + 5 - 1) 5 ltac:(lia)) as Hb.
  assert (0 <= (Z.of_nat n - 0 + 5 - 1) / 5) by (apply Z.div_pos; lia).
  split; [lia|]. intros k Hk. lia.
Qed.

(** The slices that [range(0, len(l), 5)] cuts. *)
Lemma range_batches {A} (l : list A) :
  map (fun i => PyList.slice l i (i + 5)) (PyList.range 0 (PyList.len l) 5)
  = map (fun k => firstn 5 (skipn (5 * k) l))
        (seq 0 (batch_count (PyList.len l))).
Proof.
  unfold PyList.range. fold (batch_count (PyList.len l)).
  rewrite map_map. apply map_ext_in. intros k Hk. apply in_seq in Hk.
  rewrite len_correct in Hk.
  destruct (batch_count_covers (List.length l)) as [_ Hin].
  specialize (Hin k ltac:(lia)).
  replace (0 + 5 * Z.of_nat k) with (Z.of_nat (5 * k)) by lia.
  change 5 with (Z.of_nat 5).
  apply slice_batch. exact Hin.
Qed.

Section Uploader.
Context {P : Platform}.
Variable search_client : SearchClient.
Variable records : list (Document float).

(** Listing the rejected records neither fails nor leaves the process. *)
Lemma report_errors_run (result : list IndexingResult) (w : world) :
  exists l,
    for_fold (fun (_ : unit) r =>
                when (negb (succeeded r))
                     (print (MRecordError (error_message r))))
             result tt w = (Ok tt, w, l)
    /\ calls l = [].
Proof.
  set (body := fun (_ : unit) r =>
                  when (negb (succeeded r))
                       (print (MRecordError (error_message r)))).
  induction result as [|r result (l & IH & Hl)]; cbn [for_fold].
  - eexists. split; reflexivity.
  - unfold bind, body at 1.
    destruct (negb (succeeded r)); run; rewrite IH;
      eexists; (split; [reflexivity|exact Hl]).
Qed.

(** One turn of the upload loop: one call, and the total grows by what the
    answer is worth. *)
Lemma upload_batch_run (batch_size total_uploaded i : Z) (w : world) :
  let batch := PyList.slice records i (i + batch_size) in
  let answer := upload_documents search_client batch w in
  exists l,
    upload_batch search_client records batch_size total_uploaded i w
    = (Ok (total_uploaded + credited (fst answer)), snd answer, l)
    /\ upload_calls l = [(batch, fst answer)].
Proof.
  intros batch answer. unfold upload_batch. fold batch.
  unfold bind at 1. unfold print at 1. cbv beta iota zeta.
  unfold try_except, bind at 1, attempt. fold answer.
  destruct answer as [[result|e] w1]; cbn [of_outcome fst snd credited].
  - unfold bind at 1.
    destruct (PyList.len batch - success_count_of result >? 0).
    + unfold bind at 1, print at 1. cbv beta iota zeta.
      destruct (report_errors_run result w1) as (l & -> & Hl).
      run. eexists. split; [reflexivity|].
      unfold upload_calls. cbn [app calls flat_map].
      rewrite !app_nil_r. fold (calls l). rewrite Hl. reflexivity.
    + run. eexists. split; reflexivity.
  - run. rewrite Z.add_0_r. eexists. split; reflexivity.
Qed.

Lemma upload_fold (batch_size : Z) (indices : list Z) :
  forall (total_uploaded : Z) (w : world),
  exists total' w' l,
    for_fold (upload_batch search_client records batch_size)
             indices total_uploaded w = (Ok total', w', l)
    /\ map fst (upload_calls l)
       = map (fun i => PyList.slice records i (i + batch_size)) indices
    /\ total' = total_uploaded + sum_Z (map credited (map snd (upload_calls l))).
Proof.
  induction indices as [|i indices IH]; intros total_uploaded w;
    cbn [for_fold].
  - eexists _, _, _. split; [reflexivity|]. split; [reflexivity|].
    cbn. lia.
  - destruct (upload_batch_run batch_size total_uploaded i w)
      as (l1 & Hstep & Hcalls).
    cbv zeta in Hstep, Hcalls.
    destruct (IH (total_uploaded
                  + credited (fst (upload_documents search_client
                       (PyList.slice records i (i + batch_size)) w)))
                 (snd (upload_documents search_client
                       (PyList.slice records i (i + batch_size)) w)))
      as (total' & w' & l2 & Hrest & Hbatches & Htotal).
    unfold bind. rewrite Hstep, Hrest.
    eexists _, _, _. split; [reflexivity|].
    rewrite upload_calls_app, Hcalls. cbn [app map fst snd sum_Z fold_right].
    split; [f_equal; exact Hbatches|].
    rewrite Htotal. unfold sum_Z. lia.
Qed.

(** The batches [upload_all] sends and the total it returns. *)
Lemma upload_all_run (w : world) :
  exists total_uploaded w' l,
    upload_all search_client records w = (Ok total_uploaded, w', l)
    /\ let batches := map fst (upload_calls l) in
       let answers := map snd (upload_calls l) in
       List.concat batches = records
       /\ Forall (fun b => 0 < PyList.len b <= 5) batches
       /\ PyList.len batches = (PyList.len records + 5 - 1) / 5
       /\ total_uploaded = sum_Z (map credited answers).
Proof.
  unfold upload_all. cbv zeta.
  destruct (upload_fold 5 (PyList.range 0 (PyList.len records) 5) 0 w)
    as (total' & w' & l & Hrun & Hbatches & Htotal).
  exists total', w', l. split; [exact Hrun|].
  rewrite Hbatches, range_batches.
  destruct (batch_count_covers (List.length records)) as [Hcover Hin].
  rewrite <- len_correct in Hcover, Hin.
  split; [|split; [|split]].
  - rewrite (concat_batches records 5). apply firstn_all2. exact Hcover.
  - apply Forall_map, Forall_forall. intros k Hk. apply in_seq in Hk.
    specialize (Hin k ltac:(lia)).
    rewrite len_correct, length_firstn, length_skipn. lia.
  - rewrite len_correct, length_map, length_seq. unfold batch_count.
    rewrite Z2Nat.id; [f_equal; lia|].
    apply Z.div_pos; [|lia]. rewrite len_correct. lia.
  - lia.
Qed.

(** The summary printed after the upload (lines 360-369). *)
Lemma upload_and_report_run (n_files processed : Z) (w : world) :
  records <> [] ->
  exists w' l,
    upload_and_report search_client n_files (mkProgress records processed) w
    = (Ok tt, w', l)
    /\ let uploaded := sum_Z (map credited (map snd (upload_calls l))) in
       In (Print (MSummaryChunks uploaded (PyList.len records))) l
       /\ (uploaded < PyList.len records ->
           In (Print (MSummaryFailed (PyList.len records - uploaded))) l).
Proof.
  intros Hne.
  destruct (upload_all_run w) as (total & w' & lu & Hrun & _ & _ & _ & Htotal).
  unfold upload_and_report. cbn [all_documents processed_files].
  replace (is_empty records) with false
    by (destruct records; [congruence|reflexivity]).
  cbn [negb].
  unfold bind at 1. unfold print at 1. cbv beta iota zeta.
  unfold bind at 1. rewrite Hrun. run.
  exists w'.
  destruct (total <? PyList.len records) eqn:Hlt; eexists;
    (split; [reflexivity|]).
  - rewrite !upload_calls_app.
    replace (upload_calls lu ++ _) with (upload_calls lu)
      by (cbn; rewrite app_nil_r; reflexivity).
    cbn [upload_calls calls flat_map app]. rewrite <- Htotal.
    split.
    + right. apply in_or_app. right. cbn. auto.
    + intros _. right. apply in_or_app. right. cbn. auto 10.
  - rewrite !upload_calls_app.
    replace (upload_calls lu ++ _) with (upload_calls lu)
      by (cbn; rewrite app_nil_r; reflexivity).
    cbn [upload_calls calls flat_map app]. rewrite <- Htotal.
    split.
    + right. apply in_or_app. right. cbn. auto.
    + intros Hless. apply Z.ltb_ge in Hlt. lia.
Qed.

(** C6.  The uploader always ends normally.  The batches it sends are, in
    order, consecutive slices of the records, each of 1 to 5 records, as
    many as the records need, and together all of them; the total is the
    sum, over the batches, of the successes the index reported, a batch
    whose call threw counting for nothing.  So an answer with 3 successes
    among 5 adds 3, a call that throws adds 0, and in both cases the loop
    goes on to the next batch.  The summary shows that total, and the
    records beyond it as failed. *)
Theorem batches_partition_and_count :
  (forall w,
      exists total_uploaded w' l,
        upload_all search_client records w = (Ok total_uploaded, w', l)
        /\ let batches := map fst (upload_calls l) in
           let answers := map snd (upload_calls l) in
           List.concat batches = records
           /\ Forall (fun b => 0 < PyList.len b <= 5) batches
           /\ PyList.len batches = (PyList.len records + 5 - 1) / 5
           /\ total_uploaded = sum_Z (map credited answers))
  /\ (forall total_uploaded i w result w1,
         upload_documents search_client
           (PyList.slice records i (i + 5)) w = (Returns result, w1) ->
         exists l,
           upload_batch search_client records 5 total_uploaded i w
           = (Ok (total_uploaded + PyList.len (filter succeeded result)), w1, l))
  /\ (forall total_uploaded i w e w1,
         upload_documents search_client
           (PyList.slice records i (i + 5)) w = (Throws e, w1) ->
         exists l,
           upload_batch search_client records 5 total_uploaded i w
           = (Ok total_uploaded, w1, l))
  /\ (forall n_files processed w,
         records <> [] ->
         exists w' l,
           upload_and_report search_client n_files
             (mkProgress records processed) w = (Ok tt, w', l)
           /\ let uploaded :=
                sum_Z (map credited (map snd (upload_calls l))) in
              In (Print (MSummaryChunks uploaded (PyList.len records))) l
              /\ (uploaded < PyList.len records ->
                  In (Print (MSummaryFailed (PyList.len records - uploaded)))
                     l)).
Proof.
  split; [exact upload_all_run|]. split; [|split].
  - intros total_uploaded i w result w1 Hcall.
    destruct (upload_batch_run 5 total_uploaded i w) as (l & Hstep & _).
    cbv zeta in Hstep. rewrite Hcall in Hstep. exists l. exact Hstep.
  - intros total_uploaded i w e w1 Hcall.
    destruct (upload_batch_run 5 total_uploaded i w) as (l & Hstep & _).
    cbv zeta in Hstep. rewrite Hcall in Hstep. cbn in Hstep.
    rewrite Z.add_0_r in Hstep. exists l. exact Hstep.
  - intros n_files processed w Hne.
    apply upload_and_report_run. exact Hne.
Qed.

End Uploader.

(** Five records of which the index accepts three: the total grows by 3. *)
Lemma batches_partition_and_count_witness :
  exists l,
    @upload_batch (Fixture.platform Fixture.flaky) Fixture.index
      Fixture.five_records 5 0 0 0%nat
    = (Ok (0 + 3), 1%nat, l).
Proof.
  destruct (@batches_partition_and_count (Fixture.platform Fixture.flaky)
              Fixture.index Fixture.five_records) as (_ & Hpartial & _).
  apply (Hpartial 0 0 0%nat
           [mkIndexingResult true None; mkIndexingResult true None;
            mkIndexingResult true None;
            mkIndexingResult false (Some "rejected");
            mkIndexingResult false (Some "rejected")]).
  reflexivity.
Defined.

(** ** Configuration check of [main] *)

Lemma env_absent_iff {P : Platform} (var : string) :
  env_absent var = true <-> getenv var = None \/ getenv var = Some "".
Proof.
  unfold env_absent. destruct (getenv var) as [[|c v]|]; simpl; split;
    intros H; auto; try discriminate.
  - destruct H as [H|H]; discriminate.
Qed.

(** C7 as stated fails: with the deployment name and the API version unset
    and the four other variables set, [main] reports nothing missing and goes
    on to read the filesystem. *)
Lemma optional_settings_do_not_abort :
  In "AZURE_OPENAI_API_VERSION" spec_required_vars
  /\ In "AZURE_OPENAI_EMBEDDINGS_DEPLOYMENT_NAME" spec_required_vars
  /\ @getenv (Fixture.platform Fixture.small) "AZURE_OPENAI_API_VERSION"
     = None
  /\ @getenv (Fixture.platform Fixture.small)
       "AZURE_OPENAI_EMBEDDINGS_DEPLOYMENT_NAME" = None
  /\ existsb is_file_io
       (calls (snd (@main (Fixture.platform Fixture.small) 0%nat))) = true
  /\ existsb is_missing_report
       (prints (snd (@main (Fixture.platform Fixture.small) 0%nat))) = false.
Proof.
  repeat split; vm_compute; auto 10.
Qed.

(** ** A whole run *)

Create HintDb total.

Section ScriptTotality.
Context {P : Platform}.

Local Hint Resolve returns_ret returns_print returns_when returns_perform
  returns_terminates terminates_lift terminates_attempt : total.

Ltac total :=
  repeat first
    [ progress intros
    | solve [auto with total]
    | apply returns_bind
    | apply terminates_bind
    | apply returns_for_fold
    | apply terminates_for_fold
    | apply returns_try
    | match goal with
      | |- returns (if ?c then _ else _) => destruct c
      | |- terminates (if ?c then _ else _) => destruct c
      | |- returns (match ?x with (_, _) => _ end) => destruct x
      | |- terminates (match ?x with (_, _) => _ end) => destruct x
      | |- terminates (try_except _ _) => apply returns_terminates
      end ].

Lemma extract_pdf_content_returns (pdf_path : string) :
  returns (extract_pdf_content pdf_path).
Proof. unfold extract_pdf_content, extract_page. total. Qed.

Local Hint Resolve extract_pdf_content_returns : total.

Lemma chunk_while_terminates (tokenizer : Tokenizer) (tokens : list Z)
    (max_tokens overlap max_chunks : Z) (fuel : nat) (st : ChunkLoop) :
  (Z.to_nat (max_chunks - cl_chunk_num st) <= fuel)%nat ->
  terminates (chunk_while fuel tokenizer tokens max_tokens overlap max_chunks st).
Proof.
  intros Hfuel w.
  destruct (chunk_while_fuel tokenizer tokens max_tokens overlap max_chunks
              fuel st w Hfuel) as (r & l & -> & Hr & _).
  exact Hr.
Qed.

Lemma chunk_text_returns (text : string) (max_tokens overlap : Z) :
  returns (chunk_text text max_tokens overlap).
Proof.
  unfold chunk_text, chunk_text_body. total.
  apply chunk_while_terminates. cbn [cl_chunk_num]. lia.
Qed.

Local Hint Resolve chunk_text_returns : total.

Lemma get_embeddings_returns (text : string) (client : AzureOpenAI)
    (model : string) : returns (get_embeddings text client model).
Proof. unfold get_embeddings. total. Qed.

Local Hint Resolve get_embeddings_returns : total.

Lemma process_file_returns (client : AzureOpenAI) (model : string)
    (n_files : Z) (acc : Progress) (entry : Z * string) :
  returns (process_file client model n_files acc entry).
Proof.
  unfold process_file, process_chunks, process_chunk. total.
Qed.

Local Hint Resolve process_file_returns : total.

Lemma upload_all_returns (client : SearchClient)
    (records : list (Document float)) : returns (upload_all client records).
Proof. unfold upload_all, upload_batch. total. Qed.

Local Hint Resolve upload_all_returns : total.

(** [main] ends, normally or with what a step outside every [try] threw:
    no loop is cut short. *)
Lemma main_terminates : terminates main.
Proof.
  unfold main, upload_and_report. total.
Qed.

End ScriptTotality.

(** Two files, of 1200 and of 50 tokens, with services that always answer:
    the run ends normally, having made 1000 records of the first file and
    one of the second, and uploads the 1001 records in 201 batches. *)
Lemma two_files_run :
  let r := @main (Fixture.platform Fixture.happy) 0%nat in
  fst (fst r) = Ok tt
  /\ uploaded_summaries (snd r) = [(1001, 1001)]
  /\ PyList.len (upload_calls (snd r)) = 201.
Proof. vm_compute. repeat split. Qed.

(** * Further properties *)

(** ** Strings and pages *)

Lemma append_assoc (a b c : string) :
  ((a ++ b) ++ c)%string = (a ++ (b ++ c))%string.
Proof. induction a as [|x a IH]; simpl; [reflexivity|]. rewrite IH. reflexivity. Qed.

Lemma append_empty_r (a : string) : (a ++ "")%string = a.
Proof. induction a as [|x a IH]; simpl; [reflexivity|]. rewrite IH. reflexivity. Qed.

Lemma all_space_app (a b : string) :
  all_space (a ++ b)%string = all_space a && all_space b.
Proof.
  induction a as [|x a IH]; simpl; [reflexivity|].
  rewrite IH, andb_assoc. reflexivity.
Qed.

Lemma lstrip_all_space (s : string) : all_space s = true -> PyStr.lstrip s = "".
Proof.
  induction s as [|c s IH]; simpl; [reflexivity|].
  intros H. apply andb_true_iff in H as [Hc Hs]. rewrite Hc. auto.
Qed.

Lemma strip_all_space (s : string) : all_space s = true -> PyStr.strip s = "".
Proof. intros H. unfold PyStr.strip. rewrite lstrip_all_space by exact H. reflexivity. Qed.

Lemma rstrip_empty_all_space (s : string) :
  PyStr.rstrip s = "" -> all_space s = true.
Proof.
  induction s as [|c s IH]; simpl; [reflexivity|].
  destruct (PyStr.rstrip s) eqn:E; [|discriminate].
  destruct (PyStr.is_space c); [|discriminate]. intros _. simpl. auto.
Qed.

Lemma lstrip_suffix_all_space (s : string) :
  PyStr.lstrip s = "" -> all_space s = true.
Proof.
  induction s as [|c s IH]; simpl; [reflexivity|].
  destruct (PyStr.is_space c); [simpl; auto|discriminate].
Qed.

(** [s.strip()] is empty exactly when [s] is white space. *)
Lemma strip_empty_iff (s : string) :
  PyStr.strip s = "" <-> all_space s = true.
Proof.
  split; [|apply strip_all_space].
  unfold PyStr.strip. intros H. apply rstrip_empty_all_space in H.
  clear -H. induction s as [|c s IH]; simpl in *; [reflexivity|].
  destruct (PyStr.is_space c) eqn:Hc; simpl; [auto|].
  simpl in H. rewrite Hc in H. discriminate.
Qed.

Lemma pages_text_blank (pages : list (outcome string)) :
  forallb blank_page pages = true -> all_space (pages_text pages) = true.
Proof.
  induction pages as [|p pages IH]; simpl; [reflexivity|].
  intros H. apply andb_true_iff in H as [Hp Hrest].
  rewrite all_space_app, IH by exact Hrest. rewrite andb_true_r.
  destruct p as [t|e]; simpl; [|reflexivity].
  destruct (PyStr.truthy t); [|reflexivity].
  rewrite all_space_app. simpl in Hp. rewrite Hp. reflexivity.
Qed.

Section ExtractFacts.
Context {P : Platform}.

Lemma page_warnings_app (l1 l2 : list event) :
  page_warnings (l1 ++ l2) = page_warnings l1 ++ page_warnings l2.
Proof.
  unfold page_warnings, prints. rewrite flat_map_app. apply flat_map_app.
Qed.

Lemma calls_print (m : msg) (l : list event) : calls (Print m :: l) = calls l.
Proof. reflexivity. Qed.

Lemma calls_call (c : call) (l : list event) : calls (Call c :: l) = c :: calls l.
Proof. reflexivity. Qed.

Lemma page_warnings_call (c : call) (l : list event) :
  page_warnings (Call c :: l) = page_warnings l.
Proof. reflexivity. Qed.

Lemma page_warnings_print (m : msg) (l : list event) :
  page_warnings (Print m :: l)
  = match m with MPageWarning k e => [(k, e)] | _ => [] end ++ page_warnings l.
Proof.
  unfold page_warnings, prints. cbn [flat_map]. rewrite flat_map_app.
  cbn [flat_map]. rewrite app_nil_r. reflexivity.
Qed.

(** One turn of the page loop. *)
Lemma extract_page_run (n : Z) (text : string) (page_num : Z)
    (page : outcome string) (w : world) :
  exists l,
    extract_page n text (page_num, page) w
    = (Ok (text ++ page_contribution page)%string, w, l)
    /\ calls l = []
    /\ page_warnings l = failed_pages (page_num + 1) [page].
Proof.
  unfold extract_page. destruct page as [t|e]; run.
  - destruct ((page_num + 1) mod 10 =? 0); cbn [page_contribution];
      destruct (PyStr.truthy t); rewrite ?append_empty_r;
      eexists; (split; [reflexivity|split; reflexivity]).
  - cbn [page_contribution]. rewrite append_empty_r.
    eexists. split; [reflexivity|split; reflexivity].
Qed.

(** The page loop from page [i] on. *)
Lemma extract_pages_run (n : Z) (pages : list (outcome string)) :
  forall (i : Z) (text : string) (w : world),
  exists l,
    for_fold (extract_page n) (PyList.enumerate_from i pages) text w
    = (Ok (text ++ pages_text pages)%string, w, l)
    /\ calls l = []
    /\ page_warnings l = failed_pages (i + 1) pages.
Proof.
  induction pages as [|page pages IH]; intros i text w;
    cbn [PyList.enumerate_from for_fold pages_text fold_right].
  - rewrite append_empty_r. eexists. split; [reflexivity|split; reflexivity].
  - destruct (extract_page_run n text i page w) as (l1 & H1 & Hc1 & Hw1).
    destruct (IH (i + 1) (text ++ page_contribution page)%string w)
      as (l2 & H2 & Hc2 & Hw2).
    unfold bind. rewrite H1, H2. rewrite append_assoc.
    eexists. split; [reflexivity|].
    rewrite calls_app, page_warnings_app, Hc1, Hc2, Hw1, Hw2.
    split; [reflexivity|].
    destruct page; reflexivity.
Qed.

(** The whole of [extract_pdf_content], by what opening the file gives. *)
Lemma extract_pdf_content_run (pdf_path : string) (w : world) :
  exists l,
    extract_pdf_content pdf_path w
    = (Ok (match fst (open_pdf pdf_path w) with
           | Returns pages => PyStr.strip (pages_text pages)
           | Throws _ => ""
           end),
       snd (open_pdf pdf_path w), l)
    /\ calls l = [CallOpenPdf pdf_path (fst (open_pdf pdf_path w))]
    /\ page_warnings l =
       match fst (open_pdf pdf_path w) with
       | Returns pages => failed_pages 1 pages
       | Throws _ => []
       end.
Proof.
  unfold extract_pdf_content.
  unfold bind at 1. unfold print at 1. cbv beta iota zeta.
  unfold try_except, bind at 1, attempt.
  destruct (open_pdf pdf_path w) as [[pages|e] w1]; cbn [of_outcome fst snd].
  - destruct pages as [|page pages].
    + run. eexists. split; [reflexivity|split; reflexivity].
    + replace (PyList.len (page :: pages) =? 0) with false.
      2:{ symmetry. apply Z.eqb_neq. rewrite len_correct. simpl List.length. lia. }
      unfold bind at 1. unfold print at 1. cbv beta iota zeta.
      unfold bind at 1. unfold PyList.enumerate.
      destruct (extract_pages_run (PyList.len (page :: pages)) (page :: pages)
                  0 "" w1) as (l & -> & Hc & Hw).
      run. eexists. split; [reflexivity|].
      cbn [app].
      rewrite !calls_print, calls_call, calls_print, calls_app, Hc.
      rewrite !page_warnings_print, page_warnings_call, page_warnings_print,
        page_warnings_app, Hw.
      split; [reflexivity|]. cbn [app]. rewrite page_warnings_print.
      apply app_nil_r.
  - run. eexists. split; [reflexivity|split; reflexivity].
Qed.

End ExtractFacts.

(** ** Chunk windows *)

Lemma progress_no_calls {P : Platform} (l : list event) :
  Forall is_progress l -> calls l = [].
Proof.
  induction 1 as [|e l He _ IH]; [reflexivity|].
  destruct e as [m|c]; [|destruct He]. rewrite calls_print. exact IH.
Qed.

Lemma window_starts_closed (max_tokens overlap total : Z) (n : nat) :
  0 < overlap -> overlap <= max_tokens -> max_tokens < total ->
  forall j,
    window_starts max_tokens overlap total n
                  (window_start max_tokens overlap total j)
    = map (window_start max_tokens overlap total) (seq j n).
Proof.
  intros Hov Hle Hlt. induction n as [|n IH]; intros j; [reflexivity|].
  cbn [window_starts seq map]. f_equal.
  replace (next_start max_tokens overlap total
             (window_start max_tokens overlap total j))
    with (window_start max_tokens overlap total (S j)).
  - apply IH.
  - unfold next_start, window_start.
    rewrite Nat2Z.inj_succ, Z.mul_succ_r.
    assert (0 <= (max_tokens - overlap) * Z.of_nat j)
      by (apply Z.mul_nonneg_nonneg; lia).
    lia.
Qed.

Lemma window_shape (max_tokens overlap total : Z) (j : nat) :
  0 < overlap -> overlap <= max_tokens -> max_tokens < total ->
  0 <= window_start max_tokens overlap total j
  /\ window_start max_tokens overlap total j
     < window_end max_tokens overlap total j
  /\ window_end max_tokens overlap total j <= total
  /\ window_end max_tokens overlap total j
     - window_start max_tokens overlap total j <= max_tokens
  /\ window_start max_tokens overlap total (S j)
     = window_end max_tokens overlap total j - overlap.
Proof.
  intros. unfold window_end, window_start.
  rewrite Nat2Z.inj_succ, Z.mul_succ_r.
  assert (0 <= (max_tokens - overlap) * Z.of_nat j)
    by (apply Z.mul_nonneg_nonneg; lia).
  lia.
Qed.

(** A slice inside the list is what lies between the two bounds. *)
Lemma slice_inside {A} (l : list A) (lo hi : Z) :
  0 <= lo <= hi -> hi <= PyList.len l ->
  PyList.slice l lo hi
  = firstn (Z.to_nat (hi - lo)) (skipn (Z.to_nat lo) l)
  /\ PyList.len (PyList.slice l lo hi) = hi - lo.
Proof.
  intros Hlo Hhi. unfold PyList.slice, PyList.clamp.
  replace (lo <? 0) with false by (symmetry; apply Z.ltb_ge; lia).
  replace (hi <? 0) with false by (symmetry; apply Z.ltb_ge; lia).
  rewrite !Z.min_l by lia. split; [reflexivity|].
  rewrite len_correct in *. rewrite length_firstn, length_skipn. lia.
Qed.

Section ChunkRuns.
Context {P : Platform}.

(** A run of the loop that ends normally only adds chunks, and adds one if
    it starts with its condition true. *)
Lemma chunk_while_grows (tokenizer : Tokenizer) (tokens : list Z)
    (max_tokens overlap max_chunks : Z) (fuel : nat) :
  forall (st st' : ChunkLoop) (w w' : world) (l : list event),
    chunk_while fuel tokenizer tokens max_tokens overlap max_chunks st w
    = (Ok st', w', l) ->
    exists extra,
      cl_chunks st' = cl_chunks st ++ extra
      /\ ((cl_start st <? PyList.len tokens)
          && (cl_chunk_num st <? max_chunks) = true -> extra <> []).
Proof.
  induction fuel as [|fuel IH]; intros st st' w w' l; rewrite chunk_while_eq;
    destruct ((cl_start st <? PyList.len tokens)
              && (cl_chunk_num st <? max_chunks)) eqn:Hg.
  - discriminate.
  - intros H. inversion H; subst. exists []. rewrite app_nil_r.
    split; [reflexivity|discriminate].
  - unfold bind at 1, lift.
    destruct (decode tokenizer _) as [chunk|e]; cbn [of_outcome];
      [|discriminate].
    unfold bind at 1.
    destruct (when_progress ((cl_chunk_num st + 1) mod 25 =? 0)
                (MChunkProgress (cl_chunk_num st + 1) (cl_start st)
                                (PyList.len tokens)) w)
      as (lp & -> & _).
    cbv zeta.
    destruct (next_start max_tokens overlap (PyList.len tokens) (cl_start st)
              >=? PyList.len tokens).
    + intros H. inversion H; subst. cbn [cl_chunks].
      exists [chunk]. split; [reflexivity|discriminate].
    + destruct (chunk_while fuel tokenizer tokens max_tokens overlap max_chunks
                  _ w) as [[r w2] l2] eqn:Hrec.
      intros H. inversion H; subst.
      apply IH in Hrec as (extra & Hextra & _). cbn [cl_chunks] in Hextra.
      exists (chunk :: extra). rewrite Hextra, <- app_assoc.
      split; [reflexivity|discriminate].
  - intros H. inversion H; subst. exists []. rewrite app_nil_r.
    split; [reflexivity|discriminate].
Qed.

(** [chunk_text] as a whole: it ends normally, its one call to the outside
    loads the encoding, and for a non-negative [max_tokens] it gives at least
    one chunk. *)
Lemma chunk_text_run (text : string) (max_tokens overlap : Z) (w : world) :
  exists chunks l,
    chunk_text text max_tokens overlap w
    = (Ok chunks, snd (encoding_for_model "gpt-4" w), l)
    /\ calls l = [CallEncoding "gpt-4" (fst (encoding_for_model "gpt-4" w))]
    /\ (0 <= max_tokens -> chunks <> []).
Proof.
  unfold chunk_text, chunk_text_body. run.
  destruct (encoding_for_model "gpt-4" w) as [[tokenizer|e] w1]; run;
    cbn [fst snd];
    [|eexists _, _; split; [reflexivity|split; [reflexivity|discriminate]]].
  destruct (encode tokenizer text) as [tokens|e]; run;
    [|eexists _, _; split; [reflexivity|split; [reflexivity|discriminate]]].
  destruct (PyList.len tokens <=? max_tokens) eqn:Hlen;
    [eexists _, _; split; [reflexivity|split; [reflexivity|discriminate]]|].
  apply Z.leb_gt in Hlen.
  destruct (chunk_while_fuel tokenizer tokens max_tokens overlap 1000
              (Z.to_nat 1000) (mkChunkLoop 0 0 []) w1)
    as (r & l & Hrun & Hr & Hl); [cbn [cl_chunk_num]; lia|].
  rewrite Hrun. apply progress_no_calls in Hl.
  destruct r as [st|e|]; [| |congruence].
  - apply chunk_while_grows in Hrun as (extra & Hextra & Hne).
    cbn [cl_chunks cl_start cl_chunk_num app] in Hextra, Hne.
    destruct (cl_chunk_num st >=? 1000); eexists _, _;
      (split; [reflexivity|]); cbn [app];
      rewrite !calls_print, calls_call, calls_print, calls_app, Hl;
      (split; [reflexivity|]); intros Hmt; rewrite Hextra; apply Hne;
      apply andb_true_iff; split; apply Z.ltb_lt; lia.
  - eexists _, _. split; [reflexivity|]. cbn [app].
    rewrite !calls_print, calls_call, calls_print, calls_app, Hl.
    split; [reflexivity|discriminate].
Qed.

End ChunkRuns.

(** ** The records of one file *)

Section FileFacts.
Context {P : Platform}.
Variables (file_path : string).
Variables (openai_client : AzureOpenAI) (embedding_model : string).
Variable chunks : list string.

Let metadata := get_esg_metadata file_path.

Lemma process_chunk_record (docs docs' : list (Document float)) (i : Z)
    (chunk : string) (w w' : world) (l : list event) :
  process_chunk file_path metadata openai_client embedding_model chunks
                docs (i, chunk) w = (Ok docs', w', l) ->
  (docs' = docs /\ calls l = [CallEmbed openai_client chunk embedding_model
                                (fst (embeddings_create openai_client chunk
                                        embedding_model w))]
   /\ no_vector (fst (embeddings_create openai_client chunk
                        embedding_model w)) = true)
  \/ (exists d, docs' = docs ++ [d]
                /\ chunk_index d = i
                /\ doc_content d = chunk
                /\ total_chunks d = PyList.len chunks
                /\ content_vector d <> []
                /\ doc_file_path d = file_path
                /\ doc_file_format d = "PDF"
                /\ doc_document_type d = document_type metadata
                /\ doc_institution d = institution metadata
                /\ doc_year d = year metadata
                /\ doc_tags d = tags metadata
                /\ (exists wa wb,
                       stat_size file_path wa = (Returns (doc_file_size d), wb))
                /\ content_vector d
                   = embedding_of (fst (embeddings_create openai_client chunk
                                          embedding_model w))).
Proof.
  intros H. unfold process_chunk in H.
  unfold bind at 1 in H. unfold print at 1 in H. cbv beta iota zeta in H.
  unfold bind at 1 in H. rewrite get_embeddings_run in H.
  destruct (embeddings_create openai_client chunk embedding_model w)
    as [o w1]. cbn [fst].
  destruct (is_empty (embedding_of o)) eqn:Hempty.
  - run in H. inversion H; subst. left. repeat split; auto.
  - run in H.
    destruct (stat_size file_path w1) as [[size|e] w2] eqn:Hstat;
      [|discriminate].
    destruct (now_strftime w2) as [created w3].
    inversion H; subst. right. eexists. split; [reflexivity|].
    cbn [chunk_index total_chunks doc_content content_vector doc_file_path
         doc_file_format doc_document_type doc_institution doc_year doc_tags
         doc_file_size].
    repeat split.
    + intros E. rewrite E in Hempty. discriminate.
    + exists w1, w2. exact Hstat.
Qed.

(** The records the chunk loop adds for the chunks after [done]. *)
Lemma process_chunks_records (rest : list string) :
  forall (done : list string) (docs docs' : list (Document float))
         (w w' : world) (l : list event),
    chunks = done ++ rest ->
    for_fold (process_chunk file_path metadata openai_client embedding_model
                chunks)
             (PyList.enumerate_from (PyList.len done) rest) docs w
    = (Ok docs', w', l) ->
    exists new,
      docs' = docs ++ new
      /\ Forall (fun d => PyList.len done <= chunk_index d
                          /\ record_of file_path chunks d) new.
Proof.
  induction rest as [|chunk rest IH]; intros done docs docs' w w' l Hsplit Hrun.
  - inversion Hrun; subst. exists []. rewrite app_nil_r. split; constructor.
  - cbn [PyList.enumerate_from] in Hrun.
    apply for_fold_cons_ok in Hrun
      as (docs1 & w1 & l1 & l2 & Hstep & Hrest & ->).
    replace (PyList.len done + 1) with (PyList.len (done ++ [chunk])) in Hrest.
    2:{ rewrite !len_correct, length_app. cbn [List.length]. lia. }
    apply IH in Hrest as (new & -> & Hall).
    2:{ rewrite <- app_assoc. exact Hsplit. }
    assert (Hall' : Forall (fun d => PyList.len done <= chunk_index d
                                     /\ record_of file_path chunks d) new).
    { eapply Forall_impl; [|exact Hall]. cbv beta. intros d [Hi Hd].
      split; [|exact Hd]. rewrite !len_correct, length_app in Hi.
      rewrite len_correct. lia. }
    apply process_chunk_record in Hstep
      as [(-> & _)|(d & -> & Hi & Hc & Ht & Hv & Hp & Hf & Hm1 & Hm2 & Hm3
                    & Hm4 & Hs & He)].
    + exists new. split; [reflexivity|exact Hall'].
    + exists (d :: new). rewrite <- app_assoc. split; [reflexivity|].
      constructor; [|exact Hall'].
      split; [lia|]. unfold record_of.
      assert (Hlen : PyList.len chunks
                     = PyList.len done + 1 + PyList.len rest).
      { rewrite Hsplit, !len_correct, length_app. cbn [List.length]. lia. }
      pose proof (len_correct done) as Hd. pose proof (len_correct rest) as Hr.
      repeat split; auto; try lia.
      * rewrite Hi, Hc, Hsplit, Hd, Nat2Z.id.
        rewrite nth_error_app2 by lia. rewrite Nat.sub_diag. reflexivity.
      * rewrite Hc. eexists _, _, _. exact He.
Qed.

End FileFacts.

#[local] Hint Resolve returns_ret returns_print returns_when returns_perform
  returns_terminates terminates_lift terminates_attempt
  get_embeddings_returns : total.

Ltac total_steps :=
  repeat first
    [ progress intros
    | solve [auto with total]
    | apply returns_bind
    | apply terminates_bind
    | apply returns_for_fold
    | apply terminates_for_fold
    | apply returns_try
    | match goal with
      | |- returns (if ?c then _ else _) => destruct c
      | |- terminates (if ?c then _ else _) => destruct c
      | |- returns (match ?x with (_, _) => _ end) => destruct x
      | |- terminates (match ?x with (_, _) => _ end) => destruct x
      | |- terminates (try_except _ _) => apply returns_terminates
      end ].

Ltac in_trace :=
  cbn [app]; repeat (rewrite in_app_iff || cbn [In]); auto 20.

Section FileRun.
Context {P : Platform}.

Lemma process_chunks_terminates (file_path : string) (metadata : Metadata)
    (client : AzureOpenAI) (model : string) (chunks : list string) :
  terminates (process_chunks file_path metadata client model chunks).
Proof. unfold process_chunks, process_chunk. total_steps. Qed.

(** The three ways a turn of the file loop ends. *)
Lemma process_file_run (client : AzureOpenAI) (model : string) (n_files : Z)
    (acc : Progress) (file_index : Z) (file_path : string) (w : world) :
  let opened := open_pdf file_path w in
  let text := text_of (fst opened) in
  let name := PyStr.path_name file_path in
  exists acc' w' l,
    process_file client model n_files acc (file_index, file_path) w
    = (Ok acc', w', l)
    /\ ((text = "" /\ acc' = acc /\ w' = snd opened
         /\ calls l = [CallOpenPdf file_path (fst opened)]
         /\ In (Print (MSkipFile name)) l)
        \/ (text <> "" /\
            exists chunks lc lp r,
              chunk_text text 800 150 (snd opened)
              = (Ok chunks, snd (encoding_for_model "gpt-4" (snd opened)), lc)
              /\ chunks <> []
              /\ process_chunks file_path (get_esg_metadata file_path) client
                   model chunks (snd (encoding_for_model "gpt-4" (snd opened)))
                 = (r, w', lp)
              /\ calls l = CallOpenPdf file_path (fst opened)
                           :: CallEncoding "gpt-4"
                                (fst (encoding_for_model "gpt-4" (snd opened)))
                           :: calls lp
              /\ ((exists docs,
                      r = Ok docs
                      /\ acc' = mkProgress (all_documents acc ++ docs)
                                           (processed_files acc + 1)
                      /\ In (Print (MFileCompleted name (PyList.len docs))) l)
                  \/ (exists e, r = Raise e /\ acc' = acc
                                /\ In (Print (MFileError name e)) l)))).
Proof.
  cbv zeta. unfold process_file.
  set (name := PyStr.path_name file_path).
  unfold bind at 1. unfold print at 1. cbv beta iota zeta.
  unfold try_except, bind at 1.
  destruct (extract_pdf_content_run file_path w) as (lx & Hx & Hcx & _).
  fold (text_of (fst (open_pdf file_path w))) in Hx.
  rewrite Hx. clear Hx.
  set (opened := open_pdf file_path w) in *.
  destruct (text_of (fst opened)) as [|c text'] eqn:Htext.
  - cbn [PyStr.truthy negb]. run.
    eexists _, _, _. split; [reflexivity|]. left.
    repeat split; auto.
    + cbn [app]. rewrite calls_print, calls_app, Hcx. reflexivity.
    + in_trace.
  - cbn [PyStr.truthy negb].
    unfold bind at 1. unfold print at 1. cbv beta iota zeta.
    unfold bind at 1. unfold print at 1. cbv beta iota zeta.
    unfold bind at 1.
    destruct (chunk_text_run (String c text') 800 150 (snd opened))
      as (chunks & lc & Hc & Hcc & Hne).
    rewrite Hc.
    unfold bind at 1. unfold print at 1. cbv beta iota zeta.
    unfold bind at 1.
    pose proof (process_chunks_terminates file_path
                  (get_esg_metadata file_path) client model chunks
                  (snd (encoding_for_model "gpt-4" (snd opened)))) as Hterm.
    destruct (process_chunks file_path (get_esg_metadata file_path) client
                model chunks (snd (encoding_for_model "gpt-4" (snd opened))))
      as [[r w3] lp] eqn:Hp.
    cbn [fst] in Hterm.
    destruct r as [docs|e|]; [| |congruence].
    + run. eexists _, _, _. split; [reflexivity|]. right.
      split; [discriminate|].
      exists chunks, lc, lp, (Ok docs).
      split; [reflexivity|]. split; [apply Hne; lia|].
      split; [exact Hp|]. split.
      * cbn [app].
        rewrite calls_print, calls_app, Hcx. cbn [app].
        rewrite !calls_print, calls_app, Hcc. cbn [app].
        rewrite calls_print, calls_app. cbn [calls flat_map app].
        rewrite app_nil_r. reflexivity.
      * left. exists docs. split; [reflexivity|]. split; [reflexivity|].
        in_trace.
    + run. eexists _, _, _. split; [reflexivity|]. right.
      split; [discriminate|].
      exists chunks, lc, lp, (Raise e).
      split; [reflexivity|]. split; [apply Hne; lia|].
      split; [exact Hp|]. split.
      * cbn [app].
        rewrite calls_print, calls_app, calls_app, Hcx. cbn [app].
        rewrite !calls_print, calls_app, Hcc. cbn [app].
        rewrite calls_print. cbn [calls flat_map app].
        rewrite !app_nil_r. reflexivity.
      * right. exists e. split; [reflexivity|]. split; [reflexivity|].
        in_trace.
Qed.

End FileRun.

(** ** Which calls a computation makes *)

Section CallsOnly.
Context {P : Platform}.
Variable R : call -> Prop.

Lemma calls_only_ret {A} (a : A) : calls_only R (ret a).
Proof. intros w. constructor. Qed.

Lemma calls_only_print (m : msg) : calls_only R (print m).
Proof. intros w. constructor. Qed.

Lemma calls_only_lift {A} (o : outcome A) : calls_only R (lift o).
Proof. intros w. constructor. Qed.

Lemma calls_only_when (c : bool) (m : M unit) :
  calls_only R m -> calls_only R (when c m).
Proof. destruct c; [auto|intros _; apply calls_only_ret]. Qed.

Lemma calls_only_perform {A} (op : world -> A * world) (ev : A -> call) :
  (forall a, R (ev a)) -> calls_only R (perform op ev).
Proof.
  intros H w. unfold perform. destruct (op w). repeat constructor. apply H.
Qed.

Lemma calls_only_attempt {A} (op : world -> outcome A * world)
    (ev : outcome A -> call) :
  (forall o, R (ev o)) -> calls_only R (attempt op ev).
Proof.
  intros H w. unfold attempt. destruct (op w). repeat constructor. apply H.
Qed.

Lemma calls_only_bind {A B} (m : M A) (f : A -> M B) :
  calls_only R m -> (forall a, calls_only R (f a)) -> calls_only R (bind m f).
Proof.
  intros Hm Hf w. unfold bind. specialize (Hm w).
  destruct (m w) as [[[a|e|] w1] l1]; cbn [snd] in *; try exact Hm.
  specialize (Hf a w1). destruct (f a w1) as [[r w2] l2]. cbn [snd] in *.
  rewrite calls_app. apply Forall_app. auto.
Qed.

Lemma calls_only_try {A} (m : M A) (h : exn -> M A) :
  calls_only R m -> (forall e, calls_only R (h e)) ->
  calls_only R (try_except m h).
Proof.
  intros Hm Hh w. unfold try_except. specialize (Hm w).
  destruct (m w) as [[[a|e|] w1] l1]; cbn [snd] in *; try exact Hm.
  specialize (Hh e w1). destruct (h e w1) as [[r w2] l2]. cbn [snd] in *.
  rewrite calls_app. apply Forall_app. auto.
Qed.

Lemma calls_only_for_fold {A S} (body : S -> A -> M S) (xs : list A) (s : S) :
  (forall s x, calls_only R (body s x)) -> calls_only R (for_fold body xs s).
Proof.
  intros Hbody. revert s. induction xs as [|x xs IH]; intros s; cbn [for_fold].
  - apply calls_only_ret.
  - apply calls_only_bind; auto.
Qed.

End CallsOnly.

Create HintDb quiet.
#[local] Hint Resolve calls_only_ret calls_only_print calls_only_lift
  calls_only_when : quiet.

Ltac quiet_steps :=
  repeat first
    [ progress intros
    | solve [auto with quiet]
    | apply calls_only_bind
    | apply calls_only_try
    | apply calls_only_for_fold
    | apply calls_only_perform; intros;
      solve [reflexivity | exact I | split; reflexivity]
    | apply calls_only_attempt; intros;
      solve [reflexivity | exact I | split; reflexivity]
    | match goal with
      | |- calls_only _ (if ?c then _ else _) => destruct c
      | |- calls_only _ (match ?x with (_, _) => _ end) => destruct x
      end ].

Section Quiet.
Context {P : Platform}.

Lemma chunk_text_quiet (R : call -> Prop) (text : string)
    (max_tokens overlap : Z) :
  (forall o, R (CallEncoding "gpt-4" o)) ->
  calls_only R (chunk_text text max_tokens overlap).
Proof.
  intros HR w.
  destruct (chunk_text_run text max_tokens overlap w) as (c & l & Hrun & Hc & _).
  rewrite Hrun. cbn [snd]. rewrite Hc. repeat constructor. apply HR.
Qed.

Lemma extract_quiet (R : call -> Prop) (pdf_path : string) :
  (forall o, R (CallOpenPdf pdf_path o)) ->
  calls_only R (extract_pdf_content pdf_path).
Proof.
  intros HR w.
  destruct (extract_pdf_content_run pdf_path w) as (l & Hrun & Hc & _).
  rewrite Hrun. cbn [snd]. rewrite Hc. repeat constructor. apply HR.
Qed.

Lemma extract_no_upload (pdf_path : string) :
  calls_only (fun c => is_upload c = false) (extract_pdf_content pdf_path).
Proof. apply extract_quiet. reflexivity. Qed.

Lemma chunk_text_no_upload (text : string) (max_tokens overlap : Z) :
  calls_only (fun c => is_upload c = false)
             (chunk_text text max_tokens overlap).
Proof. apply chunk_text_quiet. reflexivity. Qed.

Local Hint Resolve extract_no_upload chunk_text_no_upload : quiet.

(** A turn of the file loop sends nothing to the index. *)
Lemma process_file_no_upload (client : AzureOpenAI) (model : string)
    (n_files : Z) (acc : Progress) (entry : Z * string) :
  calls_only (fun c => is_upload c = false)
             (process_file client model n_files acc entry).
Proof.
  unfold process_file, process_chunks, process_chunk, get_embeddings.
  quiet_steps.
Qed.

Lemma extract_embeds (client : AzureOpenAI) (model pdf_path : string) :
  calls_only (embeds_with client model) (extract_pdf_content pdf_path).
Proof. apply extract_quiet. intros o. exact I. Qed.

Lemma chunk_text_embeds (client : AzureOpenAI) (model text : string)
    (max_tokens overlap : Z) :
  calls_only (embeds_with client model) (chunk_text text max_tokens overlap).
Proof. apply chunk_text_quiet. intros o. exact I. Qed.

Local Hint Resolve extract_embeds chunk_text_embeds : quiet.

(** A turn of the file loop asks for embeddings with the client and the
    model it was given. *)
Lemma process_file_embeds (client : AzureOpenAI) (model : string)
    (n_files : Z) (acc : Progress) (entry : Z * string) :
  calls_only (embeds_with client model)
             (process_file client model n_files acc entry).
Proof.
  unfold process_file, process_chunks, process_chunk, get_embeddings.
  quiet_steps.
Qed.

(** The upload phase asks for no embedding. *)
Lemma upload_and_report_embeds (client : AzureOpenAI) (model : string)
    (search_client : SearchClient) (n_files : Z) (acc : Progress) :
  calls_only (embeds_with client model)
             (upload_and_report search_client n_files acc).
Proof. unfold upload_and_report, upload_all, upload_batch. quiet_steps. Qed.

(** The upload phase makes no call but uploads. *)
Lemma upload_and_report_only_uploads (client : SearchClient) (n_files : Z)
    (acc : Progress) :
  calls_only (fun c => is_upload c = true)
             (upload_and_report client n_files acc).
Proof. unfold upload_and_report, upload_all, upload_batch. quiet_steps. Qed.

End Quiet.

Section FileLoop.
Context {P : Platform}.

Lemma process_chunks_all_records (file_path : string) (client : AzureOpenAI)
    (model : string) (chunks : list string) (w w' : world)
    (docs : list (Document float)) (l : list event) :
  process_chunks file_path (get_esg_metadata file_path) client model chunks w
  = (Ok docs, w', l) ->
  Forall (record_of file_path chunks) docs.
Proof.
  intros H.
  pose proof (process_chunks_records file_path client model chunks chunks []
                [] docs w w' l eq_refl H) as (new & E & Hall).
  cbn [app] in E. subst new.
  eapply Forall_impl; [|exact Hall]. cbv beta. intros d [_ Hd]. exact Hd.
Qed.

Lemma record_in_run_app (l1 l l2 : list event) (d : Document float) :
  record_in_run l d -> record_in_run (l1 ++ l ++ l2) d.
Proof.
  intros (o & chunks & Hin & Hrest). exists o, chunks. split; [|exact Hrest].
  rewrite !calls_app, !in_app_iff. auto.
Qed.

(** The file loop: what it adds to the records and to the count of
    processed files. *)
Lemma file_loop_run (client : AzureOpenAI) (model : string) (n_files : Z)
    (entries : list (Z * string)) :
  forall (acc : Progress) (w : world),
  exists acc' w' l new,
    for_fold (process_file client model n_files) entries acc w
    = (Ok acc', w', l)
    /\ all_documents acc' = all_documents acc ++ new
    /\ Forall (fun d => In (doc_file_path d) (map snd entries)
                        /\ record_in_run l d)
              new
    /\ processed_files acc <= processed_files acc'
       <= processed_files acc + PyList.len entries
    /\ Forall (fun c => is_upload c = false) (calls l).
Proof.
  induction entries as [|[file_index file_path] entries IH]; intros acc w;
    cbn [for_fold].
  - exists acc, w, [], []. rewrite app_nil_r.
    repeat split; try constructor; try reflexivity. rewrite len_correct.
    cbn. lia.
  - destruct (process_file_run client model n_files acc file_index file_path w)
      as (acc1 & w1 & l1 & Hstep & Hcase).
    pose proof (process_file_no_upload client model n_files acc
                  (file_index, file_path) w) as Hquiet.
    rewrite Hstep in Hquiet. cbn [snd] in Hquiet.
    destruct (IH acc1 w1) as (acc' & w' & l2 & new & Hrest & Hdocs & Hall
                               & Hcount & Hq2).
    unfold bind. rewrite Hstep, Hrest.
    assert (Hlen : PyList.len ((file_index, file_path) :: entries)
                   = PyList.len entries + 1).
    { rewrite !len_correct. cbn [List.length]. lia. }
    assert (Hall' : Forall (fun d => In (doc_file_path d)
                                        (map snd ((file_index, file_path)
                                                  :: entries))
                                     /\ record_in_run (l1 ++ l2) d)
                           new).
    { eapply Forall_impl; [|exact Hall]. cbv beta. intros d [Hin Hd].
      split; [right; exact Hin|].
      apply (record_in_run_app l1 l2 []) in Hd. rewrite app_nil_r in Hd.
      exact Hd. }
    assert (Hq : Forall (fun c => is_upload c = false) (calls (l1 ++ l2))).
    { rewrite calls_app. apply Forall_app. auto. }
    cbv zeta in Hcase.
    destruct Hcase as [(_ & -> & _)
                      |(_ & chunks & lc & lp & r & Hchunk & _ & Hp & Hcalls
                        & [(docs & -> & -> & _)|(e & -> & -> & _)])].
    + exists acc', w', (l1 ++ l2), new. repeat split; auto; lia.
    + apply process_chunks_all_records in Hp.
      cbn [all_documents processed_files] in Hdocs, Hcount.
      exists acc', w', (l1 ++ l2), (docs ++ new).
      split; [reflexivity|]. split; [rewrite Hdocs, app_assoc; reflexivity|].
      split; [|split; [lia|exact Hq]].
      apply Forall_app. split; [|exact Hall'].
      eapply Forall_impl; [|exact Hp]. cbv beta. intros d Hd.
      assert (Hpath : doc_file_path d = file_path) by apply Hd.
      unfold record_in_run. rewrite Hpath. split; [left; reflexivity|].
      exists (fst (open_pdf file_path w)), chunks.
      split; [rewrite calls_app, Hcalls; apply in_or_app; left; left;
              reflexivity|].
      split; [eexists _, _, _; exact Hchunk|exact Hd].
    + exists acc', w', (l1 ++ l2), new. repeat split; auto; lia.
Qed.

End FileLoop.

(** ** The run of [main] *)

Section MainRun.
Context {P : Platform}.

Lemma upload_calls_print (m : msg) (l : list event) :
  upload_calls (Print m :: l) = upload_calls l.
Proof. reflexivity. Qed.

Lemma listing_run (pdf_files : list string) :
  forall (i : Z) (w : world),
    for_fold (fun (_ : unit) '(i, file_path) =>
                print (MFileEntry i (PyStr.path_name file_path)))
             (PyList.enumerate_from i pdf_files) tt w
    = (Ok tt, w,
       map (fun entry =>
              Print (MFileEntry (fst entry) (PyStr.path_name (snd entry))))
           (PyList.enumerate_from i pdf_files)).
Proof.
  induction pdf_files as [|f files IH]; intros i w;
    cbn [PyList.enumerate_from for_fold map]; [reflexivity|].
  unfold bind, print. rewrite IH. reflexivity.
Qed.

(** The upload phase: it ends normally, sends the records in batches and
    nothing else, and with no record sends nothing. *)
Lemma upload_and_report_batches (client : SearchClient) (n_files : Z)
    (acc : Progress) (w : world) :
  exists w' l,
    upload_and_report client n_files acc w = (Ok tt, w', l)
    /\ List.concat (map fst (upload_calls l)) = all_documents acc
    /\ Forall (fun c => is_upload c = true) (calls l)
    /\ (all_documents acc = [] -> l = [Print MNoDocuments] /\ w' = w).
Proof.
  assert (Hrun : exists w' l,
             upload_and_report client n_files acc w = (Ok tt, w', l)
             /\ List.concat (map fst (upload_calls l)) = all_documents acc
             /\ (all_documents acc = [] -> l = [Print MNoDocuments] /\ w' = w)).
  { unfold upload_and_report.
    destruct (all_documents acc) as [|d records] eqn:Hrec.
    - cbn [is_empty negb]. eexists _, _. split; [reflexivity|].
      repeat split; auto.
    - cbn [is_empty negb]. rewrite <- Hrec.
      destruct (upload_all_run client (all_documents acc) w)
        as (total & w' & lu & Hrun & Hconcat & _).
      cbv zeta in Hconcat.
      unfold bind at 1. unfold print at 1. cbv beta iota zeta.
      unfold bind at 1. rewrite Hrun. run.
      destruct (total <? PyList.len (all_documents acc)); eexists _, _;
        (split; [reflexivity|]); cbn [app];
        rewrite upload_calls_print, upload_calls_app;
        (split; [|rewrite Hrec; discriminate]);
        cbn [upload_calls calls flat_map app]; rewrite app_nil_r;
        exact Hconcat. }
  destruct Hrun as (w' & l & Hrun & Hconcat & Hempty).
  pose proof (upload_and_report_only_uploads client n_files acc w) as Honly.
  rewrite Hrun in Honly. cbn [snd] in Honly.
  exists w', l. auto.
Qed.

End MainRun.

Section MainFacts.
Context {P : Platform}.

Lemma enumerate_from_snd {A} (l : list A) (i : Z) :
  map snd (PyList.enumerate_from i l) = l.
Proof.
  revert i. induction l as [|x l IH]; intros i; cbn; [reflexivity|].
  rewrite IH. reflexivity.
Qed.

Lemma enumerate_from_length {A} (l : list A) (i : Z) :
  List.length (PyList.enumerate_from i l) = List.length l.
Proof. revert i. induction l; simpl; auto. Qed.

Lemma file_entries_calls (pdf_files : list string) :
  calls (file_entries pdf_files) = [].
Proof.
  unfold file_entries. induction (PyList.enumerate_from 1 pdf_files); auto.
Qed.

(** With a required variable unset [main] stops at the check. *)
Lemma main_missing (w : world) :
  filter env_absent required_vars <> [] ->
  main w =
  (Ok tt, w,
   [Print MBanner;
    Print (MMissingVars (PyStr.join ", " (filter env_absent required_vars)));
    Print MEnvHint]).
Proof.
  intros Hmissing. unfold main.
  destruct (filter env_absent required_vars) as [|var missing];
    [congruence|].
  reflexivity.
Qed.

(** [main] past the configuration check, the clients and the deployment
    name under their names. *)
Lemma main_configured (w : world) :
  filter env_absent required_vars = [] ->
  main w =
  (print MBanner;;
   print MInitClients;;
   lift (SearchClient_init env_search_client);;
   lift (AzureOpenAI_init env_openai_client);;
   dir_exists <- attempt (path_exists ESG_DATA_DIR) (CallExists ESG_DATA_DIR);;
   if negb dir_exists then
     print (MDirNotFound ESG_DATA_DIR);;
     print (MDirHint ESG_DATA_DIR)
   else
     pdf_files <- attempt (glob_pdf ESG_DATA_DIR) (CallGlob ESG_DATA_DIR);;
     if is_empty pdf_files then
       print (MNoPdfFiles ESG_DATA_DIR)
     else
       print (MFound (PyList.len pdf_files));;
       for_fold (fun (_ : unit) '(i, file_path) =>
                   print (MFileEntry i (PyStr.path_name file_path)))
                (PyList.enumerate_from 1 pdf_files) tt;;
       print MStarting;;
       acc <- for_fold (process_file env_openai_client env_embedding_model
                          (PyList.len pdf_files))
                       (PyList.enumerate_from 1 pdf_files)
                       (mkProgress [] 0);;
       upload_and_report env_search_client (PyList.len pdf_files) acc;;
       print MDone;;
       print MDoneHint) w.
Proof.
  intros Henv. unfold main. rewrite Henv. reflexivity.
Qed.

(** A client constructor that throws ends the run before any call. *)
Lemma main_search_client_throws (w : world) (e : exn) :
  filter env_absent required_vars = [] ->
  SearchClient_init env_search_client = Throws e ->
  main w = (Raise e, w, [Print MBanner; Print MInitClients]).
Proof.
  intros Henv Hsc. rewrite main_configured by exact Henv.
  run. rewrite Hsc. reflexivity.
Qed.

Lemma main_openai_client_throws (w : world) (e : exn) :
  filter env_absent required_vars = [] ->
  SearchClient_init env_search_client = Returns tt ->
  AzureOpenAI_init env_openai_client = Throws e ->
  main w = (Raise e, w, [Print MBanner; Print MInitClients]).
Proof.
  intros Henv Hsc Hao. rewrite main_configured by exact Henv.
  run. rewrite Hsc, Hao. reflexivity.
Qed.

(** What [exists] throws ends the run. *)
Lemma main_exists_throws (w : world) (e : exn) :
  filter env_absent required_vars = [] ->
  SearchClient_init env_search_client = Returns tt ->
  AzureOpenAI_init env_openai_client = Returns tt ->
  fst (path_exists ESG_DATA_DIR w) = Throws e ->
  main w =
  (Raise e, snd (path_exists ESG_DATA_DIR w),
   [Print MBanner; Print MInitClients;
    Call (CallExists ESG_DATA_DIR (Throws e))]).
Proof.
  intros Henv Hsc Hao Hex. rewrite main_configured by exact Henv.
  run. rewrite Hsc, Hao.
  destruct (path_exists ESG_DATA_DIR w) as [ex w1]. cbn [fst snd] in *.
  subst ex. reflexivity.
Qed.

(** Without the data directory [main] stops after looking for it. *)
Lemma main_no_directory (w : world) :
  filter env_absent required_vars = [] ->
  SearchClient_init env_search_client = Returns tt ->
  AzureOpenAI_init env_openai_client = Returns tt ->
  fst (path_exists ESG_DATA_DIR w) = Returns false ->
  main w =
  (Ok tt, snd (path_exists ESG_DATA_DIR w),
   [Print MBanner; Print MInitClients;
    Call (CallExists ESG_DATA_DIR (Returns false));
    Print (MDirNotFound ESG_DATA_DIR); Print (MDirHint ESG_DATA_DIR)]).
Proof.
  intros Henv Hsc Hao Hex. rewrite main_configured by exact Henv.
  run. rewrite Hsc, Hao.
  destruct (path_exists ESG_DATA_DIR w) as [ex w1]. cbn [fst snd] in *.
  subst ex. reflexivity.
Qed.

(** What [glob] throws ends the run. *)
Lemma main_glob_throws (w : world) (e : exn) :
  filter env_absent required_vars = [] ->
  SearchClient_init env_search_client = Returns tt ->
  AzureOpenAI_init env_openai_client = Returns tt ->
  fst (path_exists ESG_DATA_DIR w) = Returns true ->
  listing w = Throws e ->
  main w =
  (Raise e, snd (glob_pdf ESG_DATA_DIR (snd (path_exists ESG_DATA_DIR w))),
   [Print MBanner; Print MInitClients;
    Call (CallExists ESG_DATA_DIR (Returns true));
    Call (CallGlob ESG_DATA_DIR (Throws e))]).
Proof.
  unfold listing. intros Henv Hsc Hao Hex Hfiles.
  rewrite main_configured by exact Henv.
  run. rewrite Hsc, Hao.
  destruct (path_exists ESG_DATA_DIR w) as [ex w1]. cbn [fst snd] in *.
  subst ex. cbn [negb]. cbv beta iota zeta.
  destruct (glob_pdf ESG_DATA_DIR w1) as [files w2]. cbn [fst snd] in *.
  subst files. reflexivity.
Qed.

(** With no PDF file in the directory [main] stops after listing it. *)
Lemma main_no_files (w : world) :
  filter env_absent required_vars = [] ->
  SearchClient_init env_search_client = Returns tt ->
  AzureOpenAI_init env_openai_client = Returns tt ->
  fst (path_exists ESG_DATA_DIR w) = Returns true ->
  listing w = Returns [] ->
  main w =
  (Ok tt, snd (glob_pdf ESG_DATA_DIR (snd (path_exists ESG_DATA_DIR w))),
   [Print MBanner; Print MInitClients;
    Call (CallExists ESG_DATA_DIR (Returns true));
    Call (CallGlob ESG_DATA_DIR (Returns []));
    Print (MNoPdfFiles ESG_DATA_DIR)]).
Proof.
  unfold listing. intros Henv Hsc Hao Hex Hfiles.
  rewrite main_configured by exact Henv.
  run. rewrite Hsc, Hao.
  destruct (path_exists ESG_DATA_DIR w) as [ex w1]. cbn [fst snd] in *.
  subst ex. cbn [negb]. cbv beta iota zeta.
  destruct (glob_pdf ESG_DATA_DIR w1) as [files w2]. cbn [fst snd] in *.
  subst files. reflexivity.
Qed.

(** [main] when the four variables are set, the clients are built, the
    directory exists and holds PDF files: the trace is the preamble, the
    file loop, the upload phase and the two closing lines. *)
Lemma main_run (w : world) (pdf_files : list string) :
  filter env_absent required_vars = [] ->
  SearchClient_init env_search_client = Returns tt ->
  AzureOpenAI_init env_openai_client = Returns tt ->
  fst (path_exists ESG_DATA_DIR w) = Returns true ->
  listing w = Returns pdf_files ->
  pdf_files <> [] ->
  exists acc w3 ll w4 lr,
    for_fold (process_file env_openai_client env_embedding_model
                (PyList.len pdf_files))
             (PyList.enumerate_from 1 pdf_files) (mkProgress [] 0)
             (snd (glob_pdf ESG_DATA_DIR (snd (path_exists ESG_DATA_DIR w))))
    = (Ok acc, w3, ll)
    /\ upload_and_report env_search_client (PyList.len pdf_files) acc w3
       = (Ok tt, w4, lr)
    /\ main w
       = (Ok tt, w4,
          [Print MBanner; Print MInitClients;
           Call (CallExists ESG_DATA_DIR (Returns true));
           Call (CallGlob ESG_DATA_DIR (Returns pdf_files));
           Print (MFound (PyList.len pdf_files))]
          ++ file_entries pdf_files
          ++ [Print MStarting] ++ ll ++ lr ++ [Print MDone; Print MDoneHint]).
Proof.
  unfold listing. intros Henv Hsc Hao Hex Hlist Hfiles.
  rewrite main_configured by exact Henv.
  unfold bind at 1. unfold print at 1. cbv beta iota zeta.
  unfold bind at 1. unfold print at 1. cbv beta iota zeta.
  unfold bind at 1. rewrite Hsc. unfold lift at 1. cbn [of_outcome].
  cbv beta iota zeta.
  unfold bind at 1. rewrite Hao. unfold lift at 1. cbn [of_outcome].
  cbv beta iota zeta.
  unfold bind at 1. unfold attempt at 1.
  destruct (path_exists ESG_DATA_DIR w) as [ex w1] eqn:Hpe.
  cbn [fst snd] in *. subst ex. cbn [of_outcome negb]. cbv beta iota zeta.
  unfold bind at 1. unfold attempt at 1.
  destruct (glob_pdf ESG_DATA_DIR w1) as [files w2] eqn:Hg.
  cbn [fst snd] in *. subst files. cbn [of_outcome]. cbv beta iota zeta.
  destruct pdf_files as [|f files]; [congruence|]. cbn [is_empty].
  set (pdf_files := f :: files).
  unfold bind at 1. unfold print at 1. cbv beta iota zeta.
  unfold bind at 1. rewrite listing_run.
  unfold bind at 1. unfold print at 1. cbv beta iota zeta.
  unfold bind at 1.
  destruct (file_loop_run env_openai_client env_embedding_model
              (PyList.len pdf_files) (PyList.enumerate_from 1 pdf_files)
              (mkProgress [] 0) w2)
    as (acc & w3 & ll & new & Hloop & _).
  rewrite Hloop.
  unfold bind at 1.
  destruct (upload_and_report_batches env_search_client
              (PyList.len pdf_files) acc w3)
    as (w4 & lr & Hup & _).
  rewrite Hup. run.
  exists acc, w3, ll, w4, lr.
  split; [first [reflexivity|exact Hloop]|].
  split; [first [reflexivity|exact Hup]|].
  unfold file_entries. cbn [app]. rewrite ?app_nil_r.
  repeat (rewrite <- ?app_assoc; cbn [app]). reflexivity.
Qed.

(** The ways a run of [main] goes: it stops before the file loop, in the
    checks or on what a step outside every [try] threw, having made at most
    the two calls that look at the directory; or it runs the file loop and
    the upload phase. *)
Lemma main_cases (w : world) :
  (exists r w' l,
      main w = (r, w', l)
      /\ (r = Ok tt \/ exists e, r = Raise e /\ thrown_outside_try w e)
      /\ (filter env_absent required_vars <> []
          \/ SearchClient_init env_search_client <> Returns tt
          \/ AzureOpenAI_init env_openai_client <> Returns tt
          \/ fst (path_exists ESG_DATA_DIR w) <> Returns true
          \/ found_files w = [])
      /\ Forall (fun c => is_upload c = false) (calls l)
      /\ embed_outcomes l = [] /\ upload_calls l = []
      /\ ~ In (Print MNoDocuments) l)
  \/ (filter env_absent required_vars = []
      /\ SearchClient_init env_search_client = Returns tt
      /\ AzureOpenAI_init env_openai_client = Returns tt
      /\ fst (path_exists ESG_DATA_DIR w) = Returns true
      /\ listing w = Returns (found_files w)
      /\ found_files w <> []
      /\ exists acc w3 ll w4 lr new,
           main w
           = (Ok tt, w4,
              [Print MBanner; Print MInitClients;
               Call (CallExists ESG_DATA_DIR (Returns true));
               Call (CallGlob ESG_DATA_DIR (Returns (found_files w)));
               Print (MFound (PyList.len (found_files w)))]
              ++ file_entries (found_files w)
              ++ [Print MStarting] ++ ll ++ lr
              ++ [Print MDone; Print MDoneHint])
           /\ for_fold (process_file env_openai_client env_embedding_model
                          (PyList.len (found_files w)))
                       (PyList.enumerate_from 1 (found_files w))
                       (mkProgress [] 0)
                       (snd (glob_pdf ESG_DATA_DIR
                               (snd (path_exists ESG_DATA_DIR w))))
              = (Ok acc, w3, ll)
           /\ upload_and_report env_search_client
                (PyList.len (found_files w)) acc w3 = (Ok tt, w4, lr)
           /\ all_documents acc = new
           /\ Forall (fun d => In (doc_file_path d) (found_files w)
                               /\ record_in_run ll d) new
           /\ 0 <= processed_files acc <= PyList.len (found_files w)
           /\ Forall (fun c => is_upload c = false) (calls ll)
           /\ List.concat (map fst (upload_calls lr)) = new
           /\ Forall (fun c => is_upload c = true) (calls lr)
           /\ (new = [] -> lr = [Print MNoDocuments])).
Proof.
  destruct (filter env_absent required_vars) as [|v vs] eqn:Henv.
  2:{ left. pose proof (main_missing w) as Habort.
      rewrite Henv in Habort. rewrite Habort by discriminate.
      eexists _, _, _. split; [reflexivity|].
      split; [left; reflexivity|].
      split; [left; discriminate|].
      repeat split; try constructor.
      cbn [In]. intros [H|[H|[H|[]]]]; discriminate. }
  destruct (SearchClient_init env_search_client) as [[]|e] eqn:Hsc.
  2:{ left. rewrite (main_search_client_throws w e) by assumption.
      eexists _, _, _. split; [reflexivity|].
      split; [right; exists e; split; [reflexivity|left; exact Hsc]|].
      split; [right; left; discriminate|].
      repeat split; try constructor.
      cbn [In]. intros [H|[H|[]]]; discriminate. }
  destruct (AzureOpenAI_init env_openai_client) as [[]|e] eqn:Hao.
  2:{ left. rewrite (main_openai_client_throws w e) by assumption.
      eexists _, _, _. split; [reflexivity|].
      split; [right; exists e; split; [reflexivity|right; left; exact Hao]|].
      split; [right; right; left; discriminate|].
      repeat split; try constructor.
      cbn [In]. intros [H|[H|[]]]; discriminate. }
  destruct (fst (path_exists ESG_DATA_DIR w)) as [[|]|e] eqn:Hex.
  2:{ left. rewrite main_no_directory by assumption.
      eexists _, _, _. split; [reflexivity|].
      split; [left; reflexivity|].
      split; [right; right; right; left; discriminate|].
      repeat split; repeat constructor.
      cbn [In]. intros [H|[H|[H|[H|[H|[]]]]]]; discriminate. }
  2:{ left. rewrite (main_exists_throws w e) by assumption.
      eexists _, _, _. split; [reflexivity|].
      split; [right; exists e; split; [reflexivity|
                right; right; left; exact Hex]|].
      split; [right; right; right; left; discriminate|].
      repeat split; repeat constructor.
      cbn [In]. intros [H|[H|[H|[]]]]; discriminate. }
  destruct (listing w) as [[|f files]|e] eqn:Hlist.
  { left. rewrite main_no_files by assumption.
    eexists _, _, _. split; [reflexivity|].
    split; [left; reflexivity|].
    split; [right; right; right; right; unfold found_files; rewrite Hlist;
            reflexivity|].
    repeat split; repeat constructor.
    cbn [In]. intros [H|[H|[H|[H|[H|[]]]]]]; discriminate. }
  2:{ left. rewrite (main_glob_throws w e) by assumption.
      eexists _, _, _. split; [reflexivity|].
      split; [right; exists e; split; [reflexivity|
                right; right; right; exact Hlist]|].
      split; [right; right; right; right; unfold found_files; rewrite Hlist;
              reflexivity|].
      repeat split; repeat constructor.
      cbn [In]. intros [H|[H|[H|[H|[]]]]]; discriminate. }
  right.
  assert (Hfound : found_files w = f :: files)
    by (unfold found_files; rewrite Hlist; reflexivity).
  rewrite Hfound.
  split; [reflexivity|]. split; [reflexivity|]. split; [reflexivity|].
  split; [reflexivity|]. split; [reflexivity|]. split; [discriminate|].
  destruct (main_run w (f :: files) Henv Hsc Hao Hex Hlist)
    as (acc & w3 & ll & w4 & lr & Hloop & Hup & Hmain); [discriminate|].
  destruct (file_loop_run env_openai_client env_embedding_model
              (PyList.len (f :: files))
              (PyList.enumerate_from 1 (f :: files)) (mkProgress [] 0)
              (snd (glob_pdf ESG_DATA_DIR (snd (path_exists ESG_DATA_DIR w)))))
    as (acc' & w3' & ll' & new & Hloop' & Hdocs & Hall & Hcount & Hquiet).
  rewrite Hloop in Hloop'. inversion Hloop'; subst acc' w3' ll'. clear Hloop'.
  destruct (upload_and_report_batches env_search_client
              (PyList.len (f :: files)) acc w3)
    as (w4' & lr' & Hup' & Hconcat & Honly & Hempty).
  rewrite Hup in Hup'. inversion Hup'; subst w4' lr'. clear Hup'.
  cbn [all_documents processed_files app] in Hdocs, Hcount.
  rewrite enumerate_from_snd in Hall.
  exists acc, w3, ll, w4, lr, new.
  split; [exact Hmain|]. split; [exact Hloop|]. split; [exact Hup|].
  split; [exact Hdocs|]. split; [exact Hall|].
  split.
  { rewrite !len_correct in *. rewrite enumerate_from_length in Hcount. lia. }
  split; [exact Hquiet|]. split; [rewrite Hconcat; exact Hdocs|].
  split; [exact Honly|].
  intros Hnew. apply Hempty. rewrite Hdocs. exact Hnew.
Qed.

End MainFacts.

(** ** Configuration of [main] *)

#[local] Hint Resolve process_file_embeds upload_and_report_embeds : quiet.

(** Every embedding request of a run goes to the client, and asks for the
    deployment, that the environment names. *)
Lemma main_embeds {P : Platform} (w : world) :
  Forall (embeds_with env_openai_client env_embedding_model)
         (calls (snd (main w))).
Proof.
  destruct (filter env_absent required_vars) as [|v vs] eqn:Henv.
  - rewrite main_configured by exact Henv.
    match goal with
    | |- Forall ?R (calls (snd (?m w))) =>
        assert (H : calls_only R m); [|exact (H w)]
    end.
    quiet_steps.
  - pose proof (main_missing w) as Habort.
    rewrite Henv in Habort. rewrite Habort by discriminate.
    constructor.
Qed.

(** C7 (amended).  When one of the four variables of [required_vars] (index
    endpoint and key, embedding endpoint and key) is unset or empty, [main]
    prints the banner, the list of exactly those variables and a hint, and
    returns: it makes no call to the outside and leaves the world as it
    was.  The deployment name and the API version are not checked and the
    list never names them: every embedding request of a run uses the value
    the variable is set to, be it the empty string, and, when the variable
    is unset, the default "text-embedding-3-large", respectively
    "2024-02-01".  When the four are set the run goes on: it builds the two
    clients and, if the constructors accept them, looks for the data
    directory. *)
Theorem missing_required_aborts {P : Platform} (w : world) :
  (filter env_absent required_vars <> [] ->
   main w =
   (Ok tt, w,
    [Print MBanner;
     Print (MMissingVars (PyStr.join ", " (filter env_absent required_vars)));
     Print MEnvHint]))
  /\ (forall var,
         In var (filter env_absent required_vars) <->
         In var required_vars /\ (getenv var = None \/ getenv var = Some ""))
  /\ ~ In "AZURE_OPENAI_EMBEDDINGS_DEPLOYMENT_NAME"
          (filter env_absent required_vars)
  /\ ~ In "AZURE_OPENAI_API_VERSION" (filter env_absent required_vars)
  /\ (forall client text model o,
         In (CallEmbed client text model o) (calls (snd (main w))) ->
         client
         = mkAzureOpenAI
             (getenv "AZURE_OPENAI_EMBEDDINGS_ENDPOINT")
             (getenv "AZURE_OPENAI_EMBEDDINGS_API_KEY")
             (match getenv "AZURE_OPENAI_API_VERSION" with
              | Some v => v
              | None => "2024-02-01"
              end)
         /\ model
            = match getenv "AZURE_OPENAI_EMBEDDINGS_DEPLOYMENT_NAME" with
              | Some v => v
              | None => "text-embedding-3-large"
              end)
  /\ (filter env_absent required_vars = [] ->
      SearchClient_init
        (mkSearchClient (getenv "AZURE_SEARCH_ENDPOINT") INDEX_NAME
                        (getenv "AZURE_SEARCH_KEY")) = Returns tt ->
      AzureOpenAI_init
        (mkAzureOpenAI
           (getenv "AZURE_OPENAI_EMBEDDINGS_ENDPOINT")
           (getenv "AZURE_OPENAI_EMBEDDINGS_API_KEY")
           (match getenv "AZURE_OPENAI_API_VERSION" with
            | Some v => v
            | None => "2024-02-01"
            end)) = Returns tt ->
      exists l,
        snd (main w) =
        Print MBanner :: Print MInitClients
        :: Call (CallExists ESG_DATA_DIR (fst (path_exists ESG_DATA_DIR w)))
        :: l).
Proof.
  split; [|split; [|split; [|split; [|split]]]].
  - apply main_missing.
  - intros var. rewrite filter_In, env_absent_iff. reflexivity.
  - rewrite filter_In. intros [Hin _]. cbn in Hin.
    intuition discriminate.
  - rewrite filter_In. intros [Hin _]. cbn in Hin.
    intuition discriminate.
  - intros client text model o Hin.
    pose proof (main_embeds w) as Hall.
    rewrite Forall_forall in Hall. exact (Hall _ Hin).
  - intros Henv Hsc Hao.
    change (SearchClient_init env_search_client = Returns tt) in Hsc.
    change (AzureOpenAI_init env_openai_client = Returns tt) in Hao.
    destruct (fst (path_exists ESG_DATA_DIR w)) as [[|]|e] eqn:Hex.
    + destruct (listing w) as [[|f files]|e] eqn:Hlist.
      * rewrite main_no_files by assumption. eexists. reflexivity.
      * destruct (main_run w (f :: files) Henv Hsc Hao Hex Hlist)
          as (acc & w3 & ll & w4 & lr & _ & _ & Hmain); [discriminate|].
        rewrite Hmain. eexists. reflexivity.
      * rewrite (main_glob_throws w e) by assumption. eexists. reflexivity.
    + rewrite main_no_directory by assumption. eexists. reflexivity.
    + rewrite (main_exists_throws w e) by assumption. eexists. reflexivity.
Qed.

(** Without the index key nothing outside the process is touched; with the
    deployment name and the API version unset every embedding request of
    the run on one short file uses the defaults. *)
Lemma missing_required_aborts_witness :
  @main (Fixture.platform Fixture.no_search_key) 0%nat
  = (Ok tt, 0%nat,
     [Print MBanner; Print (MMissingVars "AZURE_SEARCH_KEY"); Print MEnvHint])
  /\ Forall
       (@embeds_with (Fixture.platform Fixture.small)
          (mkAzureOpenAI (Some "value") (Some "value") "2024-02-01")
          "text-embedding-3-large")
       (@calls (Fixture.platform Fixture.small)
          (snd (@main (Fixture.platform Fixture.small) 0%nat)))
  /\ @embed_outcomes (Fixture.platform Fixture.small)
       (snd (@main (Fixture.platform Fixture.small) 0%nat))
     = [Returns [1; 2; 3]].
Proof.
  split; [|split].
  - apply (@missing_required_aborts (Fixture.platform Fixture.no_search_key)
             0%nat).
    vm_compute. discriminate.
  - apply Forall_forall. intros c Hin.
    destruct c as [| | | | | |client text model o|]; try exact I.
    destruct (@missing_required_aborts (Fixture.platform Fixture.small)
                0%nat) as (_ & _ & _ & _ & Hembed & _).
    exact (Hembed client text model o Hin).
  - vm_compute. reflexivity.
Defined.


(** ** The range of the classifier *)

Lemma search_year_match (d1 d2 : ascii) (s : string) :
  PyStr.search_year (String "2" (String "0" (String d1 (String d2 s))))
  = if PyStr.is_digit d1 && PyStr.is_digit d2
    then Some (2000 + 10 * PyStr.digit_val d1 + PyStr.digit_val d2)
    else PyStr.search_year (String "0" (String d1 (String d2 s))).
Proof. reflexivity. Qed.

Lemma digit_val_range (c : ascii) :
  PyStr.is_digit c = true -> 0 <= PyStr.digit_val c <= 9.
Proof.
  unfold PyStr.is_digit, PyStr.digit_val. cbv zeta. intros H.
  apply andb_true_iff in H as [Ha Hb]. apply Nat.leb_le in Ha, Hb. lia.
Qed.

Lemma search_year_range (s : string) (y : Z) :
  PyStr.search_year s = Some y -> 2000 <= y <= 2099.
Proof.
  induction s as [|c s IH]; [discriminate|].
  destruct c as [[] [] [] [] [] [] [] []]; try exact IH.
  destruct s as [|b s]; [exact IH|].
  destruct b as [[] [] [] [] [] [] [] []]; try exact IH.
  destruct s as [|d1 s]; [exact IH|].
  destruct s as [|d2 s]; [exact IH|].
  rewrite search_year_match.
  destruct (PyStr.is_digit d1 && PyStr.is_digit d2) eqn:Hd; [|exact IH].
  apply andb_true_iff in Hd as [H1 H2].
  apply digit_val_range in H1, H2.
  remember (PyStr.digit_val d1) as a. remember (PyStr.digit_val d2) as b.
  intros H.
  assert (E : 2000 + 10 * a + b = y) by (injection H; auto).
  lia.
Qed.

(** X7. Whatever the file name, the year of the metadata lies between 2000
    and 2099. *)
Theorem year_in_this_century (file_path : string) :
  2000 <= year (get_esg_metadata file_path) <= 2099.
Proof.
  rewrite year_independent.
  destruct (PyStr.search_year _) eqn:E; [|lia].
  eapply search_year_range. exact E.
Qed.

Lemma classify_rules_range (filename : string) :
  In (document_type (classify_rules filename), tags (classify_rules filename))
     classifications
  /\ In (institution (classify_rules filename)) institutions.
Proof.
  unfold classify_rules, companies, environmental_terms, social_terms,
    governance_terms, PyStr.any_in.
  cbn [existsb first_company].
  repeat match goal with
         | |- context [if ?b then _ else _] => destruct b
         | |- context [?b || _] => destruct b; cbn [orb]
         end;
    (split; [cbn; auto 20|vm_compute; auto 20]).
Qed.

(** ** Stripping and sums *)

Lemma lstrip_clean (s : string) : starts_clean (PyStr.lstrip s).
Proof.
  induction s as [|c s IH]; cbn [PyStr.lstrip]; [exact I|].
  destruct (PyStr.is_space c) eqn:Hc; [exact IH|exact Hc].
Qed.

Lemma lstrip_of_clean (s : string) : starts_clean s -> PyStr.lstrip s = s.
Proof.
  destruct s as [|c s]; cbn; [reflexivity|]. intros ->. reflexivity.
Qed.

Lemma rstrip_clean (s : string) : starts_clean s -> starts_clean (PyStr.rstrip s).
Proof.
  destruct s as [|c s]; cbn [PyStr.rstrip]; [auto|].
  intros Hc. cbn in Hc.
  destruct (PyStr.rstrip s); [rewrite Hc|]; exact Hc.
Qed.

Lemma rstrip_idem (s : string) : PyStr.rstrip (PyStr.rstrip s) = PyStr.rstrip s.
Proof.
  induction s as [|c s IH]; [reflexivity|].
  cbn [PyStr.rstrip].
  destruct (PyStr.rstrip s) as [|c' r] eqn:E.
  - destruct (PyStr.is_space c) eqn:Hc; [reflexivity|].
    cbn [PyStr.rstrip]. rewrite Hc. reflexivity.
  - change (PyStr.rstrip (String c (String c' r)))
      with (match PyStr.rstrip (String c' r) with
            | EmptyString =>
                if PyStr.is_space c then EmptyString else String c EmptyString
            | r0 => String c r0
            end).
    rewrite IH. reflexivity.
Qed.

(** [s.strip().strip() == s.strip()] *)
Lemma strip_idem (s : string) : PyStr.strip (PyStr.strip s) = PyStr.strip s.
Proof.
  unfold PyStr.strip.
  rewrite (lstrip_of_clean (PyStr.rstrip (PyStr.lstrip s))).
  - apply rstrip_idem.
  - apply rstrip_clean, lstrip_clean.
Qed.

Lemma truthy_iff (s : string) : PyStr.truthy s = true <-> s <> "".
Proof. destruct s; cbn; split; congruence. Qed.

Lemma sum_lengths {A} (ls : list (list A)) :
  sum_Z (map PyList.len ls) = PyList.len (List.concat ls).
Proof.
  induction ls as [|l ls IH]; [reflexivity|].
  cbn [map sum_Z fold_right List.concat]. fold (sum_Z (map PyList.len ls)).
  rewrite IH, !len_correct, length_app. lia.
Qed.

Lemma credited_nonneg (o : outcome (list IndexingResult)) : 0 <= credited o.
Proof.
  destruct o; cbn; [|lia]. unfold success_count_of. rewrite len_correct. lia.
Qed.

Lemma sum_credited_bounds
    {F} (calls : list (list F * outcome (list IndexingResult))) :
  0 <= sum_Z (map credited (map snd calls))
  /\ (Forall (fun bo => credited (snd bo) <= PyList.len (fst bo)) calls ->
      sum_Z (map credited (map snd calls))
      <= sum_Z (map PyList.len (map fst calls))).
Proof.
  induction calls as [|[b o] calls [IH0 IH]]; cbn [map sum_Z fold_right fst snd].
  - split; [lia|intros _; lia].
  - fold (sum_Z (map credited (map snd calls))).
    fold (sum_Z (map PyList.len (map fst calls))).
    pose proof (credited_nonneg o). split; [lia|].
    intros H'. inversion H' as [|? ? Hb Hrest]; subst. cbn [fst snd] in Hb.
    specialize (IH Hrest). lia.
Qed.

Lemma window_covers (max_tokens overlap total i : Z) :
  0 < overlap -> overlap < max_tokens -> max_tokens < total ->
  total <= (max_tokens - overlap) * 999 + max_tokens ->
  0 <= i < total ->
  exists j, (j < 1000)%nat
            /\ window_start max_tokens overlap total j <= i
            /\ i < window_end max_tokens overlap total j.
Proof.
  intros Ho Hm Ht Hcap Hi.
  unfold window_end, window_start.
  remember (max_tokens - overlap) as step eqn:Estep.
  assert (Hstep : 0 < step) by lia.
  assert (Hq0 : 0 <= i / step) by (apply Z.div_pos; lia).
  pose proof (Z.mul_div_le i step Hstep) as Hdiv.
  pose proof (Z.mod_pos_bound i step Hstep) as Hmod.
  pose proof (Z.div_mod i step ltac:(lia)) as Hdm.
  remember (i / step) as d eqn:Ed.
  destruct (Z_le_gt_dec d 999) as [Hd|Hd].
  - exists (Z.to_nat d). rewrite Z2Nat.id by lia. split; [lia|]. lia.
  - exists 999%nat. split; [lia|].
    change (Z.of_nat 999) with 999.
    assert (step * 999 <= step * d) by (apply Z.mul_le_mono_nonneg_l; lia).
    lia.
Qed.


Section MoreFacts.
Context {P : Platform}.

Lemma no_upload_calls (l : list event) :
  Forall (fun c => is_upload c = false) (calls l) -> upload_calls l = [].
Proof.
  unfold upload_calls. induction (calls l) as [|c cs IH]; [reflexivity|].
  intros H. inversion H as [|? ? Hc Hcs]; subst. cbn [flat_map].
  rewrite (IH Hcs). destruct c; cbn in Hc |- *; congruence.
Qed.

Lemma only_upload_calls (l : list event) :
  Forall (fun c => is_upload c = true) (calls l) -> embed_outcomes l = [].
Proof.
  unfold embed_outcomes. induction (calls l) as [|c cs IH]; [reflexivity|].
  intros H. inversion H as [|? ? Hc Hcs]; subst. cbn [flat_map].
  rewrite (IH Hcs). destruct c; cbn in Hc |- *; congruence.
Qed.

(** A loop keeps what each turn keeps, as long as it runs. *)
Lemma for_fold_keeps {A S} (body : S -> A -> M S) (Inv : S -> Prop) :
  (forall s x w s' w' l, Inv s -> body s x w = (Ok s', w', l) -> Inv s') ->
  forall xs s w s' w' l,
    Inv s -> for_fold body xs s w = (Ok s', w', l) -> Inv s'.
Proof.
  intros Hbody. induction xs as [|x xs IH]; intros s w s' w' l Hs Hrun.
  - inversion Hrun; subst. exact Hs.
  - apply for_fold_cons_ok in Hrun as (s1 & w1 & l1 & l2 & Hstep & Hrest & _).
    eapply IH; [|exact Hrest]. eapply Hbody; eassumption.
Qed.

Section OneFile.
Variables (file_path : string) (metadata : Metadata).
Variables (openai_client : AzureOpenAI) (embedding_model : string).
Variable chunks : list string.

Lemma process_chunk_labels (docs docs' : list (Document float)) (i : Z)
    (chunk : string) (w w' : world) (l : list event) :
  process_chunk file_path metadata openai_client embedding_model chunks
                docs (i, chunk) w = (Ok docs', w', l) ->
  docs' = docs
  \/ exists d, docs' = docs ++ [d]
               /\ doc_title d = title_formula file_path d
               /\ doc_summary d = summary_formula file_path d
               /\ doc_relevance_score d
                  = true_div (PyStr.count_words (doc_content d)) 1000.
Proof.
  intros H. unfold process_chunk in H.
  unfold bind at 1 in H. unfold print at 1 in H. cbv beta iota zeta in H.
  unfold bind at 1 in H. rewrite get_embeddings_run in H.
  destruct (embeddings_create openai_client chunk embedding_model w)
    as [o w1].
  destruct (is_empty (embedding_of o)) eqn:Hempty.
  - run in H. inversion H; subst. left. reflexivity.
  - run in H.
    destruct (stat_size file_path w1) as [[size|e] w2] eqn:Hstat;
      [|discriminate].
    destruct (now_strftime w2) as [created w3].
    inversion H; subst. right. eexists. split; [reflexivity|].
    unfold title_formula, summary_formula.
    cbn [chunk_index total_chunks doc_content doc_title doc_summary
         doc_relevance_score].
    repeat split.
Qed.

(** When the size of the file cannot be read, a turn of the chunk loop adds
    nothing or raises. *)
Lemma process_chunk_no_stat (docs docs' : list (Document float)) (i : Z)
    (chunk : string) (w w' : world) (l : list event) :
  (forall w0, exists e, fst (stat_size file_path w0) = Throws e) ->
  process_chunk file_path metadata openai_client embedding_model chunks
                docs (i, chunk) w = (Ok docs', w', l) ->
  docs' = docs.
Proof.
  intros Hno H. unfold process_chunk in H.
  unfold bind at 1 in H. unfold print at 1 in H. cbv beta iota zeta in H.
  unfold bind at 1 in H. rewrite get_embeddings_run in H.
  destruct (embeddings_create openai_client chunk embedding_model w)
    as [o w1].
  destruct (is_empty (embedding_of o)) eqn:Hempty.
  - run in H. inversion H; subst. reflexivity.
  - run in H. destruct (Hno w1) as [e He].
    destruct (stat_size file_path w1) as [[size|e'] w2] eqn:Hstat;
      [cbn in He; discriminate|discriminate].
Qed.

Lemma process_chunks_no_stat (w w' : world) (docs : list (Document float))
    (l : list event) :
  (forall w0, exists e, fst (stat_size file_path w0) = Throws e) ->
  process_chunks file_path metadata openai_client embedding_model chunks w
  = (Ok docs, w', l) ->
  docs = [].
Proof.
  unfold process_chunks. intros Hno H.
  eapply (for_fold_keeps _ (fun s => s = [])) in H; [exact H| |reflexivity].
  intros s [i chunk] w0 s' w0' l0 -> Hstep.
  eapply process_chunk_no_stat; eassumption.
Qed.

End OneFile.
End MoreFacts.

(** ** Extraction *)

Lemma all_space_pages (pages : list (outcome string)) :
  all_space (pages_text pages) = forallb blank_page pages.
Proof.
  induction pages as [|page pages IH]; [reflexivity|].
  cbn [pages_text fold_right forallb]. fold (pages_text pages).
  rewrite all_space_app, IH. f_equal.
  destruct page as [t|e]; cbn [page_contribution blank_page]; [|reflexivity].
  destruct t as [|c t]; [reflexivity|].
  cbn [PyStr.truthy]. rewrite all_space_app. cbn. apply andb_true_r.
Qed.

Section ExtractionProperties.
Context {P : Platform}.

(** X1. [extract_pdf_content] never raises and opens the file once.  When
    the file opens, the text is the stripped concatenation of the pages that
    gave a non-empty text, each followed by a newline; a page that throws is
    left out and warned about under its number counted from 1.  When the
    file does not open, the text is empty. *)
Theorem extraction_joins_readable_pages (pdf_path : string) (w : world) :
  exists l,
    extract_pdf_content pdf_path w
    = (Ok (text_of (fst (open_pdf pdf_path w))), snd (open_pdf pdf_path w), l)
    /\ calls l = [CallOpenPdf pdf_path (fst (open_pdf pdf_path w))]
    /\ page_warnings l = match fst (open_pdf pdf_path w) with
                         | Returns pages => failed_pages 1 pages
                         | Throws _ => []
                         end.
Proof. exact (extract_pdf_content_run pdf_path w). Qed.

(** X2. [extract_pdf_content] returns the empty string exactly when the file
    does not open or every page is blank: it throws, or its text is empty or
    white space only (white space of the ASCII range). *)
Theorem extraction_empty_iff_blank (pdf_path : string) (w : world) :
  fst (fst (extract_pdf_content pdf_path w)) = Ok ""
  <-> match fst (open_pdf pdf_path w) with
      | Returns pages => forallb blank_page pages = true
      | Throws _ => True
      end.
Proof.
  destruct (extract_pdf_content_run pdf_path w) as (l & Hrun & _).
  rewrite Hrun. cbn [fst].
  destruct (fst (open_pdf pdf_path w)) as [pages|e].
  - rewrite <- all_space_pages, <- strip_empty_iff.
    split; [intros H; injection H; auto|intros ->; reflexivity].
  - split; auto.
Qed.

End ExtractionProperties.

(** ** Chunking *)

Section ChunkProperties.
Context {P : Platform}.

(** The chunks of a text longer than [max_tokens], window by window. *)
Lemma chunk_text_windows
    (text : string) (max_tokens overlap : Z) (w w1 : world)
    (tokenizer : Tokenizer) (tokens : list Z) (dec : list Z -> string) :
  encoding_for_model "gpt-4" w = (Returns tokenizer, w1) ->
  encode tokenizer text = Returns tokens ->
  (forall l, decode tokenizer l = Returns (dec l)) ->
  0 < overlap <= max_tokens ->
  max_tokens < PyList.len tokens ->
  exists l,
    chunk_text text max_tokens overlap w
    = (Ok (map (fun j =>
                  dec (PyList.slice tokens
                         (window_start max_tokens overlap (PyList.len tokens) j)
                         (window_end max_tokens overlap (PyList.len tokens) j)))
               (seq 0 1000)),
       w1, l)
    /\ In (Print (MChunkLimit 1000)) l.
Proof.
  intros Hload Henc Hdec Hov Hlen.
  destruct (chunk_text_fills text max_tokens overlap w w1 tokenizer tokens dec
              Hload Henc Hdec) as (l & Hrun & Hlimit); try lia.
  exists l. split; [|exact Hlimit]. rewrite Hrun. repeat f_equal.
  replace 0 with (window_start max_tokens overlap (PyList.len tokens) 0) at 1.
  2:{ unfold window_start. cbn [Z.of_nat]. lia. }
  rewrite window_starts_closed by lia.
  rewrite map_map. reflexivity.
Qed.

(** X3. [chunk_text] never raises, its only call outside the process loads
    the encoding, and with a limit that is not negative it returns at least
    one chunk. *)
Theorem chunk_text_loads_encoding_once
    (text : string) (max_tokens overlap : Z) (w : world) :
  exists chunks l,
    chunk_text text max_tokens overlap w
    = (Ok chunks, snd (encoding_for_model "gpt-4" w), l)
    /\ calls l = [CallEncoding "gpt-4" (fst (encoding_for_model "gpt-4" w))]
    /\ (0 <= max_tokens -> chunks <> []).
Proof. exact (chunk_text_run text max_tokens overlap w). Qed.

(** X4. For a text of more tokens than [max_tokens], with
    [0 < overlap <= max_tokens], chunk [j] decodes the tokens from
    [min((max_tokens - overlap) * j, total - overlap)] up to [max_tokens]
    further, or to the end of the text.  Every window lies inside the text,
    holds between 1 and [max_tokens] tokens, and the next one starts
    [overlap] tokens before it ends. *)
Theorem chunks_are_overlapping_windows
    (text : string) (max_tokens overlap : Z) (w w1 : world)
    (tokenizer : Tokenizer) (tokens : list Z) (dec : list Z -> string) :
  encoding_for_model "gpt-4" w = (Returns tokenizer, w1) ->
  encode tokenizer text = Returns tokens ->
  (forall l, decode tokenizer l = Returns (dec l)) ->
  0 < overlap <= max_tokens ->
  max_tokens < PyList.len tokens ->
  let total := PyList.len tokens in
  let lo := window_start max_tokens overlap total in
  let hi := window_end max_tokens overlap total in
  exists l,
    chunk_text text max_tokens overlap w
    = (Ok (map (fun j => dec (PyList.slice tokens (lo j) (hi j))) (seq 0 1000)),
       w1, l)
    /\ forall j,
         0 <= lo j < hi j /\ hi j <= total
         /\ PyList.len (PyList.slice tokens (lo j) (hi j)) = hi j - lo j
         /\ hi j - lo j <= max_tokens
         /\ lo (S j) = hi j - overlap.
Proof.
  intros Hload Henc Hdec Hov Hlen total lo hi.
  destruct (chunk_text_windows text max_tokens overlap w w1 tokenizer tokens
              dec Hload Henc Hdec Hov Hlen) as (l & Hrun & _).
  exists l. split; [exact Hrun|].
  intros j.
  destruct (window_shape max_tokens overlap total j) as (H0 & H1 & H2 & H3 & H4);
    try lia.
  fold lo in H0, H1, H4. fold hi in H1, H2, H3, H4. fold lo in H3.
  destruct (slice_inside tokens (lo j) (hi j)) as [_ Hs]; [lia|exact H2|].
  repeat split; auto; lia.
Qed.


(** X6. With [0 < overlap < max_tokens], a text of more than [max_tokens]
    and at most [(max_tokens - overlap) * 999 + max_tokens] tokens loses
    nothing: every token position lies in the window of some chunk. *)
Theorem every_token_in_some_chunk
    (text : string) (max_tokens overlap : Z) (w w1 : world)
    (tokenizer : Tokenizer) (tokens : list Z) (dec : list Z -> string) :
  encoding_for_model "gpt-4" w = (Returns tokenizer, w1) ->
  encode tokenizer text = Returns tokens ->
  (forall l, decode tokenizer l = Returns (dec l)) ->
  0 < overlap < max_tokens ->
  max_tokens < PyList.len tokens
  <= (max_tokens - overlap) * 999 + max_tokens ->
  exists chunks l,
    chunk_text text max_tokens overlap w = (Ok chunks, w1, l)
    /\ forall i,
         0 <= i < PyList.len tokens ->
         exists j lo hi,
           nth_error chunks j = Some (dec (PyList.slice tokens lo hi))
           /\ 0 <= lo <= i /\ i < hi <= PyList.len tokens.
Proof.
  intros Hload Henc Hdec Hov Hlen.
  destruct (chunk_text_windows text max_tokens overlap w w1 tokenizer tokens
              dec Hload Henc Hdec) as (l & Hrun & _); try lia.
  eexists _, l. split; [exact Hrun|].
  intros i Hi.
  destruct (window_covers max_tokens overlap (PyList.len tokens) i)
    as (j & Hj & Hlo & Hhi); try lia.
  destruct (window_shape max_tokens overlap (PyList.len tokens) j)
    as (H0 & H1 & H2 & _); try lia.
  exists j, (window_start max_tokens overlap (PyList.len tokens) j),
         (window_end max_tokens overlap (PyList.len tokens) j).
  split; [|lia].
  rewrite nth_error_map.
  rewrite (nth_error_nth' _ 0%nat) by (rewrite length_seq; exact Hj).
  rewrite seq_nth by exact Hj. reflexivity.
Qed.

End ChunkProperties.

Lemma chunks_are_overlapping_windows_witness :
  exists l,
    @chunk_text (Fixture.platform Fixture.small) (Fixture.letters 1200)
                800 150 0%nat
    = (Ok (map (fun j =>
                  Fixture.tokens_text
                    (PyList.slice
                       (Fixture.char_tokens (Fixture.letters 1200))
                       (window_start 800 150
                          (PyList.len (Fixture.char_tokens
                                         (Fixture.letters 1200))) j)
                       (window_end 800 150
                          (PyList.len (Fixture.char_tokens
                                         (Fixture.letters 1200))) j)))
               (seq 0 1000)),
       0%nat, l).
Proof.
  destruct (@chunks_are_overlapping_windows (Fixture.platform Fixture.small)
              (Fixture.letters 1200) 800 150 0%nat 0%nat
              Fixture.char_tokenizer
              (Fixture.char_tokens (Fixture.letters 1200))
              Fixture.tokens_text)
    as (l & Hrun & _).
  - reflexivity.
  - reflexivity.
  - intros l. reflexivity.
  - lia.
  - vm_compute. reflexivity.
  - exists l. exact Hrun.
Defined.


Lemma every_token_in_some_chunk_witness :
  exists chunks l,
    @chunk_text (Fixture.platform Fixture.small) (Fixture.letters 1200)
                800 150 0%nat
    = (Ok chunks, 0%nat, l)
    /\ exists j lo hi,
         nth_error chunks j
         = Some (Fixture.tokens_text
                   (PyList.slice (Fixture.char_tokens (Fixture.letters 1200))
                                 lo hi))
         /\ 0 <= lo <= 1199 /\ 1199 < hi.
Proof.
  destruct (@every_token_in_some_chunk (Fixture.platform Fixture.small)
              (Fixture.letters 1200) 800 150 0%nat 0%nat
              Fixture.char_tokenizer
              (Fixture.char_tokens (Fixture.letters 1200))
              Fixture.tokens_text)
    as (chunks & l & Hrun & Hcover).
  - reflexivity.
  - reflexivity.
  - intros l. reflexivity.
  - lia.
  - vm_compute. split; [reflexivity|discriminate].
  - exists chunks, l. split; [exact Hrun|].
    destruct (Hcover 1199) as (j & lo & hi & Hj & Hlo & Hhi).
    + vm_compute. split; [discriminate|reflexivity].
    + exists j, lo, hi. split; [exact Hj|]. lia.
Defined.

(** ** Classification, records and files *)

(** X8. Whatever the file name, the document type and the tags come
    together as one of nine fixed pairs, and the institution is "Unknown",
    one of the three standard setters or one of the seven companies. *)
Theorem classification_is_closed (file_path : string) :
  In (document_type (get_esg_metadata file_path),
      tags (get_esg_metadata file_path)) classifications
  /\ In (institution (get_esg_metadata file_path)) institutions.
Proof.
  destruct (rules_survive_year file_path) as (Hi & Hd & Ht).
  rewrite Hi, Hd, Ht. apply classify_rules_range.
Qed.

Section FileProperties.
Context {P : Platform}.

(** X9. Every record the chunk loop builds carries the chunk at its
    [chunk_index], a non-empty vector that the embedding service returned
    for that chunk, the path, "PDF", the metadata of the file name and a
    size that [stat] returned for the path. *)
Theorem records_describe_their_chunk
    (file_path : string) (client : AzureOpenAI) (model : string)
    (chunks : list string) (w w' : world) (docs : list (Document float))
    (l : list event) :
  process_chunks file_path (get_esg_metadata file_path) client model chunks w
  = (Ok docs, w', l) ->
  Forall (record_of file_path chunks) docs.
Proof. apply process_chunks_all_records. Qed.

(** X10. Titles and summaries count the parts from 1 while [chunk_index]
    counts from 0; a file of one chunk has its bare name as title and
    "Complete content from" as summary; the relevance score is the number
    of words of the chunk over 1000. *)
Theorem records_are_labelled
    (file_path : string) (metadata : Metadata) (client : AzureOpenAI)
    (model : string) (chunks : list string) (w w' : world)
    (docs : list (Document float)) (l : list event) :
  process_chunks file_path metadata client model chunks w = (Ok docs, w', l) ->
  Forall (fun d => doc_title d = title_formula file_path d
                   /\ doc_summary d = summary_formula file_path d
                   /\ doc_relevance_score d
                      = true_div (PyStr.count_words (doc_content d)) 1000)
         docs.
Proof.
  unfold process_chunks. intros H.
  eapply for_fold_keeps in H; [exact H| |constructor].
  intros s [i chunk] w0 s' w0' l0 Hs Hstep.
  apply process_chunk_labels in Hstep as [->|(d & -> & Hd)]; [exact Hs|].
  apply Forall_app. split; [exact Hs|]. constructor; [exact Hd|constructor].
Qed.

(** X11. A file that does not open, or whose pages are all blank, is
    skipped: the progress is unchanged, and opening the file is the only
    call made for it - no tokenizer, no embedding, no [stat]. *)
Theorem blank_pdf_is_skipped
    (client : AzureOpenAI) (model : string) (n_files : Z) (acc : Progress)
    (file_index : Z) (file_path : string) (w : world) :
  match fst (open_pdf file_path w) with
  | Returns pages => forallb blank_page pages = true
  | Throws _ => True
  end ->
  exists l,
    process_file client model n_files acc (file_index, file_path) w
    = (Ok acc, snd (open_pdf file_path w), l)
    /\ calls l = [CallOpenPdf file_path (fst (open_pdf file_path w))]
    /\ In (Print (MSkipFile (PyStr.path_name file_path))) l.
Proof.
  intros Hblank.
  assert (Htext : text_of (fst (open_pdf file_path w)) = "").
  { destruct (fst (open_pdf file_path w)) as [pages|e]; [|reflexivity].
    cbn [text_of]. apply strip_all_space. rewrite all_space_pages.
    exact Hblank. }
  destruct (process_file_run client model n_files acc file_index file_path w)
    as (acc' & w' & l & Hrun & Hcases).
  cbv zeta in Hcases.
  destruct Hcases as [(_ & -> & -> & Hcalls & Hskip)|(Hne & _)];
    [|contradiction].
  exists l. auto.
Qed.

(** X12. One file is all or nothing.  [process_file] never raises; it
    either leaves the progress as it was, or counts the file as processed
    and appends records that all describe chunks of this file: chunks of
    what [chunk_text], with 800 and 150, makes of the text extracted from
    the file. *)
Theorem file_is_all_or_nothing
    (client : AzureOpenAI) (model : string) (n_files : Z) (acc : Progress)
    (file_index : Z) (file_path : string) (w : world) :
  exists acc' w' l,
    process_file client model n_files acc (file_index, file_path) w
    = (Ok acc', w', l)
    /\ (acc' = acc
        \/ exists chunks docs w1 lc,
             chunk_text (text_of (fst (open_pdf file_path w))) 800 150
                        (snd (open_pdf file_path w))
             = (Ok chunks, w1, lc)
             /\ text_of (fst (open_pdf file_path w)) <> ""
             /\ acc' = mkProgress (all_documents acc ++ docs)
                                  (processed_files acc + 1)
             /\ chunks <> []
             /\ Forall (record_of file_path chunks) docs).
Proof.
  destruct (process_file_run client model n_files acc file_index file_path w)
    as (acc' & w' & l & Hrun & Hcases).
  cbv zeta in Hcases.
  exists acc', w', l. split; [exact Hrun|].
  destruct Hcases as [(_ & -> & _)|(Htext & chunks & lc & lp & r & Hchunk
                                    & Hne & Hp & _ & Hr)];
    [left; reflexivity|].
  destruct Hr as [(docs & -> & -> & _)|(e & _ & -> & _)];
    [|left; reflexivity].
  right. exists chunks, docs. eexists _, lc.
  split; [exact Hchunk|]. split; [exact Htext|].
  split; [reflexivity|]. split; [exact Hne|].
  eapply process_chunks_all_records. exact Hp.
Qed.

(** X13. When the size of a file cannot be read, the file adds no record,
    whatever was embedded for it. *)
Theorem stat_failure_drops_file
    (client : AzureOpenAI) (model : string) (n_files : Z) (acc : Progress)
    (file_index : Z) (file_path : string) (w : world) :
  (forall w0, exists e, fst (stat_size file_path w0) = Throws e) ->
  exists acc' w' l,
    process_file client model n_files acc (file_index, file_path) w
    = (Ok acc', w', l)
    /\ all_documents acc' = all_documents acc.
Proof.
  intros Hno.
  destruct (process_file_run client model n_files acc file_index file_path w)
    as (acc' & w' & l & Hrun & Hcases).
  cbv zeta in Hcases.
  exists acc', w', l. split; [exact Hrun|].
  destruct Hcases as [(_ & -> & _)|(_ & chunks & lc & lp & r & _ & Hne & Hp
                                    & _ & Hr)]; [reflexivity|].
  destruct Hr as [(docs & -> & -> & _)|(e & _ & -> & _)]; [|reflexivity].
  apply process_chunks_no_stat in Hp; [|exact Hno]. subst docs.
  cbn [all_documents]. apply app_nil_r.
Qed.

(** X14. The file loop never raises and only ever appends: the records of
    earlier files stay in place; every new record belongs to one of the
    files of the loop and describes a chunk of it, cut from the text
    extracted from what opening that file gave in this run; the count of
    processed files grows by at most one per file; and nothing is sent to
    the index. *)
Theorem file_loop_accumulates
    (client : AzureOpenAI) (model : string) (n_files : Z)
    (entries : list (Z * string)) (acc : Progress) (w : world) :
  exists acc' w' l new,
    for_fold (process_file client model n_files) entries acc w
    = (Ok acc', w', l)
    /\ all_documents acc' = all_documents acc ++ new
    /\ Forall (fun d =>
                In (doc_file_path d) (map snd entries)
                /\ exists o chunks,
                     In (CallOpenPdf (doc_file_path d) o) (calls l)
                     /\ (exists w0 w1 lc,
                            chunk_text (text_of o) 800 150 w0
                            = (Ok chunks, w1, lc))
                     /\ record_of (doc_file_path d) chunks d)
              new
    /\ processed_files acc <= processed_files acc'
       <= processed_files acc + PyList.len entries
    /\ Forall (fun c => is_upload c = false) (calls l).
Proof. apply file_loop_run. Qed.

End FileProperties.

Lemma records_describe_their_chunk_witness :
  exists docs,
    Forall (@record_of (Fixture.platform Fixture.small) "/d/note.pdf"
              ["a"; "b"]) docs
    /\ List.length docs = 2%nat.
Proof.
  eexists. split.
  - eapply (@records_describe_their_chunk (Fixture.platform Fixture.small)
              "/d/note.pdf" Fixture.client "model" ["a"; "b"] 0%nat).
    reflexivity.
  - reflexivity.
Defined.

Lemma records_are_labelled_witness :
  exists docs,
    Forall (fun d : Document Z =>
              doc_title d
              = @title_formula (Fixture.platform Fixture.small)
                  "/d/note.pdf" d
              /\ doc_summary d
                 = @summary_formula (Fixture.platform Fixture.small)
                     "/d/note.pdf" d
              /\ doc_relevance_score d
                 = PyStr.count_words (doc_content d)) docs
    /\ map (@doc_title Z) docs
       = ["note.pdf (Part 1/2)"; "note.pdf (Part 2/2)"].
Proof.
  eexists. split.
  - eapply (@records_are_labelled (Fixture.platform Fixture.small)
              "/d/note.pdf" default_metadata Fixture.client "model"
              ["a"; "b"] 0%nat).
    reflexivity.
  - reflexivity.
Defined.

Lemma blank_pdf_is_skipped_witness :
  exists l,
    @process_file (Fixture.platform Cases.scanned) Fixture.client "model" 1
      (mkProgress [] 0) (1, "/d/scan.pdf") 0%nat
    = (Ok (mkProgress [] 0), 0%nat, l)
    /\ In (Print (MSkipFile "scan.pdf")) l.
Proof.
  destruct (@blank_pdf_is_skipped (Fixture.platform Cases.scanned)
              Fixture.client "model" 1 (mkProgress [] 0) 1 "/d/scan.pdf"
              0%nat)
    as (l & Hrun & _ & Hskip).
  - reflexivity.
  - exists l. split; [exact Hrun|exact Hskip].
Defined.

Lemma stat_failure_drops_file_witness :
  exists acc' w' l,
    @process_file (Cases.failing_stat Fixture.small) Fixture.client "model" 1
      (mkProgress [] 0) (1, "/d/note.pdf") 0%nat
    = (Ok acc', w', l)
    /\ all_documents acc' = [].
Proof.
  apply (@stat_failure_drops_file (Cases.failing_stat Fixture.small)
           Fixture.client "model" 1 (mkProgress [] 0) 1 "/d/note.pdf" 0%nat).
  intros w0. exists "Permission denied". reflexivity.
Defined.

(** ** Runs, uploads and requirements *)

Section RunProperties.
Context {P : Platform}.

(** The batches of a full run are those of its upload phase. *)
Lemma full_run_uploads (pdf_files : list string) (ll lr : list event) :
  Forall (fun c => is_upload c = false) (calls ll) ->
  upload_calls
    ([Print MBanner; Print MInitClients;
      Call (CallExists ESG_DATA_DIR (Returns true));
      Call (CallGlob ESG_DATA_DIR (Returns pdf_files));
      Print (MFound (PyList.len pdf_files))]
     ++ file_entries pdf_files
     ++ [Print MStarting] ++ ll ++ lr ++ [Print MDone; Print MDoneHint])
  = upload_calls lr.
Proof.
  intros Hll. rewrite !upload_calls_app.
  rewrite (no_upload_calls ll Hll).
  rewrite (no_upload_calls (file_entries pdf_files))
    by (rewrite file_entries_calls; constructor).
  cbn. apply app_nil_r.
Qed.

(** A record of the file loop is a record of the whole run. *)
Lemma record_in_full_run (l1 l2 l3 ll lr l4 : list event)
    (d : Document float) :
  record_in_run ll d ->
  record_in_run (l1 ++ l2 ++ l3 ++ ll ++ lr ++ l4) d.
Proof.
  intros (o & chunks & Hin & Hrest). exists o, chunks. split; [|exact Hrest].
  rewrite !calls_app, !in_app_iff. auto 10.
Qed.


(** X16. Every record [main] sends to the index belongs to one of the
    files found in the data directory and describes one chunk of it: the
    run opened that file, the record carries one of the chunks that
    [chunk_text], with 800 and 150, makes of the text extracted from what
    opening it gave, a non-empty vector the embedding service returned for
    that chunk, and the metadata of the file name. *)
Theorem uploaded_records_are_sound (w : world) :
  exists r w' l,
    main w = (r, w', l)
    /\ Forall (fun d =>
                In (doc_file_path d) (found_files w)
                /\ exists o chunks,
                     In (CallOpenPdf (doc_file_path d) o) (calls l)
                     /\ (exists w0 w1 lc,
                            chunk_text (text_of o) 800 150 w0
                            = (Ok chunks, w1, lc))
                     /\ record_of (doc_file_path d) chunks d)
              (List.concat (map fst (upload_calls l))).
Proof.
  destruct (main_cases w)
    as [(r & w' & l & Hrun & _ & _ & _ & _ & Hup & _)
       |(_ & _ & _ & _ & _ & _ & acc & w3 & ll & w4 & lr & new
         & Hrun & _ & _ & _ & Hall & _ & Hll & Hconcat & _)].
  - exists r, w', l. split; [exact Hrun|]. rewrite Hup. constructor.
  - eexists _, _, _. split; [exact Hrun|].
    rewrite full_run_uploads by exact Hll. rewrite Hconcat.
    eapply Forall_impl; [|exact Hall]. cbv beta. intros d [Hin Hd].
    split; [exact Hin|]. apply record_in_full_run. exact Hd.
Qed.

(** X17. With the required settings present, the clients built and the
    data directory missing, [main] says so and stops: the existence check
    is its only call. *)
Theorem missing_directory_stops_run (w : world) :
  filter env_absent required_vars = [] ->
  SearchClient_init env_search_client = Returns tt ->
  AzureOpenAI_init env_openai_client = Returns tt ->
  fst (path_exists ESG_DATA_DIR w) = Returns false ->
  main w =
  (Ok tt, snd (path_exists ESG_DATA_DIR w),
   [Print MBanner; Print MInitClients;
    Call (CallExists ESG_DATA_DIR (Returns false));
    Print (MDirNotFound ESG_DATA_DIR); Print (MDirHint ESG_DATA_DIR)]).
Proof. apply main_no_directory. Qed.

(** X18. With the required settings present, the clients built and a data
    directory without PDF files, [main] says so and stops after listing
    the directory. *)
Theorem no_pdf_stops_run (w : world) :
  filter env_absent required_vars = [] ->
  SearchClient_init env_search_client = Returns tt ->
  AzureOpenAI_init env_openai_client = Returns tt ->
  fst (path_exists ESG_DATA_DIR w) = Returns true ->
  listing w = Returns [] ->
  main w =
  (Ok tt, snd (glob_pdf ESG_DATA_DIR (snd (path_exists ESG_DATA_DIR w))),
   [Print MBanner; Print MInitClients;
    Call (CallExists ESG_DATA_DIR (Returns true));
    Call (CallGlob ESG_DATA_DIR (Returns []));
    Print (MNoPdfFiles ESG_DATA_DIR)]).
Proof. apply main_no_files. Qed.

(** X19. When the embedding service gives no vector for any request, [main]
    sends nothing to the index, and a run that found files ends normally
    with the message that there is nothing to upload. *)
Theorem embedding_outage_uploads_nothing (w : world) :
  (forall client text model w0,
      embedding_of (fst (embeddings_create client text model w0)) = []) ->
  exists r w' l,
    main w = (r, w', l)
    /\ upload_calls l = []
    /\ (filter env_absent required_vars = [] ->
        SearchClient_init env_search_client = Returns tt ->
        AzureOpenAI_init env_openai_client = Returns tt ->
        fst (path_exists ESG_DATA_DIR w) = Returns true ->
        found_files w <> [] ->
        r = Ok tt /\ In (Print MNoDocuments) l).
Proof.
  intros Hdown.
  destruct (main_cases w)
    as [(r & w' & l & Hrun & _ & Hwhy & _ & _ & Hup & _)
       |(_ & _ & _ & _ & _ & _ & acc & w3 & ll & w4 & lr & new
         & Hrun & _ & _ & _ & Hall & _ & Hll & _ & _ & Hnone)].
  - exists r, w', l. split; [exact Hrun|]. split; [exact Hup|].
    intros Henv Hsc Hao Hdir Hfiles.
    destruct Hwhy as [H|[H|[H|[H|H]]]]; contradiction.
  - assert (Hnew : new = []).
    { destruct new as [|d new]; [reflexivity|].
      inversion Hall as [|? ? [_ (o & chunks & _ & _ & Hd)] _]; subst.
      destruct Hd as (_ & _ & _ & Hv & _ & _ & _ & _ & _ & _ & _
                      & c & m & w0 & He).
      rewrite Hdown in He. contradiction. }
    specialize (Hnone Hnew). subst lr.
    eexists _, _, _. split; [exact Hrun|].
    split.
    + rewrite full_run_uploads by exact Hll. reflexivity.
    + intros _ _ _ _ _. split; [reflexivity|].
      rewrite !in_app_iff. cbn [In]. auto 10.
Qed.

(** X20. The number of uploaded chunks that the summary reports is never
    negative, and it is at most the number of records as long as the index
    never reports more successes than a batch has records. *)
Theorem uploaded_count_bounds
    (search_client : SearchClient) (records : list (Document float))
    (w : world) :
  exists total_uploaded w' l,
    upload_all search_client records w = (Ok total_uploaded, w', l)
    /\ 0 <= total_uploaded
    /\ (Forall (fun sent => credited (snd sent) <= PyList.len (fst sent))
               (upload_calls l) ->
        total_uploaded <= PyList.len records).
Proof.
  destruct (upload_all_run search_client records w)
    as (total & w' & l & Hrun & Hconcat & _ & _ & Htotal).
  exists total, w', l. split; [exact Hrun|].
  destruct (sum_credited_bounds (upload_calls l)) as [H0 Hle].
  rewrite Htotal. split; [exact H0|].
  intros Hsane. specialize (Hle Hsane).
  rewrite sum_lengths, Hconcat in Hle. exact Hle.
Qed.

End RunProperties.

(** X21. Every requirement [setup.py] reads is non-empty and has no white
    space around it; a line gives a requirement as soon as it is not blank
    and its first character is not '#', so a comment behind leading white
    space is taken for a requirement. *)
Theorem requirements_are_stripped (lines : list string) (r : string) :
  In r (Setup.requirements lines)
  <-> exists line, In line lines /\ r = PyStr.strip line /\ r <> ""
                   /\ PyStr.strip r = r /\ prefix "#" line = false.
Proof.
  unfold Setup.requirements. rewrite in_map_iff. split.
  - intros (line & <- & Hin). apply filter_In in Hin as [Hin Hkeep].
    apply andb_true_iff in Hkeep as [Hne Hhash].
    exists line. split; [exact Hin|]. split; [reflexivity|].
    split; [apply truthy_iff; exact Hne|].
    split; [apply strip_idem|].
    apply negb_true_iff. exact Hhash.
  - intros (line & Hin & -> & Hne & _ & Hhash).
    exists line. split; [reflexivity|]. apply filter_In. split; [exact Hin|].
    apply andb_true_iff. split; [apply truthy_iff; exact Hne|].
    apply negb_true_iff. exact Hhash.
Qed.

Lemma missing_directory_stops_run_witness :
  @main (Fixture.platform Cases.no_dir) 0%nat =
  (Ok tt, 0%nat,
   [Print MBanner; Print MInitClients;
    Call (CallExists ESG_DATA_DIR (Returns false));
    Print (MDirNotFound ESG_DATA_DIR); Print (MDirHint ESG_DATA_DIR)]).
Proof.
  apply (@missing_directory_stops_run (Fixture.platform Cases.no_dir) 0%nat).
  - vm_compute. reflexivity.
  - reflexivity.
  - reflexivity.
  - reflexivity.
Defined.

Lemma no_pdf_stops_run_witness :
  @main (Fixture.platform Cases.no_pdfs) 0%nat =
  (Ok tt, 0%nat,
   [Print MBanner; Print MInitClients;
    Call (CallExists ESG_DATA_DIR (Returns true));
    Call (CallGlob ESG_DATA_DIR (Returns []));
    Print (MNoPdfFiles ESG_DATA_DIR)]).
Proof.
  apply (@no_pdf_stops_run (Fixture.platform Cases.no_pdfs) 0%nat).
  - vm_compute. reflexivity.
  - reflexivity.
  - reflexivity.
  - reflexivity.
  - reflexivity.
Defined.

Lemma embedding_outage_uploads_nothing_witness :
  exists w' l,
    @main (Fixture.platform Cases.embed_down) 0%nat = (Ok tt, w', l)
    /\ @upload_calls (Fixture.platform Cases.embed_down) l = []
    /\ In (Print MNoDocuments) l.
Proof.
  destruct (@embedding_outage_uploads_nothing
              (Fixture.platform Cases.embed_down) 0%nat)
    as (r & w' & l & Hrun & Hup & Hmsg).
  - intros client text model w0. reflexivity.
  - destruct Hmsg as [Hr Hin].
    + vm_compute. reflexivity.
    + reflexivity.
    + reflexivity.
    + reflexivity.
    + vm_compute. discriminate.
    + subst r. exists w', l. split; [exact Hrun|]. split; [exact Hup|].
      exact Hin.
Defined.

(** ** Chunking without overlap *)

(** Windows laid end to end from [start] make up the text from [start]. *)
Lemma windows_end_to_end (tokens : list Z) (max_tokens : Z) (m : nat) :
  0 < max_tokens ->
  forall start,
    0 <= start ->
    start + max_tokens * Z.of_nat m < PyList.len tokens ->
    PyList.len tokens <= start + max_tokens * (Z.of_nat m + 1) ->
    List.concat (map (fun k => window_tokens tokens max_tokens
                                 (start + max_tokens * Z.of_nat k))
                     (seq 0 (S m)))
    = skipn (Z.to_nat start) tokens.
Proof.
  intros Hmt. pose proof (len_correct tokens) as Hlen.
  induction m as [|m IH]; intros start H0 Hlo Hhi.
  - cbn [seq map List.concat]. rewrite app_nil_r.
    replace (start + max_tokens * Z.of_nat 0) with start by lia.
    unfold window_tokens.
    destruct (slice_inside tokens start
                (Z.min (start + max_tokens) (PyList.len tokens)))
      as [-> _]; try lia.
    apply firstn_all2. rewrite length_skipn. lia.
  - change (seq 0 (S (S m))) with (0%nat :: seq 1 (S m)).
    cbn [map List.concat].
    replace (start + max_tokens * Z.of_nat 0) with start by lia.
    rewrite <- seq_shift, map_map.
    rewrite (map_ext _ (fun k => window_tokens tokens max_tokens
                                   (start + max_tokens
                                    + max_tokens * Z.of_nat k)))
      by (intros k; f_equal; lia).
    rewrite IH by lia.
    unfold window_tokens.
    destruct (slice_inside tokens start
                (Z.min (start + max_tokens) (PyList.len tokens)))
      as [-> _]; try lia.
    replace (Z.min (start + max_tokens) (PyList.len tokens) - start)
      with max_tokens by lia.
    replace (Z.to_nat (start + max_tokens))
      with (Z.to_nat max_tokens + Z.to_nat start)%nat by lia.
    rewrite <- skipn_skipn. apply firstn_skipn.
Qed.

Section NoOverlap.
Context {P : Platform}.
Variables (tokenizer : Tokenizer) (tokens : list Z).
Variables (max_tokens max_chunks : Z) (dec : list Z -> string).
Hypothesis Hdec : forall l, decode tokenizer l = Returns (dec l).
Hypothesis Hmt : 0 < max_tokens.

(** Without overlap the loop stops at the end of the text, after the
    [m + 1] windows that are left. *)
Lemma chunk_while_end_to_end (m : nat) :
  forall (fuel : nat) (st : ChunkLoop) (w : world),
    0 <= cl_start st ->
    cl_start st + max_tokens * Z.of_nat m < PyList.len tokens ->
    PyList.len tokens <= cl_start st + max_tokens * (Z.of_nat m + 1) ->
    cl_chunk_num st + Z.of_nat m < max_chunks ->
    (m < fuel)%nat ->
    exists l,
      chunk_while fuel tokenizer tokens max_tokens 0 max_chunks st w
      = (Ok (mkChunkLoop (PyList.len tokens)
               (cl_chunk_num st + Z.of_nat m + 1)
               (cl_chunks st ++
                map (fun k => dec (window_tokens tokens max_tokens
                                     (cl_start st + max_tokens * Z.of_nat k)))
                    (seq 0 (S m)))), w, l).
Proof.
  induction m as [|m IH]; intros fuel [start n chunks] w H0 Hlo Hhi Hn Hfuel;
    (destruct fuel as [|fuel]; [lia|]);
    rewrite chunk_while_eq; cbn [cl_start cl_chunk_num cl_chunks] in *.
  - replace (start <? PyList.len tokens) with true
      by (symmetry; apply Z.ltb_lt; lia).
    replace (n <? max_chunks) with true by (symmetry; apply Z.ltb_lt; lia).
    cbn [andb].
    unfold bind at 1, lift. rewrite Hdec. cbn [of_outcome].
    unfold bind at 1.
    destruct (when_progress ((n + 1) mod 25 =? 0)
                (MChunkProgress (n + 1) start (PyList.len tokens)) w)
      as (lp & -> & _).
    cbv zeta.
    assert (Hnext : next_start max_tokens 0 (PyList.len tokens) start
                    = PyList.len tokens) by (unfold next_start; lia).
    rewrite Hnext.
    replace (PyList.len tokens >=? PyList.len tokens) with true
      by (symmetry; rewrite Z.geb_leb; apply Z.leb_le; lia).
    eexists. unfold ret. cbn [seq map].
    replace (start + max_tokens * Z.of_nat 0) with start by lia.
    replace (n + Z.of_nat 0 + 1) with (n + 1) by lia.
    reflexivity.
  - replace (start <? PyList.len tokens) with true
      by (symmetry; apply Z.ltb_lt; lia).
    replace (n <? max_chunks) with true by (symmetry; apply Z.ltb_lt; lia).
    cbn [andb].
    unfold bind at 1, lift. rewrite Hdec. cbn [of_outcome].
    unfold bind at 1.
    destruct (when_progress ((n + 1) mod 25 =? 0)
                (MChunkProgress (n + 1) start (PyList.len tokens)) w)
      as (lp & -> & _).
    cbv zeta.
    assert (Hnext : next_start max_tokens 0 (PyList.len tokens) start
                    = start + max_tokens) by (unfold next_start; lia).
    rewrite Hnext.
    replace (start + max_tokens >=? PyList.len tokens) with false
      by (symmetry; rewrite Z.geb_leb; apply Z.leb_gt; lia).
    edestruct (IH fuel
                 (mkChunkLoop (start + max_tokens) (n + 1)
                    (chunks ++ [dec (window_tokens tokens max_tokens start)]))
                 w) as (l & ->);
      cbn [cl_start cl_chunk_num cl_chunks]; try lia.
    replace (n + 1 + Z.of_nat m + 1) with (n + Z.of_nat (S m) + 1) by lia.
    assert (E : (chunks ++ [dec (window_tokens tokens max_tokens start)])
                ++ map (fun k => dec (window_tokens tokens max_tokens
                                        (start + max_tokens
                                         + max_tokens * Z.of_nat k)))
                       (seq 0 (S m))
                = chunks
                  ++ map (fun k => dec (window_tokens tokens max_tokens
                                          (start + max_tokens * Z.of_nat k)))
                         (seq 0 (S (S m)))).
    { rewrite <- app_assoc. f_equal.
      change (seq 0 (S (S m))) with (0%nat :: seq 1 (S m)).
      cbn [map app].
      replace (start + max_tokens * Z.of_nat 0) with start by lia.
      f_equal. rewrite <- seq_shift, map_map.
      apply map_ext. intros k. do 2 f_equal. lia. }
    rewrite E. eexists. reflexivity.
Qed.

End NoOverlap.

Section NoOverlapText.
Context {P : Platform}.

(** X22. Without overlap the chunker cuts the text cleanly.  A text of more
    than [max_tokens] and at most [1000 * max_tokens] tokens comes back as
    its consecutive windows of [max_tokens] tokens, the last one shorter
    when the length is no multiple: [(total - 1) / max_tokens + 1] chunks
    whose windows, laid end to end, are the tokens of the text. *)
Theorem no_overlap_partitions
    (text : string) (max_tokens : Z) (w w1 : world)
    (tokenizer : Tokenizer) (tokens : list Z) (dec : list Z -> string) :
  encoding_for_model "gpt-4" w = (Returns tokenizer, w1) ->
  encode tokenizer text = Returns tokens ->
  (forall l, decode tokenizer l = Returns (dec l)) ->
  0 < max_tokens < PyList.len tokens ->
  PyList.len tokens <= 1000 * max_tokens ->
  let windows :=
    map (fun k => PyList.slice tokens (max_tokens * Z.of_nat k)
                    (Z.min (max_tokens * Z.of_nat k + max_tokens)
                           (PyList.len tokens)))
        (seq 0 (Z.to_nat ((PyList.len tokens - 1) / max_tokens + 1))) in
  List.concat windows = tokens
  /\ exists l,
       chunk_text text max_tokens 0 w = (Ok (map dec windows), w1, l).
Proof.
  intros Hload Henc Hdec Hmt Hcap windows.
  set (m := Z.to_nat ((PyList.len tokens - 1) / max_tokens)).
  assert (Hm0 : 0 <= (PyList.len tokens - 1) / max_tokens)
    by (apply Z.div_pos; lia).
  assert (Hdiv : max_tokens * ((PyList.len tokens - 1) / max_tokens)
                 <= PyList.len tokens - 1)
    by (apply Z.mul_div_le; lia).
  assert (Hmod : 0 <= (PyList.len tokens - 1) mod max_tokens < max_tokens)
    by (apply Z.mod_pos_bound; lia).
  pose proof (Z.div_mod (PyList.len tokens - 1) max_tokens ltac:(lia)) as Hdm.
  assert (Hm : Z.of_nat m = (PyList.len tokens - 1) / max_tokens)
    by (unfold m; lia).
  assert (Hlt : (PyList.len tokens - 1) / max_tokens < 1000).
  { apply Z.div_lt_upper_bound; lia. }
  assert (Hwin : windows
                 = map (fun k => window_tokens tokens max_tokens
                                   (0 + max_tokens * Z.of_nat k))
                       (seq 0 (S m))).
  { unfold windows.
    replace (Z.to_nat ((PyList.len tokens - 1) / max_tokens + 1))
      with (S m) by lia.
    apply map_ext. intros k. reflexivity. }
  split.
  - rewrite Hwin. rewrite windows_end_to_end; try lia. reflexivity.
  - unfold chunk_text, chunk_text_body. run.
    rewrite Hload. run. rewrite Henc. run.
    replace (PyList.len tokens <=? max_tokens) with false
      by (symmetry; apply Z.leb_gt; lia).
    destruct (chunk_while_end_to_end tokenizer tokens max_tokens 1000 dec
                Hdec ltac:(lia) m (Z.to_nat 1000) (mkChunkLoop 0 0 []) w1)
      as (l & Hrun); cbn [cl_start cl_chunk_num cl_chunks]; try lia.
    rewrite Hrun. cbn [cl_chunk_num cl_chunks app].
    rewrite Hwin, map_map.
    destruct (0 + Z.of_nat m + 1 >=? 1000); eexists; reflexivity.
Qed.

End NoOverlapText.

Lemma no_overlap_partitions_witness :
  exists chunks l,
    @chunk_text (Fixture.platform Fixture.small) (Fixture.letters 1200)
                800 0 0%nat
    = (Ok chunks, 0%nat, l)
    /\ PyList.len chunks = 2.
Proof.
  destruct (@no_overlap_partitions (Fixture.platform Fixture.small)
              (Fixture.letters 1200) 800 0%nat 0%nat
              Fixture.char_tokenizer
              (Fixture.char_tokens (Fixture.letters 1200))
              Fixture.tokens_text)
    as (_ & l & Hrun).
  - reflexivity.
  - reflexivity.
  - intros l. reflexivity.
  - vm_compute. split; reflexivity.
  - vm_compute. discriminate.
  - eexists _, l. split; [exact Hrun|]. vm_compute. reflexivity.
Defined.
